(** * Polymarket agent: risk-adjusted decision engine

    A shallow embedding of the decision core of the agent
    ([utils/helpers.py], [strategies/base.py], [services/risk_manager.py],
    [services/llm.py], [services/news.py],
    [strategies/llm_expiring_markets.py], [strategies/interactive.py] and
    the aggregation / execution loop of [main.py]) together with the
    properties its specification states about it.

    Numbers.  Python [float] values are idealised as exact rationals [Q];
    Python [int] values are [Z].  Every comparison, branch and arithmetic
    expression is kept as the source writes it; only the rounding of
    binary floating point is abstracted away.

    Exceptions.  Code that can raise returns in the [result] monad below. *)

From Stdlib Require Import ZArith QArith Qround Qabs Qminmax Lqa Lia Bool List.
From Stdlib Require Import Ascii String DecimalString.
From Stdlib Require Import Permutation Sorted.
Import ListNotations.

Local Open Scope Q_scope.

(* ===================================================================== *)
(** ** Python runtime: exceptions, numbers, formatting *)
(* ===================================================================== *)

Module Py.

(** The exceptions the modelled code can raise. *)
Inductive exn : Type :=
| ZeroDivisionError
| TypeError
| AttributeError.

Inductive result (A : Type) : Type :=
| Ok (a : A)
| Raise (e : exn).
Arguments Ok {A} a.
Arguments Raise {A} e.

Definition bind {A B : Type} (m : result A) (k : A -> result B) : result B :=
  match m with
  | Ok a => k a
  | Raise e => Raise e
  end.

(** [a < b], [a <= b], [a == b] on numbers. *)
Definition ltb (a b : Q) : bool := negb (Qle_bool b a).
Definition leb (a b : Q) : bool := Qle_bool a b.
Definition eqb (a b : Q) : bool := Qeq_bool a b.

(** [a / b]: raises [ZeroDivisionError] on a zero divisor. *)
Definition div (a b : Q) : result Q :=
  if eqb b 0 then Raise ZeroDivisionError else Ok (a / b).

(** [min(a, b)]: the first argument wins ties. *)
Definition min (a b : Q) : Q := if ltb b a then b else a.

(** [abs(x)]. *)
Definition abs (x : Q) : Q := Qabs x.

(** [int(x)]: truncation towards zero. *)
Definition int (x : Q) : Z := Z.quot (Qnum x) (Zpos (Qden x)).

(** Truthiness of a number: zero is falsy. *)
Definition truthy (x : Q) : bool := negb (eqb x 0).

(** [str.upper()], on the ASCII letters. *)
Definition upper_ascii (c : ascii) : ascii :=
  let n := nat_of_ascii c in
  if (Nat.leb 97 n && Nat.leb n 122)%bool then ascii_of_nat (n - 32) else c.

Fixpoint upper (s : string) : string :=
  match s with
  | EmptyString => EmptyString
  | String c r => String (upper_ascii c) (upper r)
  end.

(** [sep.join(parts)]. *)
Fixpoint join (sep : string) (parts : list string) : string :=
  match parts with
  | [] => EmptyString
  | [p] => p
  | p :: rest => (p ++ sep ++ join sep rest)%string
  end.

(** Nearest integer, ties to even (the rounding of [format]). *)
Definition round_half_even (x : Q) : Z :=
  let f := Qfloor x in
  let r := x - inject_Z f in
  if ltb r (1 # 2) then f
  else if ltb (1 # 2) r then (f + 1)%Z
  else if Z.even f then f else (f + 1)%Z.

Definition digits_of (n : Z) : string :=
  NilZero.string_of_uint (N.to_uint (Z.to_N n)).

Fixpoint zero_pad (width : nat) (s : string) : string :=
  if Nat.ltb (String.length s) width
  then match width with
       | O => s
       | S w => String "0" (zero_pad w s)
       end
  else s.

(** [format(x, ".<d>f")]: fixed point with [d] decimals.  The exact value
    is rounded, so a decimal tie such as 0.25 at one decimal goes to the
    even digit. *)
Definition format_fixed (d : nat) (x : Q) : string :=
  let scale := Z.pow 10 (Z.of_nat d) in
  let m := round_half_even (Qabs x * inject_Z scale) in
  let sign := if ltb x 0 then "-"%string else ""%string in
  let ip := digits_of (Z.div m scale) in
  match d with
  | O => (sign ++ ip)%string
  | _ => (sign ++ ip ++ "." ++ zero_pad d (digits_of (Z.modulo m scale)))%string
  end.

End Py.

Notation "x <- m ;; k" := (Py.bind m (fun x => k))
  (at level 61, m at next level, right associativity).

(* ===================================================================== *)
(** ** [config.py]: the trading limits read from the environment *)
(* ===================================================================== *)

Record Config : Type := {
  MAX_POSITION_SIZE : Q;
  MIN_CONFIDENCE_THRESHOLD : Q;
  MAX_DAILY_TRADES : Z;
  MAX_OPEN_POSITIONS : Z;
  RISK_LIMIT_PER_TRADE : Q;
  EXPIRING_MIN_PROBABILITY : Q;
  EXPIRING_MAX_HOURS : Z;
  EXPIRING_MIN_HOURS : Z;
  EXPIRING_MIN_VOLUME : Q;
  MOCK_TRADING : bool
}.

(** The values [Config] takes when no environment variable is set. *)
Definition default_config : Config := {|
  MAX_POSITION_SIZE := 100;
  MIN_CONFIDENCE_THRESHOLD := 0.7;
  MAX_DAILY_TRADES := 10;
  MAX_OPEN_POSITIONS := 20;
  RISK_LIMIT_PER_TRADE := 50;
  EXPIRING_MIN_PROBABILITY := 0.95;
  EXPIRING_MAX_HOURS := 48;
  EXPIRING_MIN_HOURS := 2;
  EXPIRING_MIN_VOLUME := 10000;
  MOCK_TRADING := true
|}.

(* ===================================================================== *)
(** ** [utils/helpers.py] *)
(* ===================================================================== *)

Module Helpers.

(** An argument typed [Union[float, str, int]]. *)
Inductive arg : Type :=
| ANum (q : Q)
| AStr (s : string).

Section Conversions.

(** [float(s)] on a string: [None] stands for [ValueError]. *)
Variable float_of_str : string -> option Q.

(** [safe_float(value, default)]; [value = None] is Python's [None], and
    so is [default = None]. *)
Definition safe_float (value : option arg) (default : option Q) : option Q :=
  match value with
  | None => default
  | Some (ANum q) => Some q
  | Some (AStr s) =>
      match float_of_str s with
      | Some q => Some q
      | None => default
      end
  end.

(** The arguments may be Python's [None]; [safe_float(x, 0)] never is. *)
Definition calculate_risk_score
    (volume hours_to_expiry edge : option arg) : Q :=
  let volume := match safe_float volume (Some 0) with
                | Some v => v | None => 0 end in
  let edge := match safe_float edge (Some 0) with
              | Some e => e | None => 0 end in
  let hours_to_expiry :=
    match hours_to_expiry with
    | Some h => safe_float (Some h) None
    | None => None
    end in
  let volume_risk := if Py.ltb volume 50000 then 0.3 else 0 in
  (* [hours_to_expiry and hours_to_expiry < 24]: [None] and [0] are falsy *)
  let time_risk :=
    match hours_to_expiry with
    | Some h => if (Py.truthy h && Py.ltb h 24)%bool then 0.3 else 0
    | None => 0
    end in
  let edge_risk := if Py.ltb edge 0.1 then 0.4 else 0 in
  volume_risk + time_risk + edge_risk.

End Conversions.

Definition conservative_factor_default : Q := 0.25.

Definition calculate_kelly_size
    (edge current_price max_position risk_limit : Q)
    (conservative_factor : Q) : Py.result Z :=
  if Py.leb 1 current_price then Py.Ok 0%Z
  else
    kelly_fraction <- Py.div edge (1 - current_price) ;;
    let raw_size := kelly_fraction * conservative_factor * max_position in
    let final_size := Py.min raw_size risk_limit in
    Py.Ok (Z.max 0 (Py.int final_size)).

(** A [datetime], as seconds since the epoch. *)
Definition datetime : Type := Q.

Section Dates.

(** [datetime.strptime(s, fmt)]: [None] stands for [ValueError]. *)
Variable strptime : string -> string -> option datetime.

Definition formats : list string :=
  [ "%Y-%m-%dT%H:%M:%S.%fZ";
    "%Y-%m-%dT%H:%M:%SZ";
    "%Y-%m-%d %H:%M:%S";
    "%Y-%m-%d" ]%string.

Fixpoint try_formats (end_date_str : string) (fmts : list string)
    : option datetime :=
  match fmts with
  | [] => None
  | fmt :: rest =>
      match strptime end_date_str fmt with
      | Some d => Some d
      | None => try_formats end_date_str rest
      end
  end.

Definition parse_market_end_date (end_date_str : string) : option datetime :=
  try_formats end_date_str formats.

End Dates.

(** [hours_until_expiry(end_date)], [now] being [datetime.utcnow()]. *)
Definition hours_until_expiry (now end_date : datetime) : Q :=
  (end_date - now) / 3600.

End Helpers.

(* ===================================================================== *)
(** ** [strategies/base.py]: [MarketOpportunity] *)
(* ===================================================================== *)

Module Base.

Record MarketOpportunity : Type := {
  market_id : string;
  question : string;
  outcome : string;
  current_price : Q;
  predicted_probability : Q;
  confidence : Q;
  expected_value : Q;
  news_signals : list string;
  risk_score : Q;
  volume : Q;
  hours_to_expiry : option Q;
  edge : Q
}.

(** [MarketOpportunity.__init__]: the only place that writes [edge]. *)
Definition MarketOpportunity_init
    (market_id question outcome : string)
    (current_price predicted_probability confidence expected_value : Q)
    (news_signals : list string) (risk_score : Q)
    (volume : Q) (hours_to_expiry : option Q) : MarketOpportunity :=
  {| market_id := market_id;
     question := question;
     outcome := outcome;
     current_price := current_price;
     predicted_probability := predicted_probability;
     confidence := confidence;
     expected_value := expected_value;
     news_signals := news_signals;
     risk_score := risk_score;
     volume := volume;
     hours_to_expiry := hours_to_expiry;
     edge := Py.abs (predicted_probability - current_price) |}.

(** The dictionary of [to_dict]; a field is [None] when its key is absent.
    [d_hours_to_expiry] may be present and hold Python's [None]. *)
Record OpportunityDict : Type := {
  d_market_id : option string;
  d_question : option string;
  d_outcome : option string;
  d_current_price : option Q;
  d_predicted_probability : option Q;
  d_confidence : option Q;
  d_expected_value : option Q;
  d_news_signals : option (list string);
  d_risk_score : option Q;
  d_volume : option Q;
  d_hours_to_expiry : option (option Q);
  d_edge : option Q
}.

Definition to_dict (self : MarketOpportunity) : OpportunityDict :=
  {| d_market_id := Some (market_id self);
     d_question := Some (question self);
     d_outcome := Some (outcome self);
     d_current_price := Some (current_price self);
     d_predicted_probability := Some (predicted_probability self);
     d_confidence := Some (confidence self);
     d_expected_value := Some (expected_value self);
     d_news_signals := Some (news_signals self);
     d_risk_score := Some (risk_score self);
     d_volume := Some (volume self);
     d_hours_to_expiry := Some (hours_to_expiry self);
     d_edge := Some (edge self) |}.

(** [d.get(key, default)]. *)
Definition get {A : Type} (field : option A) (default : A) : A :=
  match field with
  | Some v => v
  | None => default
  end.

(** [d.get("hours_to_expiry")]: [None] when absent or when [None] is stored. *)
Definition get_hours (d : OpportunityDict) : option Q :=
  match d_hours_to_expiry d with
  | Some h => h
  | None => None
  end.

End Base.

(* ===================================================================== *)
(** ** [services/risk_manager.py] *)
(* ===================================================================== *)

Module Risk.

Import Base.

(** A calendar date, as its ordinal ([date.toordinal()]). *)
Definition date : Type := Z.

Record RiskManager : Type := {
  daily_trades : Z;
  last_reset : date;
  open_positions : Z
}.

(** [RiskManager.__init__]; [today] is [datetime.now().date()]. *)
Definition RiskManager_init (today : date) : RiskManager :=
  {| daily_trades := 0; last_reset := today; open_positions := 0 |}.

Record Evaluation : Type := {
  should_trade : bool;
  position_size : Z;
  final_confidence : Q;
  e_risk_score : Q;
  reasoning : string
}.

Section Manager.

Variable float_of_str : string -> option Q.
Variable config : Config.

(** The date [datetime.now().date()] reads during one call. *)
Variable today : date.

Definition reset_daily_counter (self : RiskManager) : RiskManager :=
  if (today >? last_reset self)%Z
  then {| daily_trades := 0;
          last_reset := today;
          open_positions := open_positions self |}
  else self.

Definition can_trade (self : RiskManager) : bool * RiskManager :=
  let self := reset_daily_counter self in
  if (daily_trades self >=? MAX_DAILY_TRADES config)%Z then (false, self)
  else if (open_positions self >=? MAX_OPEN_POSITIONS config)%Z
       then (false, self)
       else (true, self).

Definition calculate_position_size (edge current_price : Q) : Py.result Z :=
  Helpers.calculate_kelly_size edge current_price
    (MAX_POSITION_SIZE config) (RISK_LIMIT_PER_TRADE config)
    Helpers.conservative_factor_default.

(** The f-string fragment [{x*100:.<d>f}%]. *)
Definition percent (d : nat) (x : Q) : string :=
  (Py.format_fixed d (x * 100) ++ "%")%string.

Definition _generate_reasoning
    (self : RiskManager) (opportunity : OpportunityDict)
    (should_trade : bool) (final_confidence risk_score : Q)
    : string * RiskManager :=
  if should_trade then
    let reasons :=
      [ ("信心度: " ++ percent 1 final_confidence)%string;
        ("期望值: $" ++
           Py.format_fixed 2 (get (d_expected_value opportunity) 0))%string ] in
    let reasons :=
      match d_news_signals opportunity with
      | Some (sig :: sigs) =>
          reasons ++
          [ ("新闻支持: " ++
               Py.digits_of (Z.of_nat (List.length (sig :: sigs))) ++
               " 条信号")%string ]
      | _ => reasons
      end in
    let edge := get (d_edge opportunity) 0 in
    let reasons :=
      reasons ++
      [ ("价格优势: " ++
           percent 1 (get (d_current_price opportunity) 0) ++ " -> " ++
           percent 1 (get (d_current_price opportunity) 0 + edge))%string ] in
    (Py.join ". " reasons, self)
  else
    let reasons :=
      if Py.ltb final_confidence (MIN_CONFIDENCE_THRESHOLD config)
      then [ ("信心度不足 (" ++ percent 1 final_confidence ++ " < " ++
                percent 0 (MIN_CONFIDENCE_THRESHOLD config) ++ ")")%string ]
      else [] in
    let reasons :=
      if Py.leb (get (d_expected_value opportunity) 0) 5
      then reasons ++
           [ ("期望值过小 ($" ++
                Py.format_fixed 2 (get (d_expected_value opportunity) 0) ++
                ")")%string ]
      else reasons in
    let reasons :=
      if Py.ltb 0.5 risk_score
      then reasons ++ [ ("风险评分过高 (" ++ percent 1 risk_score ++ ")")%string ]
      else reasons in
    let '(ok, self) := can_trade self in
    let reasons :=
      if negb ok then reasons ++ [ "已达到交易限制"%string ] else reasons in
    (Py.join ". " reasons, self).

Definition evaluate_opportunity
    (self : RiskManager) (opportunity : OpportunityDict)
    : Py.result (Evaluation * RiskManager) :=
  let risk_score :=
    Helpers.calculate_risk_score float_of_str
      (Some (Helpers.ANum (get (d_volume opportunity) 0)))
      (option_map Helpers.ANum (get_hours opportunity))
      (Some (Helpers.ANum (get (d_edge opportunity) 0))) in
  let confidence := get (d_confidence opportunity) 0 in
  let final_confidence := confidence * (1 - risk_score) in
  position_size <-
    calculate_position_size
      (get (d_edge opportunity) 0)
      (get (d_current_price opportunity) 0.5) ;;
  (* [a and b and c and d and self.can_trade()] stops at the first
     false conjunct: [can_trade] runs only when the others hold *)
  let '(should_trade, self) :=
    if Py.leb (MIN_CONFIDENCE_THRESHOLD config) final_confidence then
      if (position_size >? 0)%Z then
        if Py.ltb 5 (get (d_expected_value opportunity) 0) then
          if Py.ltb risk_score 0.5 then can_trade self
          else (false, self)
        else (false, self)
      else (false, self)
    else (false, self) in
  let '(reasoning, self) :=
    _generate_reasoning self opportunity should_trade
      final_confidence risk_score in
  Py.Ok ({| should_trade := should_trade;
            position_size := position_size;
            final_confidence := final_confidence;
            e_risk_score := risk_score;
            reasoning := reasoning |}, self).

Definition record_trade (self : RiskManager) : RiskManager :=
  {| daily_trades := daily_trades self + 1;
     last_reset := last_reset self;
     open_positions := open_positions self + 1 |}.

Definition close_position (self : RiskManager) : RiskManager :=
  if (open_positions self >? 0)%Z
  then {| daily_trades := daily_trades self;
          last_reset := last_reset self;
          open_positions := open_positions self - 1 |}
  else self.

End Manager.

(** One operation on the manager.  Every operation may observe its own
    date: the clock is not under the program's control. *)
Inductive step (float_of_str : string -> option Q) (config : Config)
    : RiskManager -> RiskManager -> Prop :=
| step_evaluate today self opportunity ev self' :
    evaluate_opportunity float_of_str config today self opportunity
      = Py.Ok (ev, self') ->
    step float_of_str config self self'
| step_record_trade self :
    step float_of_str config self (record_trade self)
| step_close_position self :
    step float_of_str config self (close_position self).

Inductive reachable (float_of_str : string -> option Q) (config : Config)
    : RiskManager -> Prop :=
| reachable_init today :
    reachable float_of_str config (RiskManager_init today)
| reachable_step self self' :
    reachable float_of_str config self ->
    step float_of_str config self self' ->
    reachable float_of_str config self'.

End Risk.

(* ===================================================================== *)
(** ** [main.py]: aggregation and the evaluate-and-execute loop *)
(* ===================================================================== *)

Module Main.

Import Base.

(** A Python [dict] keyed by market id: entries stay in the order in which
    their keys were first inserted; assigning to a key that is present
    replaces the value in place. *)
Definition odict : Type := list (string * MarketOpportunity).

Fixpoint lookup (k : string) (d : odict) : option MarketOpportunity :=
  match d with
  | [] => None
  | (k', v) :: rest => if String.eqb k k' then Some v else lookup k rest
  end.

Fixpoint assign (k : string) (v : MarketOpportunity) (d : odict) : odict :=
  match d with
  | [] => [(k, v)]
  | (k', v') :: rest =>
      if String.eqb k k' then (k', v) :: rest
      else (k', v') :: assign k v rest
  end.

Definition values (d : odict) : list MarketOpportunity := map snd d.

(** The body of [for opp in all_opportunities]. *)
Definition dedup_step (unique_opportunities : odict) (opp : MarketOpportunity)
    : odict :=
  match lookup (market_id opp) unique_opportunities with
  | None => assign (market_id opp) opp unique_opportunities
  | Some kept =>
      if Py.ltb (expected_value kept) (expected_value opp)
      then assign (market_id opp) opp unique_opportunities
      else unique_opportunities
  end.

Definition deduplicate (all_opportunities : list MarketOpportunity) : odict :=
  fold_left dedup_step all_opportunities [].

(** [list.sort(key=lambda x: x.expected_value, reverse=True)]: a stable
    sort, descending; elements with equal keys keep their order. *)
Fixpoint insert_desc (x : MarketOpportunity) (l : list MarketOpportunity)
    : list MarketOpportunity :=
  match l with
  | [] => [x]
  | y :: rest =>
      if Py.ltb (expected_value x) (expected_value y)
      then y :: insert_desc x rest
      else x :: y :: rest
  end.

Fixpoint sort_desc (l : list MarketOpportunity) : list MarketOpportunity :=
  match l with
  | [] => []
  | x :: rest => insert_desc x (sort_desc rest)
  end.

(** Lines 156-167 of [scan_and_trade]. *)
Definition aggregate (all_opportunities : list MarketOpportunity)
    : list MarketOpportunity :=
  sort_desc (values (deduplicate all_opportunities)).

(** The market ids of a list, each at its first occurrence. *)
Fixpoint first_seen (seen : list string) (ids : list string) : list string :=
  match ids with
  | [] => []
  | k :: rest =>
      if existsb (String.eqb k) seen then first_seen seen rest
      else k :: first_seen (k :: seen) rest
  end.

(** [execute_trade]: in mock mode the trade is logged and reported as
    done; the real mode is not implemented and reports failure. *)
Definition execute_trade (config : Config)
    (opportunity : MarketOpportunity) (position_size : Z) : Py.result bool :=
  if MOCK_TRADING config then
    shares <- Py.div (inject_Z position_size) (current_price opportunity) ;;
    let potential_profit :=
      if String.eqb (outcome opportunity) "YES"
      then shares * (1 - current_price opportunity)
      else shares * current_price opportunity in
    _ <- Py.div potential_profit (inject_Z position_size) ;;
    Py.Ok true
  else Py.Ok false.

Section Loop.

Variable float_of_str : string -> option Q.
Variable config : Config.
Variable today : Risk.date.

(** The body of the loop of [evaluate_and_execute], over the candidates
    still to be seen. *)
Fixpoint evaluate_loop (risk_manager : Risk.RiskManager)
    (executed_count : Z) (opportunities : list MarketOpportunity)
    : Py.result (Z * Risk.RiskManager) :=
  match opportunities with
  | [] => Py.Ok (executed_count, risk_manager)
  | opp :: rest =>
      r <- Risk.evaluate_opportunity float_of_str config today
             risk_manager (to_dict opp) ;;
      let '(evaluation, risk_manager) := r in
      if Risk.should_trade evaluation then
        success <- execute_trade config opp (Risk.position_size evaluation) ;;
        if success
        then evaluate_loop (Risk.record_trade risk_manager)
               (executed_count + 1)%Z rest
        else evaluate_loop risk_manager executed_count rest
      else evaluate_loop risk_manager executed_count rest
  end.

(** [evaluate_and_execute]: only [opportunities[:10]] are evaluated. *)
Definition evaluate_and_execute (risk_manager : Risk.RiskManager)
    (opportunities : list MarketOpportunity)
    : Py.result (Z * Risk.RiskManager) :=
  evaluate_loop risk_manager 0%Z (firstn 10 opportunities).

End Loop.

End Main.

(* ===================================================================== *)
(** ** [services/llm.py] and [strategies/llm_expiring_markets.py] *)
(* ===================================================================== *)

Module LLMExpiring.

Import Base.

(** A decoded JSON value, as [json.loads] returns it. *)
#[local] Unset Elimination Schemes.
Inductive json : Type :=
| JNull
| JBool (b : bool)
| JNum (q : Q)
| JStr (s : string)
| JArr (items : list json)
| JObj (members : list (string * json)).
#[local] Set Elimination Schemes.

(** [obj.get(key, default)] on a decoded JSON object. *)
Fixpoint jget (key : string) (members : list (string * json)) (default : json)
    : json :=
  match members with
  | [] => default
  | (k, v) :: rest => if String.eqb key k then v else jget key rest default
  end.

(** Truthiness of a JSON value. *)
Definition jtruthy (j : json) : bool :=
  match j with
  | JNull => false
  | JBool b => b
  | JNum q => Py.truthy q
  | JStr s => negb (String.eqb s "")
  | JArr items => match items with [] => false | _ => true end
  | JObj members => match members with [] => false | _ => true end
  end.

(** A JSON value used in arithmetic or compared with a number: a [bool]
    counts as 0 or 1, anything else than a number raises [TypeError]. *)
Definition as_number (j : json) : Py.result Q :=
  match j with
  | JNum q => Py.Ok q
  | JBool b => Py.Ok (if b then 1 else 0)
  | _ => Py.Raise Py.TypeError
  end.

(** [j.upper()]: only strings have the method. *)
Definition jupper (j : json) : Py.result string :=
  match j with
  | JStr s => Py.Ok (Py.upper s)
  | _ => Py.Raise Py.AttributeError
  end.

Fixpoint chars_of (s : string) : list string :=
  match s with
  | EmptyString => []
  | String c r => String c EmptyString :: chars_of r
  end.

Fixpoint strings_of (items : list json) : Py.result (list string) :=
  match items with
  | [] => Py.Ok []
  | JStr s :: rest => l <- strings_of rest ;; Py.Ok (s :: l)
  | _ :: _ => Py.Raise Py.TypeError
  end.

(** [', '.join(j)] for a truthy [j]: the items of a list, the characters
    of a string or the keys of an object; [TypeError] otherwise. *)
Definition jjoin (j : json) : Py.result string :=
  match j with
  | JArr items => l <- strings_of items ;; Py.Ok (Py.join ", " l)
  | JStr s => Py.Ok (Py.join ", " (chars_of s))
  | JObj members => Py.Ok (Py.join ", " (map fst members))
  | _ => Py.Raise Py.TypeError
  end.

(** The market dictionary, its JSON-encoded fields decoded.  A field is
    [None] when the key is absent; for [m_outcomePrices], [m_marketMakerData],
    [m_bestBid], [m_bestAsk] and [m_outcomes] also when decoding it raises
    (the source guards each with [try/except]). *)
Record Market : Type := {
  m_conditionId : option string;
  m_question : option string;
  m_description : option string;
  m_endDate : option string;
  m_volume : option Q;
  m_outcomePrices : option (list Q);
  m_marketMakerData : option (list Q);
  m_bestBid : option Q;
  m_bestAsk : option Q;
  m_outcomes : option (list string)
}.

(** [BaseStrategy.extract_prices]. *)
Definition extract_prices (market : Market) : list Q :=
  let prices := get (m_outcomePrices market) [] in
  let prices :=
    match prices, m_marketMakerData market with
    | [], Some mm => mm
    | _, _ => prices
    end in
  let prices :=
    match prices, m_bestBid market, m_bestAsk market with
    | [], Some bid, Some ask => [(bid + ask) / 2]
    | _, _, _ => prices
    end in
  match prices with
  | [] => [0.5]
  | _ => prices
  end.

(** [self.config] and [self.llm_enabled] of the strategy. *)
Record Strategy : Type := {
  enabled : bool;
  min_probability : Q;
  max_hours_to_expiry : Q;
  min_hours_to_expiry : Q;
  min_volume : Q;
  llm_confidence_threshold : Q;
  use_llm_override : bool;
  llm_enabled : bool
}.

(** [LLMExpiringMarketsStrategy.__init__]; [llm_is_enabled] is
    [llm_service.is_enabled()]. *)
Definition Strategy_init (config : Config) (llm_is_enabled : bool) : Strategy :=
  {| enabled := true;
     min_probability := EXPIRING_MIN_PROBABILITY config;
     max_hours_to_expiry := inject_Z (EXPIRING_MAX_HOURS config);
     min_hours_to_expiry := inject_Z (EXPIRING_MIN_HOURS config);
     min_volume := EXPIRING_MIN_VOLUME config;
     llm_confidence_threshold := 0.7;
     use_llm_override := true;
     llm_enabled := llm_is_enabled |}.

(** What [_build_llm_prompt] interpolates into its fixed template. *)
Record Prompt : Type := {
  p_question : string;
  p_description : string;
  p_price_info : list string;
  p_hours_to_exp : string;
  p_volume : Q
}.

Fixpoint price_info (i : nat) (prices : list Q) (outcomes : list string)
    : list string :=
  match outcomes with
  | [] => []
  | outcome :: rest =>
      match nth_error prices i with
      | Some price =>
          ("  - " ++ outcome ++ ": " ++ Py.format_fixed 1 (price * 100) ++ "%")%string
            :: price_info (S i) prices rest
      | None => price_info (S i) prices rest
      end
  end.

Definition _build_llm_prompt (market : Market) (prices : list Q)
    (outcomes : list string) (hours_to_exp volume : Q) : Prompt :=
  {| p_question := get (m_question market) ""%string;
     p_description := get (m_description market) ""%string;
     p_price_info := price_info 0 prices outcomes;
     p_hours_to_exp := Py.format_fixed 1 hours_to_exp;
     p_volume := volume |}.

(** [LLMService.call_with_retry]: [call attempt] is the outcome of the
    [attempt]-th call, [None] when it raised. *)
Fixpoint retry_from (call : nat -> option string) (attempt : nat)
    (remaining : nat) : option string :=
  match remaining with
  | O => None
  | S r =>
      match call attempt with
      | Some content => Some content
      | None => retry_from call (S attempt) r
      end
  end.

Definition max_retries_default : nat := 2.

Definition call_with_retry (call : nat -> option string) (max_retries : nat)
    : option string :=
  retry_from call 0 (max_retries + 1).

(** The index of the first outcome whose upper-cased label is the
    recommended one. *)
Fixpoint find_outcome (i : nat) (outcomes : list string)
    (recommended_outcome : string) : option nat :=
  match outcomes with
  | [] => None
  | outcome :: rest =>
      if String.eqb (Py.upper outcome) recommended_outcome then Some i
      else find_outcome (S i) rest recommended_outcome
  end.

Section Strategy.

(** [datetime.strptime]. *)
Variable strptime : string -> string -> option Helpers.datetime.
(** [_parse_llm_response]: the first [{...}] of the text decoded as a
    JSON object; [None] when there is none or it does not decode. *)
Variable _parse_llm_response : string -> option (list (string * json)).
(** [str(j)] as an f-string renders a decoded value. *)
Variable py_str : json -> string.
(** The model endpoint: the outcome of each attempt for a prompt. *)
Variable llm_call : Prompt -> nat -> option string.
(** [datetime.utcnow()]. *)
Variable now : Helpers.datetime.

Variable self : Strategy.

(** [BaseStrategy.calculate_risk_score], the strategies' own risk score:
    the time to expiry is computed from the market's end date. *)
Definition calculate_risk_score (float_of_str : string -> option Q)
    (market : Market) (edge : option Helpers.arg) : Q :=
  let volume :=
    match Helpers.safe_float float_of_str
            (Some (Helpers.ANum (get (m_volume market) 0))) (Some 0) with
    | Some v => v | None => 0 end in
  let edge := match Helpers.safe_float float_of_str edge (Some 0) with
              | Some e => e | None => 0 end in
  let volume_risk := if Py.ltb volume 50000 then 0.3 else 0 in
  let time_risk :=
    match m_endDate market with
    | Some end_date_str =>
        match Helpers.parse_market_end_date strptime end_date_str with
        | Some end_date =>
            let hours := Helpers.hours_until_expiry now end_date in
            if Py.ltb hours 24 then 0.3 else 0
        | None => 0
        end
    | None => 0
    end in
  let edge_risk := if Py.ltb edge 0.1 then 0.4 else 0 in
  volume_risk + time_risk + edge_risk.

Definition _analyze_with_llm (market : Market) (prices : list Q)
    (outcomes : list string) (hours_to_exp volume : Q)
    : Py.result (list MarketOpportunity) :=
  let prompt := _build_llm_prompt market prices outcomes hours_to_exp volume in
  match call_with_retry (llm_call prompt) max_retries_default with
  | None => Py.Ok []
  | Some response =>
  if String.eqb response "" then Py.Ok [] else
  match _parse_llm_response response with
  | None => Py.Ok []
  | Some [] => Py.Ok []
  | Some llm_result =>
  if negb (jtruthy (jget "has_opportunity" llm_result (JBool false)))
  then Py.Ok [] else
  llm_confidence <- as_number (jget "confidence" llm_result (JNum 0)) ;;
  if Py.ltb llm_confidence (llm_confidence_threshold self) then Py.Ok [] else
  recommended_outcome <-
    jupper (jget "recommended_outcome" llm_result (JStr "")) ;;
  let expected_prob_j := jget "expected_probability" llm_result (JNum 0.99) in
  let reasoning := jget "reasoning" llm_result (JStr "") in
  let risk_factors := jget "risk_factors" llm_result (JArr []) in
  match find_outcome 0 outcomes recommended_outcome with
  | None => Py.Ok []
  | Some outcome_index =>
  match nth_error prices outcome_index with
  | None => Py.Ok []
  | Some current_price =>
  expected_prob <- as_number expected_prob_j ;;
  let profit_margin := expected_prob - current_price in
  let expected_return :=
    if Py.ltb 0 current_price then (profit_margin / current_price) * 100
    else 0 in
  if Py.leb profit_margin 0 then Py.Ok [] else
  let news_signals :=
    [ ("🤖 LLM 分析 (信心: " ++
         Py.format_fixed 0 (llm_confidence * 100) ++ "%)")%string;
      ("到期时间: " ++ Py.format_fixed 1 hours_to_exp ++ " 小时")%string;
      ("当前价格: " ++ Py.format_fixed 1 (current_price * 100) ++ "%")%string;
      ("预期概率: " ++ Py.format_fixed 1 (expected_prob * 100) ++ "%")%string;
      ("预期回报: " ++ Py.format_fixed 1 expected_return ++ "%")%string;
      ("分析: " ++ py_str reasoning)%string ] in
  news_signals <-
    (if jtruthy risk_factors
     then joined <- jjoin risk_factors ;;
          Py.Ok (news_signals ++ [ ("风险: " ++ joined)%string ])
     else Py.Ok news_signals) ;;
  let price_risk := 1 - expected_prob in
  ratio <- Py.div hours_to_exp (max_hours_to_expiry self) ;;
  let time_risk := Py.min 0.3 ratio in
  let volume_risk := if Py.ltb volume 50000 then 0.2 else 0 in
  let llm_risk := 1 - llm_confidence in
  let risk_score := (price_risk + time_risk + volume_risk + llm_risk) / 4 in
  Py.Ok [ MarketOpportunity_init
            (get (m_conditionId market) ""%string)
            (get (m_question market) ""%string)
            recommended_outcome
            current_price expected_prob llm_confidence expected_return
            news_signals risk_score volume (Some hours_to_exp) ]
  end end end end.

(** The body of the loop of [_analyze_with_rules] for one outcome
    whose price exists. *)
Definition rules_for_outcome (market : Market) (outcome : string)
    (price hours_to_exp volume : Q)
    (opportunities : list MarketOpportunity)
    : Py.result (list MarketOpportunity) :=
  let outcome_name := Py.upper outcome in
  opportunities <-
    (if Py.leb (min_probability self) price then
       let profit_margin := 1.0 - price in
       let expected_return := profit_margin * 100 in
       price_conf <-
         Py.div (price - min_probability self) (1 - min_probability self) ;;
       ratio <- Py.div hours_to_exp (max_hours_to_expiry self) ;;
       let time_conf := 1 - ratio in
       let confidence := Py.min 0.95 ((price_conf + time_conf) / 2) in
       Py.Ok (opportunities ++
         [ MarketOpportunity_init
             (get (m_conditionId market) ""%string)
             (get (m_question market) ""%string)
             outcome_name price 0.99 confidence expected_return
             [ "📊 规则判断（LLM 未启用）"%string;
               ("到期时间: " ++ Py.format_fixed 1 hours_to_exp ++ " 小时")%string;
               ("当前价格: " ++ Py.format_fixed 1 (price * 100) ++ "%")%string;
               ("预期回报: " ++ Py.format_fixed 1 expected_return ++ "%")%string ]
             (1 - price) volume (Some hours_to_exp) ])
     else Py.Ok opportunities) ;;
  if Py.leb price (1 - min_probability self) then
    let no_price := 1 - price in
    let profit_margin := 1.0 - no_price in
    let expected_return := profit_margin * 100 in
    price_conf <-
      Py.div (no_price - min_probability self) (1 - min_probability self) ;;
    ratio <- Py.div hours_to_exp (max_hours_to_expiry self) ;;
    let time_conf := 1 - ratio in
    let confidence := Py.min 0.95 ((price_conf + time_conf) / 2) in
    Py.Ok (opportunities ++
      [ MarketOpportunity_init
          (get (m_conditionId market) ""%string)
          (get (m_question market) ""%string)
          "NO"%string no_price 0.99 confidence expected_return
          [ "📊 规则判断（LLM 未启用）"%string;
            ("到期时间: " ++ Py.format_fixed 1 hours_to_exp ++ " 小时")%string;
            ("NO 价格: " ++ Py.format_fixed 1 (no_price * 100) ++ "% (YES @ " ++
               Py.format_fixed 1 (price * 100) ++ "%)")%string;
            ("预期回报: " ++ Py.format_fixed 1 expected_return ++ "%")%string ]
          (1 - no_price) volume (Some hours_to_exp) ])
  else Py.Ok opportunities.

(** [for i, outcome in enumerate(outcomes)], from index [i] on;
    an outcome without a price is skipped ([continue]). *)
Fixpoint rules_loop (market : Market) (prices : list Q)
    (hours_to_exp volume : Q) (i : nat) (outcomes : list string)
    (opportunities : list MarketOpportunity)
    : Py.result (list MarketOpportunity) :=
  match outcomes with
  | [] => Py.Ok opportunities
  | outcome :: rest =>
      match nth_error prices i with
      | None =>
          rules_loop market prices hours_to_exp volume (S i) rest opportunities
      | Some price =>
          opportunities <-
            rules_for_outcome market outcome price hours_to_exp volume
              opportunities ;;
          rules_loop market prices hours_to_exp volume (S i) rest opportunities
      end
  end.

Definition _analyze_with_rules (market : Market) (prices : list Q)
    (outcomes : list string) (hours_to_exp volume : Q)
    : Py.result (list MarketOpportunity) :=
  rules_loop market prices hours_to_exp volume 0 outcomes [].

Definition analyze_market (market : Market)
    : Py.result (list MarketOpportunity) :=
  match m_endDate market with
  | None => Py.Ok []
  | Some end_date_str =>
  match Helpers.parse_market_end_date strptime end_date_str with
  | None => Py.Ok []
  | Some end_date =>
  let hours_to_exp := Helpers.hours_until_expiry now end_date in
  if (Py.ltb (max_hours_to_expiry self) hours_to_exp
      || Py.ltb hours_to_exp (min_hours_to_expiry self))%bool
  then Py.Ok [] else
  let volume := get (m_volume market) 0 in
  if Py.ltb volume (min_volume self) then Py.Ok [] else
  let prices := extract_prices market in
  let outcomes := get (m_outcomes market) ["Yes"; "No"]%string in
  llm_opportunities <-
    (if llm_enabled self
     then _analyze_with_llm market prices outcomes hours_to_exp volume
     else Py.Ok []) ;;
  match llm_opportunities with
  | _ :: _ => Py.Ok llm_opportunities
  | [] => _analyze_with_rules market prices outcomes hours_to_exp volume
  end
  end end.




End Strategy.

End LLMExpiring.

(* ===================================================================== *)
(** ** Predicates used to state the properties *)
(* ===================================================================== *)

Module Spec.

Import Base.

(** The edge of an opportunity is the distance between its predicted
    probability and its price. *)
Definition edge_derived (o : MarketOpportunity) : Prop :=
  edge o = Py.abs (predicted_probability o - current_price o).

(** The verdict of [evaluate_opportunity] written as a plain conjunction,
    the counters being those of the manager after the daily reset. *)
Definition verdict (config : Config) (today : Risk.date)
    (self : Risk.RiskManager) (opportunity : OpportunityDict)
    (final_confidence : Q) (position_size : Z) (risk_score : Q) : Prop :=
  MIN_CONFIDENCE_THRESHOLD config <= final_confidence /\
  (position_size > 0)%Z /\
  5 < get (d_expected_value opportunity) 0 /\
  risk_score < 0.5 /\
  (Risk.daily_trades (Risk.reset_daily_counter today self)
     < MAX_DAILY_TRADES config)%Z /\
  (Risk.open_positions (Risk.reset_daily_counter today self)
     < MAX_OPEN_POSITIONS config)%Z.

(** Descending order of expected value. *)
Definition ev_ge (a b : MarketOpportunity) : Prop :=
  expected_value b <= expected_value a.

(** The opportunities of a list that have a given expected value, in the
    order of the list. *)
Definition with_value (v : Q) (l : list MarketOpportunity)
    : list MarketOpportunity :=
  filter (fun o => Py.eqb (expected_value o) v) l.

(** What the deduplication dictionary holds once the opportunities of
    [seen] have gone through the loop: under each key an opportunity of
    that market with the greatest expected value seen so far; a key for
    every market seen; the keys in the order of their first appearance. *)
Definition dedup_inv (seen : list MarketOpportunity) (d : Main.odict) : Prop :=
  (forall k v,
     Main.lookup k d = Some v ->
     market_id v = k /\ In v seen /\
     forall o, In o seen -> market_id o = k ->
               expected_value o <= expected_value v) /\
  (forall o, In o seen -> Main.lookup (market_id o) d <> None) /\
  map fst d = Main.first_seen [] (map market_id seen).


End Spec.

(* ===================================================================== *)
(** ** Predicates used to state the further properties *)
(* ===================================================================== *)

Module Props.

(** [part in text]: the text contains the part. *)
Definition mentions (text part : string) : Prop :=
  exists before after, text = (before ++ part ++ after)%string.

End Props.

(* ===================================================================== *)
(** ** [services/news.py]: articles, signals and the rule-based signal *)
(* ===================================================================== *)

Module News.

Record NewsArticle : Type := {
  title : string;
  description : string;
  url : string;
  source : string;
  published_at : string;
  sentiment : string;
  relevance_score : Q
}.

Record NewsSignal : Type := {
  market : string;
  signal : string;
  confidence : Q;
  articles : list NewsArticle
}.

(** [sum(1 for a in articles if a.sentiment == label)]. *)
Definition count_sentiment (label : string) (articles : list NewsArticle) : Z :=
  Z.of_nat (List.length
              (filter (fun a => String.eqb (sentiment a) label) articles)).

(** [NewsService._analyze_rule_based]. *)
Definition _analyze_rule_based (market_title : string)
    (articles : list NewsArticle) : NewsSignal :=
  let positive_count := count_sentiment "positive" articles in
  let negative_count := count_sentiment "negative" articles in
  let total := Z.of_nat (List.length articles) in
  let positive_ratio :=
    if (total >? 0)%Z then inject_Z positive_count / inject_Z total else 0 in
  let negative_ratio :=
    if (total >? 0)%Z then inject_Z negative_count / inject_Z total else 0 in
  let '(signal, confidence) :=
    if Py.ltb 0.6 positive_ratio then ("bullish"%string, positive_ratio)
    else if Py.ltb 0.6 negative_ratio then ("bearish"%string, negative_ratio)
    else ("neutral"%string, 0.5) in
  let article_bonus :=
    Py.min 0.2 (inject_Z (Z.of_nat (List.length articles)) * 0.02) in
  let confidence := Py.min 0.95 (confidence + article_bonus) in
  {| market := market_title;
     signal := signal;
     confidence := confidence;
     articles := firstn 5 articles |}.

End News.

(* ===================================================================== *)
(** ** [strategies/interactive.py]: the multi-signal strategy *)
(* ===================================================================== *)

Module Interactive.

Import Base.

(** [self.config] of the strategy. *)
Record Strategy : Type := {
  enabled : bool;
  use_news_signals : bool;
  min_confidence_threshold : Q;
  price_edge_threshold : Q;
  volume_threshold : Q;
  max_position_size : Q;
  sentiment_weight : Q;
  price_weight : Q;
  volume_weight : Q;
  check_trending_topics : bool
}.

(** [list.sort(key=key, reverse=True)]: stable, descending. *)
Fixpoint insert_desc_by {A : Type} (key : A -> Q) (x : A) (l : list A)
    : list A :=
  match l with
  | [] => [x]
  | y :: rest =>
      if Py.ltb (key x) (key y) then y :: insert_desc_by key x rest
      else x :: y :: rest
  end.

Fixpoint sort_desc_by {A : Type} (key : A -> Q) (l : list A) : list A :=
  match l with
  | [] => []
  | x :: rest => insert_desc_by key x (sort_desc_by key rest)
  end.

Definition _calculate_price_signal (price : Q) (outcome : string) : Q :=
  if String.eqb outcome "YES" then
    if Py.ltb price 0.2 then 0.8
    else if Py.ltb price 0.35 then 0.65
    else if Py.ltb 0.8 price then 0.2
    else if Py.ltb 0.65 price then 0.35
    else 0.5
  else
    if Py.ltb price 0.2 then 0.8
    else if Py.ltb price 0.35 then 0.65
    else if Py.ltb 0.8 price then 0.2
    else if Py.ltb 0.65 price then 0.35
    else 0.5.

Definition _calculate_volume_signal (volume : Q) : Q :=
  if Py.ltb 1000000 volume then 0.9
  else if Py.ltb 500000 volume then 0.75
  else if Py.ltb 100000 volume then 0.6
  else if Py.ltb 50000 volume then 0.5
  else 0.3.

(** The body of [for article in news_signal.articles], on the running
    [(total_sentiment, article_count)]. *)
Definition news_step (outcome : string) (acc : Q * Z)
    (article : News.NewsArticle) : Q * Z :=
  let '(total_sentiment, article_count) := acc in
  if negb (String.eqb (News.sentiment article) "") then
    let sentiment_score :=
      if String.eqb (News.sentiment article) "positive" then 0.7
      else if String.eqb (News.sentiment article) "negative" then 0.3
      else 0.5 in
    let sentiment :=
      if String.eqb outcome "YES" then sentiment_score
      else 1 - sentiment_score in
    (total_sentiment + sentiment, (article_count + 1)%Z)
  else acc.

(** [_calculate_news_signal].  The running sum and the final quotient are
    exact here, where the source accumulates binary floats: what is stated
    of this function below equates runs of the same operations and does
    not rest on an identity of exact arithmetic. *)
Definition _calculate_news_signal (news_signal : option News.NewsSignal)
    (outcome : string) : Q :=
  match news_signal with
  | None => 0.5
  | Some ns =>
      match News.articles ns with
      | [] => 0.5
      | _ :: _ =>
          let '(total_sentiment, article_count) :=
            fold_left (news_step outcome) (News.articles ns) (0, 0%Z) in
          if (article_count =? 0)%Z then 0.5
          else total_sentiment / inject_Z article_count
      end
  end.

(** [news_signal and news_signal.articles]. *)
Definition has_articles (news_signal : option News.NewsSignal) : bool :=
  match news_signal with
  | Some ns => match News.articles ns with [] => false | _ :: _ => true end
  | None => false
  end.

Definition article_count (news_signal : option News.NewsSignal) : Z :=
  match news_signal with
  | Some ns => Z.of_nat (List.length (News.articles ns))
  | None => 0%Z
  end.

Definition _calculate_confidence (edge : Q)
    (news_signal : option News.NewsSignal) (volume price_signal : Q) : Q :=
  let confidence := 0.5 in
  let confidence := confidence + edge * 0.3 in
  let confidence :=
    if Py.ltb 500000 volume then confidence + 0.2
    else if Py.ltb 100000 volume then confidence + 0.1
    else confidence in
  let confidence :=
    if has_articles news_signal
    then confidence + Py.min (inject_Z (article_count news_signal) * 0.05) 0.2
    else confidence in
  let confidence :=
    if (Py.ltb 0.7 price_signal || Py.ltb price_signal 0.3)%bool
    then confidence + 0.1
    else confidence in
  Py.min confidence 0.95.

Section Strategy.

Variable strptime : string -> string -> option Helpers.datetime.
Variable float_of_str : string -> option Q.
(** [news_service.get_market_signals(question)]; [None] when it raises. *)
Variable get_market_signals : string -> option News.NewsSignal.
Variable now : Helpers.datetime.
Variable self : Strategy.

Definition _get_markets_to_analyze (all_markets : list LLMExpiring.Market)
    : list LLMExpiring.Market :=
  let high_volume_markets :=
    filter (fun m => Py.leb (volume_threshold self)
                       (get (LLMExpiring.m_volume m) 0)) all_markets in
  if check_trending_topics self then
    firstn 50 (sort_desc_by (fun m => get (LLMExpiring.m_volume m) 0)
                 high_volume_markets)
  else high_volume_markets.

(** The time to expiry of a market with an end date that parses. *)
Definition hours_of (market : LLMExpiring.Market) : option Q :=
  match LLMExpiring.m_endDate market with
  | Some end_date_str =>
      match Helpers.parse_market_end_date strptime end_date_str with
      | Some end_date => Some (Helpers.hours_until_expiry now end_date)
      | None => None
      end
  | None => None
  end.

Definition _build_signals (market : LLMExpiring.Market) (outcome : string)
    (price_signal volume_signal news_score : Q)
    (news_signal : option News.NewsSignal) : list string :=
  let signals :=
    [ ("价格信号: " ++ Py.format_fixed 1 (price_signal * 100) ++ "%")%string ] in
  let volume := get (LLMExpiring.m_volume market) 0 in
  let signals :=
    signals ++
    [ ("交易量: " ++ Py.format_fixed 0 (volume / 1000) ++ "k (信号: " ++
         Py.format_fixed 0 (volume_signal * 100) ++ "%)")%string ] in
  let signals :=
    if has_articles news_signal then
      signals ++
      [ ("新闻情绪: " ++ Py.format_fixed 0 (news_score * 100) ++ "% (" ++
           Py.digits_of (article_count news_signal) ++ " 篇文章)")%string ] ++
      map (fun a => ("📰 " ++ News.title a)%string)
        (firstn 2 (match news_signal with
                   | Some ns => News.articles ns
                   | None => []
                   end))
    else signals in
  match hours_of market with
  | Some hours_to_exp =>
      if Py.ltb hours_to_exp 168
      then signals ++
           [ ("⏰ " ++ Py.format_fixed 0 hours_to_exp ++ " 小时后到期")%string ]
      else signals
  | None => signals
  end.

(** The body of the loop of [analyze_market] for one outcome whose price
    exists. *)
Definition analyze_outcome (market : LLMExpiring.Market)
    (news_signal : option News.NewsSignal) (volume : Q)
    (outcome : string) (price : Q)
    (opportunities : list MarketOpportunity)
    : Py.result (list MarketOpportunity) :=
  let outcome_name := Py.upper outcome in
  let price_signal := _calculate_price_signal price outcome_name in
  let volume_signal := _calculate_volume_signal volume in
  let news_signal_score :=
    match news_signal with
    | Some _ => _calculate_news_signal news_signal outcome_name
    | None => 0.5
    end in
  let combined_score :=
    price_signal * price_weight self
    + volume_signal * volume_weight self
    + news_signal_score * sentiment_weight self in
  let total_weight :=
    price_weight self + volume_weight self + sentiment_weight self in
  normalized_score <- Py.div combined_score total_weight ;;
  let edge := Py.abs (normalized_score - 0.5) in
  let should_buy := Py.ltb 0.5 normalized_score in
  if Py.leb (price_edge_threshold self) edge then
    let confidence := _calculate_confidence edge news_signal volume price_signal in
    if Py.leb (min_confidence_threshold self) confidence then
      let target_outcome :=
        if should_buy then outcome_name
        else if String.eqb outcome_name "YES" then "NO"%string
             else "YES"%string in
      let target_price := if should_buy then price else 1 - price in
      let signals :=
        _build_signals market target_outcome price_signal volume_signal
          news_signal_score news_signal in
      Py.Ok (opportunities ++
        [ MarketOpportunity_init
            (get (LLMExpiring.m_conditionId market) ""%string)
            (get (LLMExpiring.m_question market) ""%string)
            target_outcome target_price normalized_score confidence
            (edge * 100 * confidence) signals
            (LLMExpiring.calculate_risk_score strptime now float_of_str market
               (Some (Helpers.ANum edge)))
            volume (hours_of market) ])
    else Py.Ok opportunities
  else Py.Ok opportunities.

Fixpoint analyze_loop (market : LLMExpiring.Market)
    (news_signal : option News.NewsSignal) (volume : Q) (prices : list Q)
    (i : nat) (outcomes : list string) (opportunities : list MarketOpportunity)
    : Py.result (list MarketOpportunity) :=
  match outcomes with
  | [] => Py.Ok opportunities
  | outcome :: rest =>
      match nth_error prices i with
      | None => analyze_loop market news_signal volume prices (S i) rest
                  opportunities
      | Some price =>
          opportunities <-
            analyze_outcome market news_signal volume outcome price
              opportunities ;;
          analyze_loop market news_signal volume prices (S i) rest opportunities
      end
  end.

Definition analyze_market (market : LLMExpiring.Market)
    : Py.result (list MarketOpportunity) :=
  let volume := get (LLMExpiring.m_volume market) 0 in
  if Py.ltb volume (volume_threshold self) then Py.Ok [] else
  let question := get (LLMExpiring.m_question market) ""%string in
  let news_signal :=
    if use_news_signals self then get_market_signals question else None in
  let prices := LLMExpiring.extract_prices market in
  let outcomes := get (LLMExpiring.m_outcomes market) ["Yes"; "No"]%string in
  analyze_loop market news_signal volume prices 0 outcomes [].

(** [condition_id in open_positions], the dictionary given by its keys. *)
Definition held (open_positions : list string) (market : LLMExpiring.Market)
    : bool :=
  match LLMExpiring.m_conditionId market with
  | Some condition_id => existsb (String.eqb condition_id) open_positions
  | None => false
  end.

(** [for market in markets_to_analyze], accumulating the opportunities. *)
Fixpoint scan (open_positions : list string)
    (markets : list LLMExpiring.Market)
    (opportunities : list MarketOpportunity)
    : Py.result (list MarketOpportunity) :=
  match markets with
  | [] => Py.Ok opportunities
  | market :: rest =>
      if held open_positions market then scan open_positions rest opportunities
      else
        market_opportunities <- analyze_market market ;;
        scan open_positions rest (opportunities ++ market_opportunities)
  end.

(** [find_opportunities]: any exception raised inside is caught and an
    empty list returned. *)
Definition find_opportunities (markets : list LLMExpiring.Market)
    (open_positions : list string) : list MarketOpportunity :=
  if negb (enabled self) then []
  else
    match scan open_positions (_get_markets_to_analyze markets) [] with
    | Py.Ok opportunities =>
        firstn 10
          (sort_desc_by (fun x => expected_value x * confidence x)
             opportunities)
    | Py.Raise _ => []
    end.

End Strategy.

End Interactive.

(* ===================================================================== *)
(** ** What the interactive strategy has checked of an opportunity *)
(* ===================================================================== *)

Module InteractiveProps.

Import Base.

(** [o] carries the identity and volume of [market], a volume at or above
    the strategy's threshold, a confidence between the strategy's minimum
    and the cap, a score at least the edge threshold away from 0.5, and
    the expected value computed from that distance. *)
Definition vetted (self : Interactive.Strategy) (market : LLMExpiring.Market)
    (o : MarketOpportunity) : Prop :=
  market_id o = get (LLMExpiring.m_conditionId market) ""%string /\
  question o = get (LLMExpiring.m_question market) ""%string /\
  volume o = get (LLMExpiring.m_volume market) 0 /\
  Interactive.volume_threshold self <= volume o /\
  Interactive.min_confidence_threshold self <= confidence o /\
  confidence o <= 0.95 /\
  Interactive.price_edge_threshold self
  <= Py.abs (predicted_probability o - 0.5) /\
  expected_value o
  = Py.abs (predicted_probability o - 0.5) * 100 * confidence o.

(** Descending order of [key]. *)
Definition key_ge {A : Type} (key : A -> Q) (a b : A) : Prop :=
  key b <= key a.

End InteractiveProps.

(* ===================================================================== *)
(** ** What the decision loop may do to the counters *)
(* ===================================================================== *)

Module LoopProps.

Import Base.

Section Run.

Variable float_of_str : string -> option Q.
Variable config : Config.
Variable today : Risk.date.

(** The evaluation of [opp] by [risk_manager] accepts it and the execution
    of the trade, at the evaluated size, reports success. *)
Definition executes (risk_manager : Risk.RiskManager)
    (opp : MarketOpportunity) : Prop :=
  exists evaluation risk_manager',
    Risk.evaluate_opportunity float_of_str config today risk_manager
      (to_dict opp) = Py.Ok (evaluation, risk_manager') /\
    Risk.should_trade evaluation = true /\
    Main.execute_trade config opp (Risk.position_size evaluation)
    = Py.Ok true.

(** The evaluation rejects [opp], or accepts it and the execution reports
    failure. *)
Definition passes_over (risk_manager : Risk.RiskManager)
    (opp : MarketOpportunity) : Prop :=
  exists evaluation risk_manager',
    Risk.evaluate_opportunity float_of_str config today risk_manager
      (to_dict opp) = Py.Ok (evaluation, risk_manager') /\
    (Risk.should_trade evaluation = false \/
     Risk.should_trade evaluation = true /\
     Main.execute_trade config opp (Risk.position_size evaluation)
     = Py.Ok false).

(** [run before opportunities n after]: going through [opportunities] from
    the manager [before] ends in [after] with [n] trades counted, where a
    trade is counted and recorded (by [record_trade], after the daily
    reset of its evaluation) exactly for the opportunities that are
    accepted and whose execution succeeds; any other opportunity leaves the
    count alone and the manager as its evaluation returned it. *)
Inductive run : Risk.RiskManager -> list MarketOpportunity -> Z ->
                Risk.RiskManager -> Prop :=
| run_done risk_manager :
    run risk_manager [] 0 risk_manager
| run_recorded risk_manager opp rest n after :
    executes risk_manager opp ->
    run (Risk.record_trade (Risk.reset_daily_counter today risk_manager))
      rest n after ->
    run risk_manager (opp :: rest) (n + 1) after
| run_passed risk_manager opp rest n after :
    passes_over risk_manager opp ->
    run (Risk.reset_daily_counter today risk_manager) rest n after ->
    run risk_manager (opp :: rest) n after.

End Run.

End LoopProps.

(* ===================================================================== *)
(** * Properties *)
(* ===================================================================== *)

(** ** Comparisons and arithmetic of the runtime *)

Lemma ltb_lt (a b : Q) : Py.ltb a b = true <-> a < b.
Proof.
  unfold Py.ltb. rewrite negb_true_iff.
  split; intro H.
  - apply Qnot_le_lt. intro Hle. apply Qle_bool_iff in Hle. congruence.
  - destruct (Qle_bool b a) eqn:E; [|reflexivity].
    apply Qle_bool_iff in E. exfalso. apply (Qlt_not_le _ _ H). exact E.
Qed.

Lemma ltb_ge (a b : Q) : Py.ltb a b = false <-> b <= a.
Proof.
  unfold Py.ltb. rewrite negb_false_iff. apply Qle_bool_iff.
Qed.

Lemma leb_le (a b : Q) : Py.leb a b = true <-> a <= b.
Proof. unfold Py.leb. apply Qle_bool_iff. Qed.

Lemma leb_gt (a b : Q) : Py.leb a b = false <-> b < a.
Proof.
  unfold Py.leb. split; intro H.
  - apply Qnot_le_lt. intro Hle. apply Qle_bool_iff in Hle. congruence.
  - destruct (Qle_bool a b) eqn:E; [|reflexivity].
    apply Qle_bool_iff in E. exfalso. apply (Qlt_not_le _ _ H). exact E.
Qed.

Lemma eqb_eq (a b : Q) : Py.eqb a b = true <-> a == b.
Proof. unfold Py.eqb. apply Qeq_bool_iff. Qed.

Lemma eqb_neq (a b : Q) : Py.eqb a b = false <-> ~ a == b.
Proof.
  unfold Py.eqb. split; intro H.
  - intro E. apply Qeq_bool_iff in E. congruence.
  - destruct (Qeq_bool a b) eqn:E; [|reflexivity].
    apply Qeq_bool_iff in E. contradiction.
Qed.

(** Case analysis on a comparison, leaving its meaning in the context. *)
Ltac case_ltb a b :=
  let E := fresh "E" in
  destruct (Py.ltb a b) eqn:E;
  [apply ltb_lt in E | apply ltb_ge in E].

Ltac case_leb a b :=
  let E := fresh "E" in
  destruct (Py.leb a b) eqn:E;
  [apply leb_le in E | apply leb_gt in E].

Lemma div_ok (a b : Q) : ~ b == 0 -> Py.div a b = Py.Ok (a / b).
Proof.
  intro H. unfold Py.div. apply eqb_neq in H. rewrite H. reflexivity.
Qed.

Lemma min_spec (a b : Q) : Py.min a b == Qmin a b.
Proof.
  unfold Py.min. case_ltb b a.
  - symmetry. apply Q.min_r. apply Qlt_le_weak. exact E.
  - symmetry. apply Q.min_l. exact E.
Qed.

Lemma min_le_r (a b : Q) : Py.min a b <= b.
Proof.
  unfold Py.min. case_ltb b a.
  - apply Qle_refl.
  - exact E.
Qed.

(** [int] is the floor on non-negative numbers and never exceeds its
    argument's floor by more than the sign allows. *)
Lemma int_floor_nonneg (x : Q) : 0 <= x -> Py.int x = Qfloor x.
Proof.
  intro H. unfold Py.int, Qfloor. destruct x as [n d]. simpl.
  unfold Qle in H. simpl in H. rewrite Z.mul_1_r in H.
  apply Z.quot_div_nonneg; lia.
Qed.

Lemma int_nonpos (x : Q) : x < 0 -> (Py.int x <= 0)%Z.
Proof.
  intro H. unfold Py.int. destruct x as [n d]. simpl.
  unfold Qlt in H. simpl in H. rewrite Z.mul_1_r in H.
  assert (Hq : (n ÷ Z.pos d = - ((- n) ÷ Z.pos d))%Z).
  { rewrite Z.quot_opp_l by lia. lia. }
  rewrite Hq.
  assert (0 <= (- n) ÷ Z.pos d)%Z by (apply Z.quot_pos; lia).
  lia.
Qed.

Lemma floor_neg (x : Q) : x < 0 -> (Qfloor x < 0)%Z.
Proof.
  intro H.
  assert (Hf : inject_Z (Qfloor x) <= x) by apply Qfloor_le.
  assert (Hlt : inject_Z (Qfloor x) < inject_Z 0).
  { eapply Qle_lt_trans; [exact Hf | exact H]. }
  rewrite <- Zlt_Qlt in Hlt. exact Hlt.
Qed.

Lemma max0_int_floor (x : Q) : Z.max 0 (Py.int x) = Z.max 0 (Qfloor x).
Proof.
  destruct (Qlt_le_dec x 0) as [Hneg | Hpos].
  - pose proof (int_nonpos x Hneg). pose proof (floor_neg x Hneg). lia.
  - rewrite (int_floor_nonneg x Hpos). reflexivity.
Qed.

(** ** Formatting and string helpers on concrete values *)

Example format_one_decimal : Py.format_fixed 1 (12345 # 1000) = "12.3"%string.
Proof. vm_compute. reflexivity. Qed.

Example format_two_decimals : Py.format_fixed 2 (5 # 100) = "0.05"%string.
Proof. vm_compute. reflexivity. Qed.

Example format_no_decimal : Py.format_fixed 0 (695 # 10) = "70"%string.
Proof. vm_compute. reflexivity. Qed.

Example format_negative : Py.format_fixed 1 (- (4 # 100)) = "-0.0"%string.
Proof. vm_compute. reflexivity. Qed.

Example upper_yes : Py.upper "Yes" = "YES"%string.
Proof. reflexivity. Qed.

Example join_two : Py.join ", " ["a"; "b"]%string = "a, b"%string.
Proof. reflexivity. Qed.

Example int_truncates : Py.int (- (37 # 10)) = (-3)%Z /\ Py.int (37 # 10) = 3%Z.
Proof. split; reflexivity. Qed.

Example retry_third_attempt :
  LLMExpiring.call_with_retry
    (fun attempt => if Nat.eqb attempt 2 then Some "ok"%string else None) 2
  = Some "ok"%string /\
  LLMExpiring.call_with_retry
    (fun attempt => if Nat.eqb attempt 3 then Some "ok"%string else None) 2
  = None.
Proof. split; reflexivity. Qed.

(** ** Kelly sizing ([calculate_kelly_size]) *)

Lemma kelly_denominator (current_price : Q) :
  current_price < 1 -> ~ 1 - current_price == 0.
Proof. intros H E. lra. Qed.

Lemma kelly_below_one (edge current_price max_position risk_limit cf : Q) :
  current_price < 1 ->
  Helpers.calculate_kelly_size edge current_price max_position risk_limit cf
  = Py.Ok (Z.max 0 (Py.int (Py.min
             (edge / (1 - current_price) * cf * max_position) risk_limit))).
Proof.
  intro H. unfold Helpers.calculate_kelly_size.
  apply leb_gt in H. rewrite H. apply leb_gt in H.
  rewrite (div_ok _ _ (kelly_denominator _ H)). reflexivity.
Qed.

Lemma kelly_total (edge current_price max_position risk_limit cf : Q) :
  exists n : Z,
    Helpers.calculate_kelly_size edge current_price max_position risk_limit cf
    = Py.Ok n /\ (0 <= n)%Z.
Proof.
  destruct (Qlt_le_dec current_price 1) as [Hlt | Hge].
  - rewrite (kelly_below_one _ _ _ _ _ Hlt). eexists. split; [reflexivity | lia].
  - unfold Helpers.calculate_kelly_size. apply leb_le in Hge. rewrite Hge.
    exists 0%Z. split; [reflexivity | lia].
Qed.

Lemma floor_min_le (a b : Q) : inject_Z (Qfloor (Qmin a b)) <= b.
Proof.
  eapply Qle_trans; [apply Qfloor_le | apply Q.le_min_r].
Qed.

(** C3.  [calculate_kelly_size] returns 0 whenever the price is at least 1;
    below 1 it returns [min(edge / (1 - price) * factor * max_position,
    risk_limit)] floored and clamped at zero.  It never raises, its result is
    never negative, and it is at most the risk limit when that limit is a
    valid (non-negative) amount. *)
Theorem kelly_position_size_spec
    (edge current_price max_position risk_limit conservative_factor : Q) :
  (1 <= current_price ->
     Helpers.calculate_kelly_size edge current_price max_position risk_limit
       conservative_factor = Py.Ok 0%Z) /\
  (current_price < 1 ->
     Helpers.calculate_kelly_size edge current_price max_position risk_limit
       conservative_factor
     = Py.Ok (Z.max 0 (Qfloor (Qmin
         (edge / (1 - current_price) * conservative_factor * max_position)
         risk_limit)))) /\
  (exists size : Z,
     Helpers.calculate_kelly_size edge current_price max_position risk_limit
       conservative_factor = Py.Ok size /\
     (0 <= size)%Z /\
     (0 <= risk_limit -> inject_Z size <= risk_limit)).
Proof.
  assert (Hhigh : 1 <= current_price ->
     Helpers.calculate_kelly_size edge current_price max_position risk_limit
       conservative_factor = Py.Ok 0%Z).
  { intro H. unfold Helpers.calculate_kelly_size.
    apply leb_le in H. rewrite H. reflexivity. }
  assert (Hlow : current_price < 1 ->
     Helpers.calculate_kelly_size edge current_price max_position risk_limit
       conservative_factor
     = Py.Ok (Z.max 0 (Qfloor (Qmin
         (edge / (1 - current_price) * conservative_factor * max_position)
         risk_limit)))).
  { intro H. rewrite (kelly_below_one _ _ _ _ _ H).
    rewrite max0_int_floor. f_equal. f_equal.
    apply Qfloor_comp. apply min_spec. }
  split; [exact Hhigh | split; [exact Hlow |]].
  destruct (Qlt_le_dec current_price 1) as [Hlt | Hge].
  - rewrite (Hlow Hlt). eexists. split; [reflexivity |]. split; [lia |].
    intro Hlimit.
    set (m := Qmin _ risk_limit).
    destruct (Z.max_spec 0 (Qfloor m)) as [[_ ->] | [_ ->]].
    + apply floor_min_le.
    + exact Hlimit.
  - rewrite (Hhigh Hge). exists 0%Z. split; [reflexivity |]. split; [lia |].
    intro Hlimit. exact Hlimit.
Qed.

(** At price 0.5, edge 0.3 and the default limits the size is 15; at
    price 1 it is 0. *)
Lemma kelly_position_size_spec_witness :
  Helpers.calculate_kelly_size 0.3 1 100 50 0.25 = Py.Ok 0%Z /\
  Helpers.calculate_kelly_size 0.3 0.5 100 50 0.25
  = Py.Ok (Z.max 0 (Qfloor (Qmin (0.3 / (1 - 0.5) * 0.25 * 100) 50))) /\
  (exists size : Z,
     Helpers.calculate_kelly_size 0.3 0.5 100 50 0.25 = Py.Ok size /\
     (0 <= size)%Z /\ inject_Z size <= 50).
Proof.
  split; [| split].
  - apply (proj1 (kelly_position_size_spec 0.3 1 100 50 0.25)).
    unfold Qle; simpl; lia.
  - apply (proj1 (proj2 (kelly_position_size_spec 0.3 0.5 100 50 0.25))).
    unfold Qlt; simpl; lia.
  - destruct (proj2 (proj2 (kelly_position_size_spec 0.3 0.5 100 50 0.25)))
      as [size [H1 [H2 H3]]].
    exists size. split; [exact H1 | split; [exact H2 |]].
    apply H3. unfold Qle; simpl; lia.
Defined.

(** ** Risk score ([calculate_risk_score]) *)

(** The score of numeric arguments, the string conversion out of the way. *)
Lemma risk_score_numeric float_of_str (volume edge : Q) (hours : option Q) :
  Helpers.calculate_risk_score float_of_str
    (Some (Helpers.ANum volume)) (option_map Helpers.ANum hours)
    (Some (Helpers.ANum edge))
  = (if Py.ltb volume 50000 then 0.3 else 0)
    + match hours with
      | Some h => if (Py.truthy h && Py.ltb h 24)%bool then 0.3 else 0
      | None => 0
      end
    + (if Py.ltb edge 0.1 then 0.4 else 0).
Proof. destruct hours; reflexivity. Qed.

(** The score is one of 0, 0.3, 0.4, 0.6, 0.7 and 1; it lies in [0, 1]. *)
Lemma risk_score_range float_of_str volume hours_to_expiry edge :
  0 <= Helpers.calculate_risk_score float_of_str volume hours_to_expiry edge <= 1.
Proof.
  unfold Helpers.calculate_risk_score.
  set (v := match Helpers.safe_float float_of_str volume (Some 0) with
            | Some v => v | None => 0 end).
  set (e := match Helpers.safe_float float_of_str edge (Some 0) with
            | Some e => e | None => 0 end).
  set (h := match hours_to_expiry with
            | Some h => Helpers.safe_float float_of_str (Some h) None
            | None => None end).
  destruct (Py.ltb v 50000); destruct (Py.ltb e 0.1);
    destruct h as [h|]; try destruct (Py.truthy h && Py.ltb h 24)%bool;
    split; lra.
Qed.

(** Less volume never lowers the score. *)
Lemma risk_score_volume_monotone float_of_str (v1 v2 edge : Q) hours :
  v1 <= v2 ->
  Helpers.calculate_risk_score float_of_str
    (Some (Helpers.ANum v2)) (option_map Helpers.ANum hours)
    (Some (Helpers.ANum edge))
  <= Helpers.calculate_risk_score float_of_str
    (Some (Helpers.ANum v1)) (option_map Helpers.ANum hours)
    (Some (Helpers.ANum edge)).
Proof.
  intro H. rewrite !risk_score_numeric.
  case_ltb v2 50000; case_ltb v1 50000; lra.
Qed.

(** A smaller edge never lowers the score. *)
Lemma risk_score_edge_monotone float_of_str (volume e1 e2 : Q) hours :
  e1 <= e2 ->
  Helpers.calculate_risk_score float_of_str
    (Some (Helpers.ANum volume)) (option_map Helpers.ANum hours)
    (Some (Helpers.ANum e2))
  <= Helpers.calculate_risk_score float_of_str
    (Some (Helpers.ANum volume)) (option_map Helpers.ANum hours)
    (Some (Helpers.ANum e1)).
Proof.
  intro H. rewrite !risk_score_numeric.
  case_ltb e2 0.1; case_ltb e1 0.1; lra.
Qed.

(** A sooner expiry never lowers the score, as long as the sooner time is
    not exactly zero hours. *)
Lemma risk_score_hours_monotone float_of_str (volume edge h1 h2 : Q) :
  h1 <= h2 -> ~ h1 == 0 ->
  Helpers.calculate_risk_score float_of_str
    (Some (Helpers.ANum volume)) (Some (Helpers.ANum h2))
    (Some (Helpers.ANum edge))
  <= Helpers.calculate_risk_score float_of_str
    (Some (Helpers.ANum volume)) (Some (Helpers.ANum h1))
    (Some (Helpers.ANum edge)).
Proof.
  intros H Hnz.
  pose proof (risk_score_numeric float_of_str volume edge (Some h2)) as R2.
  pose proof (risk_score_numeric float_of_str volume edge (Some h1)) as R1.
  simpl option_map in R1, R2. rewrite R1, R2. clear R1 R2.
  assert (T1 : Py.truthy h1 = true).
  { unfold Py.truthy. apply eqb_neq in Hnz. rewrite Hnz. reflexivity. }
  rewrite T1. simpl andb.
  destruct (Py.truthy h2); simpl andb;
    case_ltb h2 24; case_ltb h1 24; lra.
Qed.

(** C4.  The score lies in [0, 1] and does not fall when volume or edge
    shrinks, but it does fall when the time to expiry shrinks to exactly
    zero: with volume 100000 and edge 0.2 the score is 0.3 one hour before
    expiry and 0 at zero hours, because a zero [hours_to_expiry] is falsy
    in [hours_to_expiry and hours_to_expiry < 24].  The strategies' own
    score, [BaseStrategy.calculate_risk_score], tests [hours < 24] alone and
    gives 0.3 for the same market at zero hours. *)
Theorem risk_score_drops_at_zero_hours float_of_str :
  Helpers.calculate_risk_score float_of_str
    (Some (Helpers.ANum 100000)) (Some (Helpers.ANum 1))
    (Some (Helpers.ANum 0.2)) == 0.3 /\
  Helpers.calculate_risk_score float_of_str
    (Some (Helpers.ANum 100000)) (Some (Helpers.ANum 0))
    (Some (Helpers.ANum 0.2)) == 0 /\
  ~ (Helpers.calculate_risk_score float_of_str
       (Some (Helpers.ANum 100000)) (Some (Helpers.ANum 1))
       (Some (Helpers.ANum 0.2))
     <= Helpers.calculate_risk_score float_of_str
       (Some (Helpers.ANum 100000)) (Some (Helpers.ANum 0))
       (Some (Helpers.ANum 0.2))) /\
  LLMExpiring.calculate_risk_score (fun _ _ => Some 86400) 86400 float_of_str
    {| LLMExpiring.m_conditionId := Some "c1"%string;
       LLMExpiring.m_question := Some "q"%string;
       LLMExpiring.m_description := None;
       LLMExpiring.m_endDate := Some "2026-01-01"%string;
       LLMExpiring.m_volume := Some 100000;
       LLMExpiring.m_outcomePrices := Some [0.5; 0.5];
       LLMExpiring.m_marketMakerData := None;
       LLMExpiring.m_bestBid := None;
       LLMExpiring.m_bestAsk := None;
       LLMExpiring.m_outcomes := None |}
    (Some (Helpers.ANum 0.2)) == 0.3.
Proof.
  split; [| split; [| split]].
  - vm_compute. reflexivity.
  - vm_compute. reflexivity.
  - vm_compute. intro H. apply H. reflexivity.
  - vm_compute. reflexivity.
Qed.

(** ** The risk manager *)

Section RiskManagerFacts.

Import Base Risk.

Variable float_of_str : string -> option Q.
Variable config : Config.

Lemma reset_cases today self :
  (last_reset self < today)%Z /\
    reset_daily_counter today self
    = {| daily_trades := 0; last_reset := today;
         open_positions := open_positions self |}
  \/ (today <= last_reset self)%Z /\ reset_daily_counter today self = self.
Proof.
  unfold reset_daily_counter.
  destruct (today >? last_reset self)%Z eqn:E.
  - left. split; [lia | reflexivity].
  - right. split; [lia | reflexivity].
Qed.

Lemma reset_idempotent today self :
  reset_daily_counter today (reset_daily_counter today self)
  = reset_daily_counter today self.
Proof.
  destruct (reset_cases today self) as [[H ->] | [H ->]].
  - unfold reset_daily_counter. simpl.
    destruct (today >? today)%Z eqn:E; [lia | reflexivity].
  - unfold reset_daily_counter.
    destruct (today >? last_reset self)%Z eqn:E; [lia | reflexivity].
Qed.

Lemma can_trade_state today self :
  snd (can_trade config today self) = reset_daily_counter today self.
Proof.
  unfold can_trade.
  destruct (daily_trades _ >=? _)%Z; [reflexivity |].
  destruct (open_positions _ >=? _)%Z; reflexivity.
Qed.

Lemma can_trade_true today self :
  fst (can_trade config today self) = true <->
  (daily_trades (reset_daily_counter today self) < MAX_DAILY_TRADES config)%Z /\
  (open_positions (reset_daily_counter today self)
     < MAX_OPEN_POSITIONS config)%Z.
Proof.
  unfold can_trade.
  destruct (daily_trades _ >=? _)%Z eqn:E1; simpl.
  - split; [discriminate | lia].
  - destruct (open_positions _ >=? _)%Z eqn:E2; simpl.
    + split; [discriminate | lia].
    + split; [lia | reflexivity].
Qed.

Lemma can_trade_pair today self :
  can_trade config today self
  = (fst (can_trade config today self), reset_daily_counter today self).
Proof.
  rewrite <- can_trade_state. apply surjective_pairing.
Qed.

(** [_generate_reasoning] leaves the manager reset: it calls [can_trade]
    on a rejection and touches nothing on an acceptance. *)
Lemma generate_reasoning_state today self opportunity decision fc rs :
  snd (_generate_reasoning config today self opportunity decision fc rs)
  = if decision then self else reset_daily_counter today self.
Proof.
  unfold _generate_reasoning. destruct decision.
  - destruct (d_news_signals opportunity) as [[|sig sigs]|]; reflexivity.
  - rewrite can_trade_pair. reflexivity.
Qed.

(** [evaluate_opportunity] never raises; it returns the four computed
    quantities and leaves the manager in its daily-reset state. *)
Lemma evaluate_result today self opportunity :
  let rs :=
    Helpers.calculate_risk_score float_of_str
      (Some (Helpers.ANum (get (d_volume opportunity) 0)))
      (option_map Helpers.ANum (get_hours opportunity))
      (Some (Helpers.ANum (get (d_edge opportunity) 0))) in
  let fc := get (d_confidence opportunity) 0 * (1 - rs) in
  exists size decision text,
    calculate_position_size config
      (get (d_edge opportunity) 0) (get (d_current_price opportunity) 0.5)
    = Py.Ok size /\
    (0 <= size)%Z /\
    (decision = true <-> Spec.verdict config today self opportunity fc size rs) /\
    evaluate_opportunity float_of_str config today self opportunity
    = Py.Ok ({| should_trade := decision;
                position_size := size;
                final_confidence := fc;
                e_risk_score := rs;
                reasoning := text |},
             reset_daily_counter today self).
Proof.
  intros rs fc.
  destruct (kelly_total (get (d_edge opportunity) 0)
              (get (d_current_price opportunity) 0.5)
              (MAX_POSITION_SIZE config) (RISK_LIMIT_PER_TRADE config)
              Helpers.conservative_factor_default) as [size [Hsize Hnn]].
  exists size.
  unfold evaluate_opportunity, calculate_position_size.
  fold rs. fold fc. rewrite Hsize. simpl Py.bind.
  unfold Spec.verdict.
  case_leb (MIN_CONFIDENCE_THRESHOLD config) fc.
  2:{ rewrite (surjective_pairing (_generate_reasoning _ _ _ _ _ _ _)).
      rewrite generate_reasoning_state.
      eexists _, _. split; [reflexivity |]. split; [exact Hnn |].
      split; [| reflexivity].
      split; [discriminate | intros [H _]; lra]. }
  destruct (size >? 0)%Z eqn:Es.
  2:{ rewrite (surjective_pairing (_generate_reasoning _ _ _ _ _ _ _)).
      rewrite generate_reasoning_state.
      eexists _, _. split; [reflexivity |]. split; [exact Hnn |].
      split; [| reflexivity].
      split; [discriminate | intros [_ [H _]]; lia]. }
  case_ltb 5 (get (d_expected_value opportunity) 0).
  2:{ rewrite (surjective_pairing (_generate_reasoning _ _ _ _ _ _ _)).
      rewrite generate_reasoning_state.
      eexists _, _. split; [reflexivity |]. split; [exact Hnn |].
      split; [| reflexivity].
      split; [discriminate | intros [_ [_ [H _]]]; lra]. }
  case_ltb rs 0.5.
  2:{ rewrite (surjective_pairing (_generate_reasoning _ _ _ _ _ _ _)).
      rewrite generate_reasoning_state.
      eexists _, _. split; [reflexivity |]. split; [exact Hnn |].
      split; [| reflexivity].
      split; [discriminate | intros [_ [_ [_ [H _]]]]; lra]. }
  rewrite can_trade_pair.
  rewrite (surjective_pairing (_generate_reasoning _ _ _ _ _ _ _)).
  rewrite generate_reasoning_state.
  pose proof (can_trade_true today self) as Hct.
  destruct (fst (can_trade config today self)).
  - eexists _, _. split; [reflexivity |]. split; [exact Hnn |].
    split; [| reflexivity].
    split; [| reflexivity]. intros _.
    destruct (proj1 Hct eq_refl) as [Hd Ho].
    repeat split; try assumption; lia.
  - rewrite reset_idempotent.
    eexists _, _. split; [reflexivity |]. split; [exact Hnn |].
    split; [| reflexivity].
    split; [discriminate |].
    intros [_ [_ [_ [_ [Hd Ho]]]]]. apply Hct. split; assumption.
Qed.

Lemma can_trade_after_reset today self :
  can_trade config today (reset_daily_counter today self)
  = can_trade config today self.
Proof.
  unfold can_trade. rewrite reset_idempotent. reflexivity.
Qed.

Lemma generate_reasoning_after_reset today self opportunity fc rs :
  _generate_reasoning config today (reset_daily_counter today self)
    opportunity false fc rs
  = _generate_reasoning config today self opportunity false fc rs.
Proof.
  unfold _generate_reasoning. rewrite can_trade_after_reset. reflexivity.
Qed.

(** Evaluating from the reset state is evaluating from the state
    itself: the reset comes before anything reads the counters. *)
Lemma evaluate_after_reset today self opportunity :
  evaluate_opportunity float_of_str config today
    (reset_daily_counter today self) opportunity
  = evaluate_opportunity float_of_str config today self opportunity.
Proof.
  unfold evaluate_opportunity.
  destruct (calculate_position_size _ _ _) as [size | e]; [| reflexivity].
  simpl Py.bind.
  destruct (Py.leb _ _);
    [| rewrite generate_reasoning_after_reset; reflexivity].
  destruct (size >? 0)%Z;
    [| rewrite generate_reasoning_after_reset; reflexivity].
  destruct (Py.ltb 5 _);
    [| rewrite generate_reasoning_after_reset; reflexivity].
  destruct (Py.ltb _ 0.5);
    [| rewrite generate_reasoning_after_reset; reflexivity].
  rewrite can_trade_after_reset. reflexivity.
Qed.

Lemma evaluate_state today self opportunity ev self' :
  evaluate_opportunity float_of_str config today self opportunity
    = Py.Ok (ev, self') ->
  self' = reset_daily_counter today self.
Proof.
  intro H.
  destruct (evaluate_result today self opportunity)
    as [size [decision [text [_ [_ [_ E]]]]]].
  rewrite E in H. congruence.
Qed.

Lemma step_nonnegative self self' :
  step float_of_str config self self' ->
  (0 <= daily_trades self)%Z /\ (0 <= open_positions self)%Z ->
  (0 <= daily_trades self')%Z /\ (0 <= open_positions self')%Z.
Proof.
  intros Hstep [Hd Ho]. destruct Hstep as [today self opp ev self' E | self | self].
  - apply evaluate_state in E. subst self'.
    destruct (reset_cases today self) as [[_ ->] | [_ ->]]; simpl; lia.
  - simpl. lia.
  - unfold close_position. destruct (open_positions self >? 0)%Z eqn:E; simpl; lia.
Qed.

Lemma reachable_nonnegative self :
  reachable float_of_str config self ->
  (0 <= daily_trades self)%Z /\ (0 <= open_positions self)%Z.
Proof.
  induction 1 as [today | self self' _ IH Hstep].
  - simpl. lia.
  - exact (step_nonnegative self self' Hstep IH).
Qed.

End RiskManagerFacts.

(** C2.  [evaluate_opportunity] returns
    [final_confidence = confidence * (1 - risk_score)], and [should_trade]
    is true exactly when the final confidence reaches the threshold, the
    position size is positive, the expected value exceeds 5, the risk score
    is below 0.5 and both counters, read after the daily reset, are below
    their limits. *)
Theorem evaluate_opportunity_decision float_of_str config today self
    (opportunity : Base.OpportunityDict) :
  exists ev self',
    Risk.evaluate_opportunity float_of_str config today self opportunity
      = Py.Ok (ev, self') /\
    Risk.e_risk_score ev
      = Helpers.calculate_risk_score float_of_str
          (Some (Helpers.ANum (Base.get (Base.d_volume opportunity) 0)))
          (option_map Helpers.ANum (Base.get_hours opportunity))
          (Some (Helpers.ANum (Base.get (Base.d_edge opportunity) 0))) /\
    Risk.final_confidence ev
      = Base.get (Base.d_confidence opportunity) 0 * (1 - Risk.e_risk_score ev) /\
    Risk.calculate_position_size config
        (Base.get (Base.d_edge opportunity) 0)
        (Base.get (Base.d_current_price opportunity) 0.5)
      = Py.Ok (Risk.position_size ev) /\
    (Risk.should_trade ev = true <->
       MIN_CONFIDENCE_THRESHOLD config <= Risk.final_confidence ev /\
       (Risk.position_size ev > 0)%Z /\
       5 < Base.get (Base.d_expected_value opportunity) 0 /\
       Risk.e_risk_score ev < 0.5 /\
       (Risk.daily_trades (Risk.reset_daily_counter today self)
          < MAX_DAILY_TRADES config)%Z /\
       (Risk.open_positions (Risk.reset_daily_counter today self)
          < MAX_OPEN_POSITIONS config)%Z).
Proof.
  destruct (evaluate_result float_of_str config today self opportunity)
    as [size [decision [text [Hsize [_ [Hdec E]]]]]].
  eexists _, _. split; [exact E |]. simpl.
  split; [reflexivity |]. split; [reflexivity |]. split; [exact Hsize |].
  exact Hdec.
Qed.

(** C6.  When the manager's [last_reset] is strictly earlier than today,
    [evaluate_opportunity] sets [daily_trades] to 0 and [last_reset] to
    today, and does so before the limit check: the call returns what it
    returns from the already reset state.  The reset is one-way and
    idempotent: a later evaluation on the same (or an earlier) date changes
    no field.  This holds of every state, whatever its counters: an
    evaluation on a date that is not later than the state's [last_reset]
    returns the state as it is, and no evaluation moves [last_reset]
    back. *)
Theorem daily_reset_on_rollover float_of_str config today self
    (opportunity : Base.OpportunityDict) :
  (Risk.last_reset self < today)%Z ->
  exists ev self',
    Risk.evaluate_opportunity float_of_str config today self opportunity
      = Py.Ok (ev, self') /\
    Risk.daily_trades self' = 0%Z /\
    Risk.last_reset self' = today /\
    Risk.open_positions self' = Risk.open_positions self /\
    Risk.evaluate_opportunity float_of_str config today self opportunity
      = Risk.evaluate_opportunity float_of_str config today
          {| Risk.daily_trades := 0%Z;
             Risk.last_reset := today;
             Risk.open_positions := Risk.open_positions self |} opportunity /\
    (forall day other,
       (day <= today)%Z ->
       exists ev2,
         Risk.evaluate_opportunity float_of_str config day self' other
           = Py.Ok (ev2, self')) /\
    (forall (state : Risk.RiskManager) day other,
       (day <= Risk.last_reset state)%Z ->
       exists ev2,
         Risk.evaluate_opportunity float_of_str config day state other
           = Py.Ok (ev2, state)) /\
    (forall (state : Risk.RiskManager) day other ev2 state',
       Risk.evaluate_opportunity float_of_str config day state other
         = Py.Ok (ev2, state') ->
       (Risk.last_reset state <= Risk.last_reset state')%Z /\
       (Risk.last_reset state' = Risk.last_reset state \/
        Risk.last_reset state' = day /\ Risk.daily_trades state' = 0%Z)).
Proof.
  intro Hlt.
  destruct (evaluate_result float_of_str config today self opportunity)
    as [size [decision [text [_ [_ [_ E]]]]]].
  destruct (reset_cases today self) as [[_ R] | [Hge _]]; [| lia].
  eexists _, _. split; [exact E |]. rewrite R. simpl.
  split; [reflexivity |]. split; [reflexivity |]. split; [reflexivity |].
  split; [| split; [| split]].
  - rewrite <- R. symmetry. apply evaluate_after_reset.
  - intros day other Hday.
    destruct (evaluate_result float_of_str config day
                {| Risk.daily_trades := 0%Z; Risk.last_reset := today;
                   Risk.open_positions := Risk.open_positions self |} other)
      as [size2 [decision2 [text2 [_ [_ [_ E2]]]]]].
    eexists. rewrite E2. f_equal. f_equal.
    destruct (reset_cases day
                {| Risk.daily_trades := 0%Z; Risk.last_reset := today;
                   Risk.open_positions := Risk.open_positions self |})
      as [[Hc _] | [_ Hs]]; [simpl in Hc; lia | exact Hs].
  - intros state day other Hday.
    destruct (evaluate_result float_of_str config day state other)
      as [size2 [decision2 [text2 [_ [_ [_ E2]]]]]].
    eexists. rewrite E2. f_equal. f_equal.
    destruct (reset_cases day state) as [[Hc _] | [_ Hs]]; [lia | exact Hs].
  - intros state day other ev2 state' E2.
    destruct (evaluate_result float_of_str config day state other)
      as [size2 [decision2 [text2 [_ [_ [_ E3]]]]]].
    rewrite E3 in E2. injection E2 as _ <-.
    destruct (reset_cases day state) as [[Hc ->] | [_ ->]]; simpl.
    + split; [lia | right; split; reflexivity].
    + split; [lia | left; reflexivity].
Qed.

(** Five trades counted yesterday (day 100), an evaluation today (day 101);
    then five trades counted today and another evaluation today. *)
Lemma daily_reset_on_rollover_witness :
  let opp := Base.to_dict
               (Base.MarketOpportunity_init "m" "q" "YES" 0.5 0.8 0.9 30 [] 0.1
                  100000 None) in
  let counted := {| Risk.daily_trades := 5%Z; Risk.last_reset := 101%Z;
                    Risk.open_positions := 2%Z |} in
  (exists ev self',
     Risk.evaluate_opportunity (fun _ => None) default_config 101%Z
       {| Risk.daily_trades := 5%Z; Risk.last_reset := 100%Z;
          Risk.open_positions := 2%Z |} opp
     = Py.Ok (ev, self') /\
     Risk.daily_trades self' = 0%Z /\
     Risk.last_reset self' = 101%Z /\
     Risk.open_positions self' = 2%Z) /\
  (exists ev2,
     Risk.evaluate_opportunity (fun _ => None) default_config 101%Z counted opp
     = Py.Ok (ev2, counted)).
Proof.
  intros opp counted.
  destruct (daily_reset_on_rollover (fun _ => None) default_config 101%Z
              {| Risk.daily_trades := 5%Z; Risk.last_reset := 100%Z;
                 Risk.open_positions := 2%Z |} opp)
    as [ev [self' [E [Hd [Hl [Ho [_ [_ [Hsame _]]]]]]]]].
  - simpl. lia.
  - split.
    + exists ev, self'. repeat split; assumption.
    + apply (Hsame counted 101%Z opp). simpl. lia.
Defined.

(** C7.  In every state reachable from the initial one by evaluations,
    [record_trade] and [close_position], both counters are non-negative;
    [record_trade] adds one to each, and [close_position] takes one off
    [open_positions] but stops at zero. *)
Theorem counters_never_negative float_of_str config self :
  Risk.reachable float_of_str config self ->
  (0 <= Risk.daily_trades self)%Z /\
  (0 <= Risk.open_positions self)%Z /\
  Risk.daily_trades (Risk.record_trade self) = (Risk.daily_trades self + 1)%Z /\
  Risk.open_positions (Risk.record_trade self)
    = (Risk.open_positions self + 1)%Z /\
  Risk.daily_trades (Risk.close_position self) = Risk.daily_trades self /\
  Risk.open_positions (Risk.close_position self)
    = Z.max 0 (Risk.open_positions self - 1).
Proof.
  intro Hreach.
  destruct (reachable_nonnegative float_of_str config self Hreach) as [Hd Ho].
  split; [exact Hd |]. split; [exact Ho |].
  split; [reflexivity |]. split; [reflexivity |].
  unfold Risk.close_position.
  destruct (Risk.open_positions self >? 0)%Z eqn:E; simpl; split; lia.
Qed.

(** One trade recorded, then two position closes, from a fresh manager. *)
Lemma counters_never_negative_witness :
  let self :=
    Risk.close_position
      (Risk.close_position (Risk.record_trade (Risk.RiskManager_init 100%Z))) in
  (0 <= Risk.daily_trades self)%Z /\
  (0 <= Risk.open_positions self)%Z /\
  Risk.open_positions (Risk.close_position self) = 0%Z.
Proof.
  intro self.
  assert (Hreach : Risk.reachable (fun _ => None) default_config self).
  { unfold self.
    eapply Risk.reachable_step; [| apply Risk.step_close_position].
    eapply Risk.reachable_step; [| apply Risk.step_close_position].
    eapply Risk.reachable_step; [| apply Risk.step_record_trade].
    apply Risk.reachable_init. }
  destruct (counters_never_negative (fun _ => None) default_config self Hreach)
    as [Hd [Ho [_ [_ [_ Hc]]]]].
  split; [exact Hd |]. split; [exact Ho |].
  rewrite Hc. reflexivity.
Defined.

(** ** The evaluate-and-execute loop *)

Section LoopFacts.

Import Base Risk Main.

Variable float_of_str : string -> option Q.
Variable config : Config.
Variable today : date.

Lemma reset_noop self :
  (today <= last_reset self)%Z -> reset_daily_counter today self = self.
Proof.
  intro H. destruct (reset_cases today self) as [[Hlt _] | [_ E]]; [lia | exact E].
Qed.

(** From a state already reset today, the loop adds to both counters the
    number of trades it executed, and nothing else. *)
Lemma evaluate_loop_counts opportunities :
  forall self executed_count n self',
    (today <= last_reset self)%Z ->
    evaluate_loop float_of_str config today self executed_count opportunities
      = Py.Ok (n, self') ->
    (executed_count <= n)%Z /\
    self' = {| daily_trades := daily_trades self + (n - executed_count);
               last_reset := last_reset self;
               open_positions := open_positions self + (n - executed_count) |}.
Proof.
  induction opportunities as [| opp rest IH]; intros self k n self' Hday H.
  - simpl in H. injection H as <- <-. split; [lia |].
    destruct self; simpl. f_equal; lia.
  - simpl in H.
    destruct (evaluate_result float_of_str config today self (to_dict opp))
      as [size [decision [text [_ [_ [_ E]]]]]].
    rewrite E in H. simpl in H. rewrite (reset_noop self Hday) in H.
    destruct decision.
    + destruct (execute_trade config opp size) as [[|] | e]; simpl in H.
      * apply IH in H; [| simpl; exact Hday].
        destruct H as [Hk ->]. simpl. split; [lia |]. f_equal; lia.
      * apply IH in H; [| exact Hday]. exact H.
      * discriminate.
    + apply IH in H; [| exact Hday]. exact H.
Qed.

Lemma evaluate_and_execute_counts self opportunities n self' :
  evaluate_and_execute float_of_str config today self opportunities
    = Py.Ok (n, self') ->
  (0 <= n)%Z /\
  open_positions self' = (open_positions self + n)%Z /\
  (opportunities <> [] ->
   daily_trades self'
     = (daily_trades (reset_daily_counter today self) + n)%Z).
Proof.
  unfold evaluate_and_execute.
  destruct opportunities as [| opp rest].
  - simpl. intro H. injection H as <- <-.
    split; [lia |]. split; [lia |]. intro C. contradiction.
  - intro H.
    change (firstn 10 (opp :: rest)) with (opp :: firstn 9 rest) in H.
    assert (Hday : (today <= last_reset (reset_daily_counter today self))%Z).
    { destruct (reset_cases today self) as [[_ ->] | [Hge ->]]; simpl; lia. }
    assert (H' : evaluate_loop float_of_str config today
                   (reset_daily_counter today self) 0 (opp :: firstn 9 rest)
                 = Py.Ok (n, self')).
    { simpl. simpl in H. rewrite evaluate_after_reset.
      destruct (evaluate_opportunity float_of_str config today self (to_dict opp))
        as [[ev s] | e] eqn:E; [| discriminate].
      exact H. }
    apply evaluate_loop_counts in H'; [| exact Hday].
    destruct H' as [Hn ->]. simpl.
    split; [lia |]. split.
    + destruct (reset_cases today self) as [[_ ->] | [_ ->]]; simpl; lia.
    + intros _. lia.
Qed.

(** The loop is a run: it counts and records a trade for the opportunities
    that are accepted and executed with success, and for no other. *)
Lemma evaluate_loop_run opportunities :
  forall self executed_count n self',
    evaluate_loop float_of_str config today self executed_count opportunities
      = Py.Ok (n, self') ->
    LoopProps.run float_of_str config today self opportunities
      (n - executed_count) self'.
Proof.
  induction opportunities as [| opp rest IH]; intros self k n self' H.
  - simpl in H. injection H as <- <-.
    replace (k - k)%Z with 0%Z by lia. constructor.
  - cbn [evaluate_loop] in H.
    destruct (evaluate_opportunity float_of_str config today self (to_dict opp))
      as [[ev s] | e] eqn:E; cbn [Py.bind] in H; [| discriminate].
    pose proof (evaluate_state float_of_str config today self (to_dict opp)
                  ev s E) as Hs.
    destruct (should_trade ev) eqn:Et.
    + destruct (execute_trade config opp (position_size ev))
        as [[|] | e] eqn:Ex; cbn [Py.bind] in H.
      * apply IH in H. subst s.
        replace (n - k)%Z with (n - (k + 1) + 1)%Z by lia.
        apply LoopProps.run_recorded; [| exact H].
        exists ev, (reset_daily_counter today self).
        split; [exact E |]. split; [exact Et | exact Ex].
      * apply IH in H. subst s.
        apply LoopProps.run_passed; [| exact H].
        exists ev, (reset_daily_counter today self).
        split; [exact E |]. right. split; [exact Et | exact Ex].
      * discriminate.
    + apply IH in H. subst s.
      apply LoopProps.run_passed; [| exact H].
      exists ev, (reset_daily_counter today self).
      split; [exact E |]. left. exact Et.
Qed.

(** Where no execution reports success, a run counts nothing and leaves
    the manager as the daily reset leaves it. *)
Lemma run_without_success opportunities :
  (forall opp size, execute_trade config opp size <> Py.Ok true) ->
  forall self n self',
    LoopProps.run float_of_str config today self opportunities n self' ->
    n = 0%Z /\
    (opportunities = [] -> self' = self) /\
    (opportunities <> [] -> self' = reset_daily_counter today self).
Proof.
  intros Hfail self n self' Hrun.
  induction Hrun as [rm | rm opp rest n after Hex _ _ | rm opp rest n after _ Hrun IH].
  - split; [reflexivity |]. split; [reflexivity | intro C; contradiction].
  - exfalso. destruct Hex as [ev [rm' [_ [_ Hx]]]]. exact (Hfail _ _ Hx).
  - destruct IH as [-> [Hnil Hcons]].
    split; [reflexivity |]. split; [discriminate |]. intros _.
    destruct rest as [| o rest'].
    + apply Hnil. reflexivity.
    + rewrite Hcons by discriminate. apply reset_idempotent.
Qed.

End LoopFacts.

(** C10.  [evaluate_opportunity] leaves [open_positions] as it is and never
    raises [daily_trades]: the manager it returns is the one it was given,
    or, on a date rollover, that one with [daily_trades] at 0 and
    [last_reset] moved to today; this holds whatever the verdict.  The
    counters grow only in the loop of [evaluate_and_execute], which calls
    [record_trade] once per trade whose execution reported success: after
    the loop both counters have grown by the number of executed trades,
    and the loop is a run in which a trade is counted and recorded exactly
    for the opportunities that were accepted and whose execution returned
    success.  So when no execution succeeds nothing is counted and neither
    counter grows, however many opportunities were accepted. *)
Theorem evaluation_changes_no_counter float_of_str config today self
    (opportunity : Base.OpportunityDict) :
  (exists ev self',
     Risk.evaluate_opportunity float_of_str config today self opportunity
       = Py.Ok (ev, self') /\
     Risk.open_positions self' = Risk.open_positions self /\
     (self' = self \/
      (Risk.last_reset self < today)%Z /\
      self' = {| Risk.daily_trades := 0%Z;
                 Risk.last_reset := today;
                 Risk.open_positions := Risk.open_positions self |}) /\
     ((0 <= Risk.daily_trades self)%Z ->
      (Risk.daily_trades self' <= Risk.daily_trades self)%Z)) /\
  (forall opportunities n self',
     Main.evaluate_and_execute float_of_str config today self opportunities
       = Py.Ok (n, self') ->
     (0 <= n)%Z /\
     Risk.open_positions self' = (Risk.open_positions self + n)%Z /\
     (opportunities <> [] ->
      Risk.daily_trades self'
        = (Risk.daily_trades (Risk.reset_daily_counter today self) + n)%Z) /\
     LoopProps.run float_of_str config today self (firstn 10 opportunities)
       n self' /\
     ((forall opp size, Main.execute_trade config opp size <> Py.Ok true) ->
      n = 0%Z /\
      Risk.open_positions self' = Risk.open_positions self /\
      Risk.daily_trades self'
      = Risk.daily_trades
          (match opportunities with
           | [] => self
           | _ :: _ => Risk.reset_daily_counter today self
           end))).
Proof.
  split.
  - destruct (evaluate_result float_of_str config today self opportunity)
      as [size [decision [text [_ [_ [_ E]]]]]].
    eexists _, _. split; [exact E |].
    destruct (reset_cases today self) as [[Hlt ->] | [Hge ->]]; simpl.
    + split; [reflexivity |]. split; [| lia].
      right. split; [exact Hlt | reflexivity].
    + split; [reflexivity |]. split; [| lia]. left. reflexivity.
  - intros opportunities n self' H.
    destruct (evaluate_and_execute_counts float_of_str config today self
                opportunities n self' H) as [Hn [Ho Hd]].
    split; [exact Hn |]. split; [exact Ho |]. split; [exact Hd |].
    assert (Hrun : LoopProps.run float_of_str config today self
                     (firstn 10 opportunities) n self').
    { unfold Main.evaluate_and_execute in H.
      apply evaluate_loop_run in H.
      replace (n - 0)%Z with n in H by lia. exact H. }
    split; [exact Hrun |].
    intro Hfail.
    destruct (run_without_success float_of_str config today _ Hfail _ _ _ Hrun)
      as [Hz [Hnil Hcons]].
    split; [exact Hz |].
    destruct opportunities as [| opp rest].
    + rewrite (Hnil eq_refl). split; reflexivity.
    + rewrite Hcons by discriminate.
      split; [| reflexivity].
      destruct (reset_cases today self) as [[_ ->] | [_ ->]]; reflexivity.
Qed.

(** An accepted opportunity, evaluated by a manager that already counts
    three trades today and four open positions; then the same opportunity
    through the loop, in mock mode and with real trading, where the
    execution fails. *)
Lemma evaluation_changes_no_counter_witness :
  let self := {| Risk.daily_trades := 3%Z; Risk.last_reset := 100%Z;
                 Risk.open_positions := 4%Z |} in
  let opp := Base.MarketOpportunity_init "m" "q" "YES" 0.5 0.8 0.9 30 [] 0.1
               100000 None in
  let real_config := {|
    MAX_POSITION_SIZE := 100;
    MIN_CONFIDENCE_THRESHOLD := 0.7;
    MAX_DAILY_TRADES := 10;
    MAX_OPEN_POSITIONS := 20;
    RISK_LIMIT_PER_TRADE := 50;
    EXPIRING_MIN_PROBABILITY := 0.95;
    EXPIRING_MAX_HOURS := 48;
    EXPIRING_MIN_HOURS := 2;
    EXPIRING_MIN_VOLUME := 10000;
    MOCK_TRADING := false |} in
  (exists ev self',
     Risk.evaluate_opportunity (fun _ => None) default_config 100%Z self
       (Base.to_dict opp) = Py.Ok (ev, self') /\
     Risk.should_trade ev = true /\
     Risk.open_positions self' = 4%Z /\
     (Risk.daily_trades self' <= 3)%Z) /\
  (exists n self',
     Main.evaluate_and_execute (fun _ => None) default_config 100%Z self [opp]
       = Py.Ok (n, self') /\
     Risk.open_positions self' = (4 + n)%Z) /\
  (exists self',
     Main.evaluate_and_execute (fun _ => None) real_config 100%Z self [opp]
       = Py.Ok (0%Z, self') /\
     Risk.open_positions self' = 4%Z /\
     Risk.daily_trades self' = 3%Z).
Proof.
  intros self opp real_config.
  pose proof (evaluation_changes_no_counter (fun _ => None) default_config
                100%Z self (Base.to_dict opp)) as [Hev Hloop].
  split; [| split].
  - destruct Hev as [ev [self' [E [Ho [_ Hd]]]]].
    exists ev, self'. split; [exact E |].
    split; [vm_compute in E; injection E as <- _; reflexivity |].
    split; [exact Ho |].
    apply Hd. simpl. lia.
  - destruct (Main.evaluate_and_execute (fun _ => None) default_config 100%Z
                self [opp]) as [[n self'] | e] eqn:E.
    + exists n, self'. split; [reflexivity |].
      destruct (Hloop [opp] n self' E) as [_ [Ho _]]. exact Ho.
    + vm_compute in E. discriminate.
  - pose proof (evaluation_changes_no_counter (fun _ => None) real_config
                  100%Z self (Base.to_dict opp)) as [_ Hreal].
    destruct (Main.evaluate_and_execute (fun _ => None) real_config 100%Z
                self [opp]) as [[n self'] | e] eqn:E;
      [| vm_compute in E; discriminate].
    destruct (Hreal [opp] n self' E) as [_ [_ [_ [_ Hnone]]]].
    destruct Hnone as [-> [Ho Hd]].
    + intros o size. unfold Main.execute_trade. simpl. discriminate.
    + exists self'. split; [reflexivity |]. split; [exact Ho | exact Hd].
Defined.

(** ** The rationale of a rejection *)

Lemma prefix_app (p s : string) : String.prefix p (p ++ s)%string = true.
Proof.
  induction p as [| c p IH]; simpl.
  - destruct s; reflexivity.
  - destruct (ascii_dec c c) as [_ | N]; [exact IH | contradiction].
Qed.

Lemma join_head (sep first : string) (rest : list string) :
  exists tail : string, Py.join sep (first :: rest) = (first ++ tail)%string.
Proof.
  destruct rest as [| r rest].
  - exists ""%string. simpl.
    induction first as [| c f IH]; simpl; [reflexivity | f_equal; exact IH].
  - eexists. simpl. reflexivity.
Qed.

Lemma append_assoc_str (a b c : string) :
  ((a ++ b) ++ c = a ++ (b ++ c))%string.
Proof.
  induction a as [| x a IH]; simpl; [reflexivity | f_equal; exact IH].
Qed.

Lemma prefix_join_head (sep p x : string) (more : list string) :
  String.prefix p (Py.join sep ((p ++ x)%string :: more)) = true.
Proof.
  destruct (join_head sep (p ++ x)%string more) as [tail ->].
  rewrite append_assoc_str. apply prefix_app.
Qed.

(** A final confidence below the threshold always rejects, and the
    rationale then opens with the insufficient-confidence reason. *)
Lemma low_confidence_is_reported float_of_str config today self
    (opportunity : Base.OpportunityDict) ev self' :
  Risk.evaluate_opportunity float_of_str config today self opportunity
    = Py.Ok (ev, self') ->
  Risk.final_confidence ev < MIN_CONFIDENCE_THRESHOLD config ->
  Risk.should_trade ev = false /\
  String.prefix "信心度不足" (Risk.reasoning ev) = true.
Proof.
  intros E Hlow.
  unfold Risk.evaluate_opportunity in E.
  destruct (Risk.calculate_position_size _ _ _) as [size | e]; [| discriminate].
  cbn [Py.bind] in E.
  set (rs := Helpers.calculate_risk_score _ _ _ _) in E.
  set (fc := Base.get (Base.d_confidence opportunity) 0 * (1 - rs)) in E.
  case_leb (MIN_CONFIDENCE_THRESHOLD config) fc.
  - (* the threshold is reached: the returned confidence contradicts [Hlow] *)
    exfalso.
    match type of E with
    | (let '(_, _) := ?c in _) = _ => destruct c as [decision s1]
    end.
    match type of E with
    | (let '(_, _) := ?c in _) = _ => destruct c as [text s2]
    end.
    injection E as <- <-. simpl in Hlow. lra.
  - apply ltb_lt in E0.
    unfold Risk._generate_reasoning in E. rewrite E0 in E.
    destruct (Risk.can_trade config today self) as [ok s1].
    injection E as <- <-. simpl. split; [reflexivity |].
    match goal with
    | |- String.prefix _ (Py.join _ ?l) = true =>
        assert (Hl : exists more,
                  l = (("信心度不足" ++ " (" ++ Risk.percent 1 fc ++ " < " ++
                        Risk.percent 0 (MIN_CONFIDENCE_THRESHOLD config) ++ ")")
                       %string :: more))
    end.
    { destruct (Py.leb _ 5); destruct (Py.ltb 0.5 rs); destruct ok;
        simpl; eexists; reflexivity. }
    destruct Hl as [more ->].
    apply prefix_join_head.
Qed.

(** C8.  The rationale of a rejection does not name every failed
    condition.  An opportunity priced at 1.0 gets position size 0 and is
    rejected for that alone (confidence 0.9 reaches the threshold 0.7, the
    expected value 10 exceeds 5, the risk score is 0, no limit is reached),
    and its rationale is the empty string: [_generate_reasoning] has no case
    for the position size.  The scenario of a final confidence of 0.5 under
    the threshold 0.7 behaves as stated: rejected, with the
    insufficient-confidence reason. *)
Theorem rejection_rationale_misses_position_size :
  (exists ev self',
     Risk.evaluate_opportunity (fun _ => None) default_config 100%Z
       (Risk.RiskManager_init 100%Z)
       (Base.to_dict
          (Base.MarketOpportunity_init "m" "q" "YES" 1 0.8 0.9 10 [] 0.1
             100000 None))
       = Py.Ok (ev, self') /\
     Risk.should_trade ev = false /\
     Risk.position_size ev = 0%Z /\
     MIN_CONFIDENCE_THRESHOLD default_config <= Risk.final_confidence ev /\
     Risk.e_risk_score ev < 0.5 /\
     Risk.reasoning ev = ""%string) /\
  (exists ev self',
     Risk.evaluate_opportunity (fun _ => None) default_config 100%Z
       (Risk.RiskManager_init 100%Z)
       (Base.to_dict
          (Base.MarketOpportunity_init "m" "q" "YES" 0.5 0.8 0.5 10 [] 0.1
             100000 None))
       = Py.Ok (ev, self') /\
     Risk.final_confidence ev == 0.5 /\
     Risk.should_trade ev = false /\
     Risk.reasoning ev = "信心度不足 (50.0% < 70%)"%string).
Proof.
  split.
  - eexists _, _. split; [vm_compute; reflexivity |]. simpl.
    split; [reflexivity |]. split; [reflexivity |].
    split; [vm_compute; discriminate |].
    split; [vm_compute; reflexivity |]. reflexivity.
  - eexists _, _. split; [vm_compute; reflexivity |]. simpl.
    split; [vm_compute; reflexivity |]. split; reflexivity.
Qed.

(** ** Aggregation: the deduplication dictionary *)

Section DictFacts.

Import Base Main.

Lemma mem_In (k : string) (l : list string) :
  existsb (String.eqb k) l = true <-> In k l.
Proof.
  rewrite existsb_exists. split.
  - intros [x [Hin E]]. apply String.eqb_eq in E. subst. exact Hin.
  - intro H. exists k. split; [exact H | apply String.eqb_refl].
Qed.

Lemma mem_not_In (k : string) (l : list string) :
  existsb (String.eqb k) l = false <-> ~ In k l.
Proof.
  rewrite <- mem_In. destruct (existsb _ l); split; congruence.
Qed.

Lemma lookup_In_keys k (d : odict) :
  lookup k d <> None <-> In k (map fst d).
Proof.
  induction d as [| [k' v'] d IH]; simpl.
  - split; [congruence | contradiction].
  - destruct (String.eqb k k') eqn:E.
    + apply String.eqb_eq in E. subst. split; [auto | congruence].
    + apply String.eqb_neq in E. rewrite IH. split.
      * auto.
      * intros [H | H]; [congruence | exact H].
Qed.

Lemma lookup_assign_same k v (d : odict) :
  lookup k (assign k v d) = Some v.
Proof.
  induction d as [| [k' v'] d IH]; simpl.
  - rewrite String.eqb_refl. reflexivity.
  - destruct (String.eqb k k') eqn:E; simpl; rewrite E; [reflexivity | exact IH].
Qed.

Lemma lookup_assign_other k k' v (d : odict) :
  k' <> k -> lookup k' (assign k v d) = lookup k' d.
Proof.
  intro Hne. induction d as [| [k0 v0] d IH]; simpl.
  - apply String.eqb_neq in Hne. rewrite Hne. reflexivity.
  - destruct (String.eqb k k0) eqn:E; simpl.
    + apply String.eqb_eq in E. subst k0.
      apply String.eqb_neq in Hne. rewrite Hne. reflexivity.
    + rewrite IH. reflexivity.
Qed.

(** Assigning to a key that is present keeps every key in its place. *)
Lemma keys_assign_present k v (d : odict) :
  lookup k d <> None -> map fst (assign k v d) = map fst d.
Proof.
  induction d as [| [k0 v0] d IH]; simpl; intro H.
  - congruence.
  - destruct (String.eqb k k0) eqn:E; simpl.
    + reflexivity.
    + rewrite (IH H). reflexivity.
Qed.

(** Assigning to an absent key appends the entry. *)
Lemma assign_absent k v (d : odict) :
  lookup k d = None -> assign k v d = d ++ [(k, v)].
Proof.
  induction d as [| [k0 v0] d IH]; simpl; intro H.
  - reflexivity.
  - destruct (String.eqb k k0) eqn:E; [discriminate |].
    rewrite (IH H). reflexivity.
Qed.

Lemma In_lookup k v (d : odict) :
  NoDup (map fst d) -> In (k, v) d -> lookup k d = Some v.
Proof.
  induction d as [| [k0 v0] d IH]; simpl; intros Hnd Hin.
  - contradiction.
  - inversion Hnd as [| ? ? Hnotin Hnd']; subst.
    destruct Hin as [Heq | Hin].
    + injection Heq as -> ->. rewrite String.eqb_refl. reflexivity.
    + destruct (String.eqb k k0) eqn:E.
      * apply String.eqb_eq in E. subst k0. exfalso. apply Hnotin.
        apply (in_map fst) in Hin. exact Hin.
      * apply IH; assumption.
Qed.

Lemma lookup_In k v (d : odict) : lookup k d = Some v -> In (k, v) d.
Proof.
  induction d as [| [k0 v0] d IH]; simpl; intro H.
  - discriminate.
  - destruct (String.eqb k k0) eqn:E.
    + apply String.eqb_eq in E. injection H as ->. subst. left. reflexivity.
    + right. apply IH. exact H.
Qed.

(** ** First occurrences *)

Lemma first_seen_snoc ids : forall seen k,
  first_seen seen (ids ++ [k])
  = first_seen seen ids
    ++ (if existsb (String.eqb k) (seen ++ ids) then [] else [k]).
Proof.
  induction ids as [| a ids IH]; intros seen k; simpl.
  - rewrite app_nil_r. destruct (existsb _ seen); reflexivity.
  - destruct (existsb (String.eqb a) seen) eqn:Ea.
    + rewrite IH. f_equal.
      replace (existsb (String.eqb k) (seen ++ a :: ids))
        with (existsb (String.eqb k) (seen ++ ids)); [reflexivity |].
      apply Bool.eq_iff_eq_true. rewrite !mem_In, !in_app_iff. simpl.
      apply mem_In in Ea. split.
      * intros [H | H]; auto.
      * intros [H | [H | H]]; auto. subst. auto.
    + simpl. rewrite IH. f_equal. f_equal.
      replace (existsb (String.eqb k) (seen ++ a :: ids))
        with (existsb (String.eqb k) ((a :: seen) ++ ids)); [reflexivity |].
      apply Bool.eq_iff_eq_true. rewrite !mem_In, !in_app_iff. simpl.
      tauto.
Qed.

Lemma first_seen_fresh ids : forall seen k,
  In k (first_seen seen ids) -> ~ In k seen /\ In k ids.
Proof.
  induction ids as [| a ids IH]; intros seen k; simpl.
  - contradiction.
  - destruct (existsb (String.eqb a) seen) eqn:Ea.
    + intro H. apply IH in H. tauto.
    + apply mem_not_In in Ea. intros [H | H].
      * subst. auto.
      * apply IH in H. simpl in H. tauto.
Qed.

Lemma first_seen_NoDup ids : forall seen, NoDup (first_seen seen ids).
Proof.
  induction ids as [| a ids IH]; intro seen; simpl.
  - constructor.
  - destruct (existsb (String.eqb a) seen).
    + apply IH.
    + constructor; [| apply IH].
      intro H. apply first_seen_fresh in H. simpl in H. tauto.
Qed.

End DictFacts.

(** ** Aggregation: deduplication keeps the best of each market *)

Section DedupFacts.

Import Base Main.

Lemma dedup_inv_nil : Spec.dedup_inv [] [].
Proof.
  split; [| split].
  - intros k v H. discriminate.
  - intros o H. contradiction.
  - reflexivity.
Qed.

Lemma seen_key_present seen d k :
  Spec.dedup_inv seen d ->
  (In k (map market_id seen) <-> lookup k d <> None).
Proof.
  intros [I1 [I2 I3]]. split.
  - intro H. apply in_map_iff in H. destruct H as [o [<- Hin]].
    apply I2. exact Hin.
  - intro H. destruct (lookup k d) as [v |] eqn:E; [| congruence].
    destruct (I1 k v E) as [Hid [Hin _]].
    apply in_map_iff. exists v. split; assumption.
Qed.

Lemma dedup_step_inv seen d opp :
  Spec.dedup_inv seen d ->
  Spec.dedup_inv (seen ++ [opp]) (dedup_step d opp).
Proof.
  intro Hinv. pose proof Hinv as [I1 [I2 I3]].
  pose proof (seen_key_present seen d (market_id opp) Hinv) as Hkey.
  unfold dedup_step.
  destruct (lookup (market_id opp) d) as [kept |] eqn:El.
  - (* the market already has an entry *)
    destruct (I1 _ _ El) as [Hkid [Hkin Hkmax]].
    assert (Hids : map market_id (seen ++ [opp])
                   = map market_id seen ++ [market_id opp]).
    { rewrite map_app. reflexivity. }
    assert (Hfirst : first_seen [] (map market_id (seen ++ [opp]))
                     = first_seen [] (map market_id seen)).
    { rewrite Hids, first_seen_snoc. simpl.
      assert (Hm : existsb (String.eqb (market_id opp)) (map market_id seen)
                   = true).
      { apply mem_In. apply Hkey. congruence. }
      rewrite Hm. apply app_nil_r. }
    case_ltb (expected_value kept) (expected_value opp).
    + (* the newcomer is strictly better: it takes the entry's place *)
      split; [| split].
      * intros k v Hl.
        destruct (string_dec k (market_id opp)) as [-> | Hne].
        -- rewrite lookup_assign_same in Hl. injection Hl as <-.
           split; [reflexivity |]. split; [apply in_or_app; right; left; reflexivity |].
           intros o Ho Hid. apply in_app_or in Ho. destruct Ho as [Ho | [<- | []]].
           ++ apply Qlt_le_weak. eapply Qle_lt_trans; [apply (Hkmax o Ho Hid) | exact E].
           ++ apply Qle_refl.
        -- rewrite (lookup_assign_other _ _ _ _ Hne) in Hl.
           destruct (I1 _ _ Hl) as [Hvid [Hvin Hvmax]].
           split; [exact Hvid |]. split; [apply in_or_app; left; exact Hvin |].
           intros o Ho Hid. apply in_app_or in Ho. destruct Ho as [Ho | [<- | []]].
           ++ apply Hvmax; assumption.
           ++ congruence.
      * intros o Ho.
        destruct (string_dec (market_id o) (market_id opp)) as [-> | Hne].
        -- rewrite lookup_assign_same. congruence.
        -- rewrite (lookup_assign_other _ _ _ _ Hne).
           apply in_app_or in Ho. destruct Ho as [Ho | [<- | []]].
           ++ apply I2. exact Ho.
           ++ congruence.
      * rewrite Hfirst, <- I3. apply keys_assign_present. congruence.
    + (* the entry stays *)
      split; [| split].
      * intros k v Hl. destruct (I1 _ _ Hl) as [Hvid [Hvin Hvmax]].
        split; [exact Hvid |]. split; [apply in_or_app; left; exact Hvin |].
        intros o Ho Hid. apply in_app_or in Ho. destruct Ho as [Ho | [<- | []]].
        -- apply Hvmax; assumption.
        -- rewrite <- Hid, El in Hl. injection Hl as <-. exact E.
      * intros o Ho. apply in_app_or in Ho. destruct Ho as [Ho | [<- | []]].
        -- apply I2. exact Ho.
        -- congruence.
      * rewrite Hfirst. exact I3.
  - (* a new market: its entry goes to the end *)
    assert (Hnew : ~ In (market_id opp) (map market_id seen)).
    { intro H. apply Hkey in H. congruence. }
    split; [| split].
    + intros k v Hl.
      destruct (string_dec k (market_id opp)) as [-> | Hne].
      * rewrite lookup_assign_same in Hl. injection Hl as <-.
        split; [reflexivity |]. split; [apply in_or_app; right; left; reflexivity |].
        intros o Ho Hid. apply in_app_or in Ho. destruct Ho as [Ho | [<- | []]].
        -- exfalso. apply Hnew. rewrite <- Hid. apply in_map. exact Ho.
        -- apply Qle_refl.
      * rewrite (lookup_assign_other _ _ _ _ Hne) in Hl.
        destruct (I1 _ _ Hl) as [Hvid [Hvin Hvmax]].
        split; [exact Hvid |]. split; [apply in_or_app; left; exact Hvin |].
        intros o Ho Hid. apply in_app_or in Ho. destruct Ho as [Ho | [<- | []]].
        -- apply Hvmax; assumption.
        -- congruence.
    + intros o Ho.
      destruct (string_dec (market_id o) (market_id opp)) as [-> | Hne].
      * rewrite lookup_assign_same. congruence.
      * rewrite (lookup_assign_other _ _ _ _ Hne).
        apply in_app_or in Ho. destruct Ho as [Ho | [<- | []]].
        -- apply I2. exact Ho.
        -- congruence.
    + rewrite (assign_absent _ _ _ El), !map_app.
      change (map market_id [opp]) with [market_id opp].
      rewrite first_seen_snoc. simpl.
      apply mem_not_In in Hnew. rewrite Hnew, I3. reflexivity.
Qed.

Lemma fold_dedup_inv rest : forall seen d,
  Spec.dedup_inv seen d ->
  Spec.dedup_inv (seen ++ rest) (fold_left dedup_step rest d).
Proof.
  induction rest as [| opp rest IH]; intros seen d Hinv; simpl.
  - rewrite app_nil_r. exact Hinv.
  - replace (seen ++ opp :: rest) with ((seen ++ [opp]) ++ rest)
      by (rewrite <- app_assoc; reflexivity).
    apply IH. apply dedup_step_inv. exact Hinv.
Qed.

Lemma deduplicate_inv all : Spec.dedup_inv all (deduplicate all).
Proof. exact (fold_dedup_inv all [] [] dedup_inv_nil). Qed.

Lemma dedup_keys_NoDup all : NoDup (map fst (deduplicate all)).
Proof.
  destruct (deduplicate_inv all) as [_ [_ I3]]. rewrite I3.
  apply first_seen_NoDup.
Qed.

(** The market ids of the kept opportunities are the dictionary keys. *)
Lemma kept_ids all :
  map market_id (values (deduplicate all)) = map fst (deduplicate all).
Proof.
  pose proof (dedup_keys_NoDup all) as Hnd.
  destruct (deduplicate_inv all) as [I1 _].
  assert (H : forall k v, In (k, v) (deduplicate all) -> market_id v = k).
  { intros k v Hin. apply (I1 k v). apply In_lookup; assumption. }
  clear I1 Hnd. unfold values. induction (deduplicate all) as [| [k v] d IH].
  - reflexivity.
  - simpl. rewrite (H k v (or_introl eq_refl)). f_equal.
    apply IH. intros k' v' Hin. apply H. right. exact Hin.
Qed.

Lemma kept_is_best all o :
  In o (values (deduplicate all)) ->
  In o all /\
  forall o', In o' all -> market_id o' = market_id o ->
             expected_value o' <= expected_value o.
Proof.
  intro Hin. unfold values in Hin. apply in_map_iff in Hin.
  destruct Hin as [[k v] [Hv Hin]]. simpl in Hv. subst v.
  destruct (deduplicate_inv all) as [I1 _].
  apply In_lookup in Hin; [| apply dedup_keys_NoDup].
  destruct (I1 k o Hin) as [Hid [Ho Hmax]].
  split; [exact Ho |]. intros o' Ho' Hid'. apply Hmax; congruence.
Qed.

Lemma every_market_kept all o' :
  In o' all ->
  exists o, In o (values (deduplicate all)) /\ market_id o = market_id o'.
Proof.
  intro Hin. destruct (deduplicate_inv all) as [I1 [I2 _]].
  destruct (lookup (market_id o') (deduplicate all)) as [v |] eqn:E.
  - exists v. split.
    + unfold values. apply in_map_iff. exists (market_id o', v).
      split; [reflexivity | apply lookup_In; exact E].
    + apply (I1 _ _ E).
  - exfalso. apply (I2 o' Hin). exact E.
Qed.

End DedupFacts.

(** ** Aggregation: the stable descending sort *)

Section SortFacts.

Import Base Main.

Lemma insert_desc_perm x l : Permutation (insert_desc x l) (x :: l).
Proof.
  induction l as [| y l IH]; simpl.
  - apply Permutation_refl.
  - destruct (Py.ltb (expected_value x) (expected_value y)).
    + eapply perm_trans; [apply perm_skip; exact IH | apply perm_swap].
    + apply Permutation_refl.
Qed.

Lemma sort_desc_perm l : Permutation (sort_desc l) l.
Proof.
  induction l as [| x l IH]; simpl.
  - apply perm_nil.
  - eapply perm_trans; [apply insert_desc_perm | apply perm_skip; exact IH].
Qed.

Lemma insert_desc_sorted x l :
  StronglySorted Spec.ev_ge l -> StronglySorted Spec.ev_ge (insert_desc x l).
Proof.
  induction l as [| y l IH]; simpl; intro Hs.
  - constructor; constructor.
  - inversion Hs as [| ? ? Hl Hy]; subst.
    case_ltb (expected_value x) (expected_value y).
    + constructor; [apply IH; exact Hl |].
      apply Forall_forall. intros z Hz.
      apply (Permutation_in _ (insert_desc_perm x l)) in Hz.
      destruct Hz as [<- | Hz].
      * unfold Spec.ev_ge. apply Qlt_le_weak. exact E.
      * rewrite Forall_forall in Hy. apply Hy. exact Hz.
    + constructor; [exact Hs |].
      constructor; [exact E |].
      apply Forall_forall. intros z Hz.
      rewrite Forall_forall in Hy. specialize (Hy z Hz).
      unfold Spec.ev_ge in *. eapply Qle_trans; [exact Hy | exact E].
Qed.

Lemma sort_desc_sorted l : StronglySorted Spec.ev_ge (sort_desc l).
Proof.
  induction l as [| x l IH]; simpl.
  - constructor.
  - apply insert_desc_sorted. exact IH.
Qed.

(** An insertion never carries an opportunity past one of equal value. *)
Lemma insert_desc_stable v x l :
  Spec.with_value v (insert_desc x l) = Spec.with_value v (x :: l).
Proof.
  induction l as [| y l IH]; simpl.
  - reflexivity.
  - case_ltb (expected_value x) (expected_value y).
    + simpl. simpl in IH. rewrite IH.
      destruct (Py.eqb (expected_value x) v) eqn:Ex;
        destruct (Py.eqb (expected_value y) v) eqn:Ey; try reflexivity.
      exfalso. apply eqb_eq in Ex, Ey. rewrite Ex, Ey in E.
      exact (Qlt_irrefl v E).
    + reflexivity.
Qed.

Lemma sort_desc_stable v l :
  Spec.with_value v (sort_desc l) = Spec.with_value v l.
Proof.
  induction l as [| x l IH]; simpl.
  - reflexivity.
  - rewrite insert_desc_stable. simpl. rewrite IH. reflexivity.
Qed.

Lemma aggregate_In all o :
  In o (aggregate all) <-> In o (values (deduplicate all)).
Proof.
  unfold aggregate. split; intro H.
  - exact (Permutation_in _ (sort_desc_perm _) H).
  - exact (Permutation_in _ (Permutation_sym (sort_desc_perm _)) H).
Qed.

End SortFacts.

(** C5.  The aggregation keeps one opportunity per market id, one whose
    expected value is greatest among the proposals for that market (so of
    two proposals worth 10 and 25 for one market the one worth 25 stays),
    and returns the kept ones sorted by expected value, descending, by a
    stable sort: opportunities of equal value come out in the order in
    which the deduplication holds them, which is the order in which their
    market ids were first inserted. *)
Theorem aggregate_dedup_sorted (all : list Base.MarketOpportunity) :
  let kept := Main.values (Main.deduplicate all) in
  let out := Main.aggregate all in
  map Base.market_id kept = Main.first_seen [] (map Base.market_id all) /\
  NoDup (map Base.market_id out) /\
  (forall o, In o out ->
     In o all /\
     forall o', In o' all -> Base.market_id o' = Base.market_id o ->
                Base.expected_value o' <= Base.expected_value o) /\
  (forall o', In o' all ->
     exists o, In o out /\ Base.market_id o = Base.market_id o') /\
  Permutation out kept /\
  StronglySorted (fun a b => Base.expected_value b <= Base.expected_value a) out /\
  (forall v,
     filter (fun o => Py.eqb (Base.expected_value o) v) out
     = filter (fun o => Py.eqb (Base.expected_value o) v) kept) /\
  (forall a b,
     Base.market_id a = Base.market_id b ->
     Base.expected_value a == 10 -> Base.expected_value b == 25 ->
     Main.aggregate [a; b] = [b] /\ Main.aggregate [b; a] = [b]).
Proof.
  intros kept out.
  assert (Hperm : Permutation out kept) by apply sort_desc_perm.
  split.
  { unfold kept. rewrite kept_ids.
    destruct (deduplicate_inv all) as [_ [_ I3]]. exact I3. }
  split.
  { apply (Permutation_NoDup (l := map Base.market_id kept)).
    - apply Permutation_map. apply Permutation_sym. exact Hperm.
    - unfold kept. rewrite kept_ids. apply dedup_keys_NoDup. }
  split.
  { intros o Ho. apply kept_is_best. apply aggregate_In. exact Ho. }
  split.
  { intros o' Ho'. destruct (every_market_kept all o' Ho') as [o [Ho Hid]].
    exists o. split; [apply aggregate_In; exact Ho | exact Hid]. }
  split; [exact Hperm |].
  split; [apply sort_desc_sorted |].
  split; [intro v; apply sort_desc_stable |].
  intros a b Hid Ha Hb.
  assert (Hab : Py.ltb (Base.expected_value a) (Base.expected_value b) = true).
  { apply ltb_lt. rewrite Ha, Hb. reflexivity. }
  assert (Hba : Py.ltb (Base.expected_value b) (Base.expected_value a) = false).
  { apply ltb_ge. rewrite Ha, Hb. discriminate. }
  unfold Main.aggregate, Main.deduplicate, Main.dedup_step. simpl.
  rewrite <- Hid, String.eqb_refl, Hab, Hba. simpl. split; reflexivity.
Qed.

(** Five proposals over three markets: market [m1] is proposed at 5 and
    then at 10, market [m2] at 10, market [m3] at 25 and then at 10. *)
Lemma aggregate_dedup_sorted_witness :
  let mk id label ev :=
    Base.MarketOpportunity_init id "q" label 0.5 0.8 0.9 ev [] 0.1 100000 None in
  let all := [mk "m1" "A" 5; mk "m2" "B" 10; mk "m1" "C" 10;
              mk "m3" "D" 25; mk "m3" "E" 10]%string in
  Main.aggregate all = [mk "m3" "D" 25; mk "m1" "C" 10; mk "m2" "B" 10]%string /\
  (forall o, In o (Main.aggregate all) ->
     In o all /\
     forall o', In o' all -> Base.market_id o' = Base.market_id o ->
                Base.expected_value o' <= Base.expected_value o) /\
  Main.aggregate [mk "m1" "A" 10; mk "m1" "C" 25]%string = [mk "m1" "C" 25]%string.
Proof.
  intros mk all.
  pose proof (aggregate_dedup_sorted all) as [_ [_ [Hbest [_ [_ [_ [_ Hpair]]]]]]].
  split; [vm_compute; reflexivity |].
  split; [exact Hbest |].
  apply (Hpair (mk "m1" "A" 10) (mk "m1" "C" 25))%string.
  - reflexivity.
  - reflexivity.
  - reflexivity.
Defined.

(** ** The model-assisted expiring-market strategy *)


Section FallbackFacts.

Import Base LLMExpiring.

Variable strptime : string -> string -> option Helpers.datetime.
Variable _parse_llm_response : string -> option (list (string * json)).
Variable py_str : json -> string.
Variable llm_call : Prompt -> nat -> option string.
Variable now : Helpers.datetime.
Variable self : Strategy.


Hypothesis min_probability_below_certainty : ~ min_probability self == 1.
Hypothesis max_hours_nonzero : ~ max_hours_to_expiry self == 0.





End FallbackFacts.




(** ** The edge of an opportunity *)

Section EdgeFacts.

Import Base LLMExpiring.

Lemma init_edge_derived market_id question outcome current_price
    predicted_probability confidence expected_value news_signals risk_score
    volume hours_to_expiry :
  Spec.edge_derived
    (MarketOpportunity_init market_id question outcome current_price
       predicted_probability confidence expected_value news_signals
       risk_score volume hours_to_expiry).
Proof. reflexivity. Qed.

Lemma aggregate_edge_derived all :
  Forall Spec.edge_derived all -> Forall Spec.edge_derived (Main.aggregate all).
Proof.
  rewrite !Forall_forall. intros H o Ho.
  apply aggregate_In, kept_is_best in Ho. apply H. apply Ho.
Qed.

Variable strptime : string -> string -> option Helpers.datetime.
Variable _parse_llm_response : string -> option (list (string * json)).
Variable py_str : json -> string.
Variable llm_call : Prompt -> nat -> option string.
Variable now : Helpers.datetime.
Variable self : Strategy.

Lemma rules_for_outcome_edge market outcome price hours_to_exp volume
    opportunities result :
  rules_for_outcome self market outcome price hours_to_exp volume opportunities
    = Py.Ok result ->
  Forall Spec.edge_derived opportunities ->
  Forall Spec.edge_derived result.
Proof.
  unfold rules_for_outcome. intros H Hall.
  repeat match type of H with
         | context [if ?c then _ else _] => destruct c
         | context [Py.div ?a ?b] => destruct (Py.div a b); cbn [Py.bind] in H
         end;
  cbn [Py.bind] in H; try discriminate; injection H as <-;
  repeat (apply Forall_app; split); try assumption;
  repeat constructor.
Qed.

Lemma rules_loop_edge market prices hours_to_exp volume outcomes :
  forall i opportunities result,
    rules_loop self market prices hours_to_exp volume i outcomes opportunities
      = Py.Ok result ->
    Forall Spec.edge_derived opportunities ->
    Forall Spec.edge_derived result.
Proof.
  induction outcomes as [| outcome rest IH]; intros i opportunities result H Hall;
    simpl in H.
  - injection H as <-. exact Hall.
  - destruct (nth_error prices i) as [price |].
    + destruct (rules_for_outcome self market outcome price hours_to_exp volume
                  opportunities) as [next | e] eqn:E; [| discriminate].
      cbn [Py.bind] in H. apply (IH _ _ _ H).
      exact (rules_for_outcome_edge _ _ _ _ _ _ _ E Hall).
    + apply (IH _ _ _ H). exact Hall.
Qed.

Lemma analyze_with_llm_edge market prices outcomes hours_to_exp volume result :
  _analyze_with_llm _parse_llm_response py_str llm_call self market prices
    outcomes hours_to_exp volume = Py.Ok result ->
  Forall Spec.edge_derived result.
Proof.
  unfold _analyze_with_llm. intro H.
  repeat match type of H with
         | context [match ?c with _ => _ end] =>
             destruct c; cbn [Py.bind] in H
         | context [Py.bind ?c _] => destruct c; cbn [Py.bind] in H
         end;
  try discriminate; injection H as <-; repeat constructor.
Qed.

Lemma analyze_market_edge market result :
  analyze_market strptime _parse_llm_response py_str llm_call now self market
    = Py.Ok result ->
  Forall Spec.edge_derived result.
Proof.
  unfold analyze_market. intro H.
  destruct (m_endDate market) as [end_date_str |];
    [| injection H as <-; constructor].
  destruct (Helpers.parse_market_end_date strptime end_date_str)
    as [end_date |]; [| injection H as <-; constructor].
  destruct (_ || _)%bool; [injection H as <-; constructor |].
  destruct (Py.ltb _ (min_volume self)); [injection H as <-; constructor |].
  destruct (llm_enabled self).
  - destruct (_analyze_with_llm _ _ _ _ _ _ _ _ _) as [found | e] eqn:E;
      [| discriminate].
    cbn [Py.bind] in H. apply analyze_with_llm_edge in E.
    destruct found as [| o found].
    + apply rules_loop_edge in H; [exact H | constructor].
    + injection H as <-. exact E.
  - cbn [Py.bind] in H. apply rules_loop_edge in H; [exact H | constructor].
Qed.

End EdgeFacts.

(** C1.  The edge of a [MarketOpportunity] is
    [abs(predicted_probability - current_price)]: the constructor derives it
    from the two fields it stores, [to_dict] hands it on unchanged, and the
    code that handles opportunities afterwards (the strategy that builds
    them, the aggregation that selects and orders them) returns them with
    that edge. *)
Theorem edge_is_derived :
  (forall market_id question outcome current_price predicted_probability
          confidence expected_value news_signals risk_score volume
          hours_to_expiry,
     let o := Base.MarketOpportunity_init market_id question outcome
                current_price predicted_probability confidence expected_value
                news_signals risk_score volume hours_to_expiry in
     Base.current_price o = current_price /\
     Base.predicted_probability o = predicted_probability /\
     Base.edge o = Py.abs (predicted_probability - current_price)) /\
  (forall o,
     Base.edge o = Py.abs (Base.predicted_probability o - Base.current_price o) ->
     Base.d_edge (Base.to_dict o)
     = Some (Py.abs (Base.predicted_probability o - Base.current_price o)) /\
     Base.d_predicted_probability (Base.to_dict o)
     = Some (Base.predicted_probability o) /\
     Base.d_current_price (Base.to_dict o) = Some (Base.current_price o)) /\
  (forall strptime _parse_llm_response py_str llm_call now self market result,
     LLMExpiring.analyze_market strptime _parse_llm_response py_str llm_call
       now self market = Py.Ok result ->
     Forall (fun o =>
               Base.edge o
               = Py.abs (Base.predicted_probability o - Base.current_price o))
       result) /\
  (forall all,
     Forall (fun o =>
               Base.edge o
               = Py.abs (Base.predicted_probability o - Base.current_price o))
       all ->
     Forall (fun o =>
               Base.edge o
               = Py.abs (Base.predicted_probability o - Base.current_price o))
       (Main.aggregate all)).
Proof.
  split; [| split; [| split]].
  - intros. repeat split.
  - intros o H. simpl. rewrite H. repeat split.
  - intros strptime parse py_str llm_call now self market result H.
    exact (analyze_market_edge strptime parse py_str llm_call now self market
             result H).
  - exact aggregate_edge_derived.
Qed.

(** An opportunity predicted at 0.8 and priced at 0.5 has edge 0.3, in
    the object, in its dictionary and after aggregation. *)
Lemma edge_is_derived_witness :
  let o := Base.MarketOpportunity_init "m" "q" "YES" 0.5 0.8 0.9 30 [] 0.1
             100000 None in
  Base.edge o = Py.abs (0.8 - 0.5) /\
  Base.d_edge (Base.to_dict o) = Some (Py.abs (0.8 - 0.5)) /\
  Forall (fun o =>
            Base.edge o
            = Py.abs (Base.predicted_probability o - Base.current_price o))
    (Main.aggregate [o]).
Proof.
  intro o.
  pose proof edge_is_derived as [Hinit [Hdict [_ Hagg]]].
  split; [apply (Hinit "m" "q" "YES" 0.5 0.8 0.9 30 [] 0.1 100000 None)%string |].
  split.
  - apply (Hdict o). reflexivity.
  - apply Hagg. constructor; [reflexivity | constructor].
Defined.


(* ===================================================================== *)
(** * Further properties of the modelled code *)
(* ===================================================================== *)

(** ** Sizing and the limits in the evaluate-and-execute loop *)

Lemma kelly_positive_bounds (edge current_price max_position risk_limit cf : Q)
    (size : Z) :
  Helpers.calculate_kelly_size edge current_price max_position risk_limit cf
    = Py.Ok size ->
  (0 < size)%Z ->
  current_price < 1 /\ inject_Z size <= risk_limit.
Proof.
  intros H Hpos.
  destruct (Qlt_le_dec current_price 1) as [Hlt | Hge].
  - split; [exact Hlt |].
    rewrite (kelly_below_one _ _ _ _ _ Hlt) in H. injection H as <-.
    rewrite max0_int_floor in Hpos |- *.
    rewrite Z.max_r by lia.
    eapply Qle_trans; [| apply min_le_r].
    apply Qfloor_le.
  - exfalso. unfold Helpers.calculate_kelly_size in H.
    apply leb_le in Hge. rewrite Hge in H. injection H as <-. lia.
Qed.

(** X1.  An opportunity that [evaluate_opportunity] accepts is priced below
    1 and gets a position of at least 1 and at most the per-trade risk
    limit. *)
Theorem accepted_trade_is_sized float_of_str config today self
    (opportunity : Base.OpportunityDict) ev self' :
  Risk.evaluate_opportunity float_of_str config today self opportunity
    = Py.Ok (ev, self') ->
  Risk.should_trade ev = true ->
  (1 <= Risk.position_size ev)%Z /\
  inject_Z (Risk.position_size ev) <= RISK_LIMIT_PER_TRADE config /\
  Base.get (Base.d_current_price opportunity) 0.5 < 1.
Proof.
  intros E Htrade.
  destruct (evaluate_result float_of_str config today self opportunity)
    as [size [decision [text [Hsize [_ [Hdec E']]]]]].
  rewrite E' in E. injection E as <- <-. simpl in *.
  apply Hdec in Htrade. destruct Htrade as [_ [Hpos _]].
  unfold Risk.calculate_position_size in Hsize.
  destruct (kelly_positive_bounds _ _ _ _ _ _ Hsize ltac:(lia)) as [Hp Hl].
  split; [lia |]. split; assumption.
Qed.

Lemma accepted_trade_is_sized_witness :
  exists ev self',
    Risk.evaluate_opportunity (fun _ => None) default_config 100%Z
      (Risk.RiskManager_init 100%Z)
      (Base.to_dict
         (Base.MarketOpportunity_init "m" "q" "YES" 0.5 0.8 0.9 30 [] 0.1
            100000 None)) = Py.Ok (ev, self') /\
    (1 <= Risk.position_size ev)%Z /\
    inject_Z (Risk.position_size ev) <= 50.
Proof.
  destruct (Risk.evaluate_opportunity (fun _ => None) default_config 100%Z
              (Risk.RiskManager_init 100%Z)
              (Base.to_dict
                 (Base.MarketOpportunity_init "m" "q" "YES" 0.5 0.8 0.9 30 []
                    0.1 100000 None))) as [[ev self'] | e] eqn:E.
  - exists ev, self'. split; [reflexivity |].
    destruct (accepted_trade_is_sized _ _ _ _ _ _ _ E) as [H1 [H2 _]].
    + vm_compute in E. injection E as <- <-. reflexivity.
    + split; assumption.
  - vm_compute in E. discriminate.
Defined.

Section LoopLimits.

Import Base Risk Main.

Variable float_of_str : string -> option Q.
Variable config : Config.
Variable today : date.

Lemma evaluate_loop_within_limits opportunities :
  forall self executed_count n self',
    (today <= last_reset self)%Z ->
    evaluate_loop float_of_str config today self executed_count opportunities
      = Py.Ok (n, self') ->
    (daily_trades self <= MAX_DAILY_TRADES config)%Z ->
    (open_positions self <= MAX_OPEN_POSITIONS config)%Z ->
    (daily_trades self' <= MAX_DAILY_TRADES config)%Z /\
    (open_positions self' <= MAX_OPEN_POSITIONS config)%Z.
Proof.
  induction opportunities as [| opp rest IH]; intros self k n self' Hday H Hd Ho.
  - simpl in H. injection H as <- <-. split; assumption.
  - simpl in H.
    destruct (evaluate_result float_of_str config today self (to_dict opp))
      as [size [decision [text [_ [_ [Hdec E]]]]]].
    rewrite E in H. simpl in H. rewrite (reset_noop today self Hday) in *.
    destruct decision.
    + destruct (proj1 Hdec eq_refl) as [_ [_ [_ [_ [Hd' Ho']]]]].
      rewrite (reset_noop today self Hday) in Hd', Ho'.
      destruct (execute_trade config opp size) as [[|] | e]; simpl in H.
      * refine (IH _ _ _ _ _ H _ _); simpl; lia.
      * refine (IH _ _ _ _ _ H _ _); assumption.
      * discriminate.
    + refine (IH _ _ _ _ _ H _ _); assumption.
Qed.

Lemma evaluate_loop_count_bound opportunities :
  forall self executed_count n self',
    evaluate_loop float_of_str config today self executed_count opportunities
      = Py.Ok (n, self') ->
    (executed_count <= n <= executed_count + Z.of_nat (List.length opportunities))%Z.
Proof.
  induction opportunities as [| opp rest IH]; intros self k n self' H.
  - simpl in H. injection H as <- <-. simpl. lia.
  - simpl in H.
    destruct (evaluate_opportunity float_of_str config today self (to_dict opp))
      as [[ev s] | e]; [| discriminate].
    simpl in H. change (List.length (opp :: rest)) with (S (List.length rest)).
    destruct (should_trade ev).
    + destruct (execute_trade config opp (position_size ev)) as [[|] | e];
        simpl in H; [| | discriminate]; apply IH in H; lia.
    + apply IH in H. lia.
Qed.

Lemma evaluate_loop_real_mode opportunities :
  MOCK_TRADING config = false ->
  forall self executed_count,
    (today <= last_reset self)%Z ->
    evaluate_loop float_of_str config today self executed_count opportunities
      = Py.Ok (executed_count, self).
Proof.
  intro Hreal.
  induction opportunities as [| opp rest IH]; intros self k Hday.
  - reflexivity.
  - simpl.
    destruct (evaluate_result float_of_str config today self (to_dict opp))
      as [size [decision [text [_ [_ [_ E]]]]]].
    rewrite E. simpl. rewrite (reset_noop today self Hday).
    destruct decision; [| apply IH; exact Hday].
    unfold execute_trade. rewrite Hreal. simpl. apply IH. exact Hday.
Qed.

Lemma reset_is_today self :
  (today <= last_reset (reset_daily_counter today self))%Z.
Proof.
  destruct (reset_cases today self) as [[_ ->] | [Hge ->]]; simpl; lia.
Qed.

(** The loop on a non-empty list is the loop from the reset state. *)
Lemma evaluate_loop_from_reset self executed_count opp rest :
  evaluate_loop float_of_str config today self executed_count (opp :: rest)
  = evaluate_loop float_of_str config today (reset_daily_counter today self)
      executed_count (opp :: rest).
Proof.
  simpl. rewrite evaluate_after_reset. reflexivity.
Qed.

End LoopLimits.

(** X2.  The loop of [evaluate_and_execute] never takes a counter past its
    limit: a manager within the daily-trade and open-position limits is
    still within them afterwards, whatever the opportunities. *)
Theorem loop_respects_limits float_of_str config today self opportunities n self' :
  (0 <= MAX_DAILY_TRADES config)%Z ->
  (Risk.daily_trades self <= MAX_DAILY_TRADES config)%Z ->
  (Risk.open_positions self <= MAX_OPEN_POSITIONS config)%Z ->
  Main.evaluate_and_execute float_of_str config today self opportunities
    = Py.Ok (n, self') ->
  (Risk.daily_trades self' <= MAX_DAILY_TRADES config)%Z /\
  (Risk.open_positions self' <= MAX_OPEN_POSITIONS config)%Z.
Proof.
  intros Hmax Hd Ho H. unfold Main.evaluate_and_execute in H.
  destruct opportunities as [| opp rest].
  - simpl in H. injection H as <- <-. split; assumption.
  - change (firstn 10 (opp :: rest)) with (opp :: firstn 9 rest) in H.
    rewrite evaluate_loop_from_reset in H.
    apply evaluate_loop_within_limits in H.
    + exact H.
    + apply reset_is_today.
    + destruct (reset_cases today self) as [[_ ->] | [_ ->]]; simpl; lia.
    + destruct (reset_cases today self) as [[_ ->] | [_ ->]]; simpl; lia.
Qed.

(** Nine trades already today, limit ten, three acceptable opportunities:
    one is executed. *)
Lemma loop_respects_limits_witness :
  let self := {| Risk.daily_trades := 9%Z; Risk.last_reset := 100%Z;
                 Risk.open_positions := 4%Z |} in
  let mk id := Base.MarketOpportunity_init id "q" "YES" 0.5 0.8 0.9 30 [] 0.1
                 100000 None in
  let after := {| Risk.daily_trades := 10%Z; Risk.last_reset := 100%Z;
                  Risk.open_positions := 5%Z |} in
  Main.evaluate_and_execute (fun _ => None) default_config 100%Z self
    [mk "a"; mk "b"; mk "c"]%string = Py.Ok (1%Z, after) /\
  (Risk.daily_trades after <= 10)%Z /\ (Risk.open_positions after <= 20)%Z.
Proof.
  intros self mk after.
  assert (E : Main.evaluate_and_execute (fun _ => None) default_config 100%Z
                self [mk "a"; mk "b"; mk "c"]%string = Py.Ok (1%Z, after))
    by (vm_compute; reflexivity).
  split; [exact E |].
  apply (loop_respects_limits (fun _ => None) default_config 100%Z self
           [mk "a"; mk "b"; mk "c"]%string 1%Z after).
  - simpl. lia.
  - simpl. lia.
  - simpl. lia.
  - exact E.
Defined.

(** X3.  One call of [evaluate_and_execute] executes at most ten trades,
    and no more than there are opportunities. *)
Theorem loop_executes_at_most_ten float_of_str config today self opportunities
    n self' :
  Main.evaluate_and_execute float_of_str config today self opportunities
    = Py.Ok (n, self') ->
  (0 <= n <= 10)%Z /\ (n <= Z.of_nat (List.length opportunities))%Z.
Proof.
  intro H. unfold Main.evaluate_and_execute in H.
  apply evaluate_loop_count_bound in H.
  rewrite length_firstn in H. lia.
Qed.

Lemma loop_executes_at_most_ten_witness :
  let mk id := Base.MarketOpportunity_init id "q" "YES" 0.5 0.8 0.9 30 [] 0.1
                 100000 None in
  let config := {|
    MAX_POSITION_SIZE := 100; MIN_CONFIDENCE_THRESHOLD := 0.7;
    MAX_DAILY_TRADES := 50; MAX_OPEN_POSITIONS := 50;
    RISK_LIMIT_PER_TRADE := 50; EXPIRING_MIN_PROBABILITY := 0.95;
    EXPIRING_MAX_HOURS := 48; EXPIRING_MIN_HOURS := 2;
    EXPIRING_MIN_VOLUME := 10000; MOCK_TRADING := true |} in
  let opportunities :=
    [mk "1"; mk "2"; mk "3"; mk "4"; mk "5"; mk "6"; mk "7"; mk "8"; mk "9";
     mk "10"; mk "11"; mk "12"]%string in
  let after := {| Risk.daily_trades := 10%Z; Risk.last_reset := 100%Z;
                  Risk.open_positions := 10%Z |} in
  Main.evaluate_and_execute (fun _ => None) config 100%Z
    (Risk.RiskManager_init 100%Z) opportunities = Py.Ok (10%Z, after) /\
  (0 <= 10 <= 10)%Z /\ (10 <= Z.of_nat (List.length opportunities))%Z.
Proof.
  intros mk config opportunities after.
  assert (E : Main.evaluate_and_execute (fun _ => None) config 100%Z
                (Risk.RiskManager_init 100%Z) opportunities
              = Py.Ok (10%Z, after)) by (vm_compute; reflexivity).
  split; [exact E |].
  exact (loop_executes_at_most_ten (fun _ => None) config 100%Z
           (Risk.RiskManager_init 100%Z) opportunities 10%Z after E).
Defined.

(** X4.  With [MOCK_TRADING] off nothing is ever executed or recorded:
    [evaluate_and_execute] returns a count of 0 and leaves the manager as the
    evaluations left it (daily-reset, no counter raised), and it does not
    raise. *)
Theorem real_mode_records_nothing float_of_str config today self opportunities :
  MOCK_TRADING config = false ->
  Main.evaluate_and_execute float_of_str config today self opportunities
  = Py.Ok (0%Z, match opportunities with
                | [] => self
                | _ :: _ => Risk.reset_daily_counter today self
                end).
Proof.
  intro Hreal. unfold Main.evaluate_and_execute.
  destruct opportunities as [| opp rest]; [reflexivity |].
  change (firstn 10 (opp :: rest)) with (opp :: firstn 9 rest).
  rewrite evaluate_loop_from_reset.
  apply evaluate_loop_real_mode; [exact Hreal | apply reset_is_today].
Qed.

Lemma real_mode_records_nothing_witness :
  let config := {|
    MAX_POSITION_SIZE := 100; MIN_CONFIDENCE_THRESHOLD := 0.7;
    MAX_DAILY_TRADES := 10; MAX_OPEN_POSITIONS := 20;
    RISK_LIMIT_PER_TRADE := 50; EXPIRING_MIN_PROBABILITY := 0.95;
    EXPIRING_MAX_HOURS := 48; EXPIRING_MIN_HOURS := 2;
    EXPIRING_MIN_VOLUME := 10000; MOCK_TRADING := false |} in
  Main.evaluate_and_execute (fun _ => None) config 100%Z
    (Risk.RiskManager_init 100%Z)
    [Base.MarketOpportunity_init "m" "q" "YES" 0.5 0.8 0.9 30 [] 0.1 100000 None]
  = Py.Ok (0%Z, Risk.RiskManager_init 100%Z).
Proof.
  intro config.
  exact (real_mode_records_nothing (fun _ => None) config 100%Z
           (Risk.RiskManager_init 100%Z)
           [Base.MarketOpportunity_init "m" "q" "YES" 0.5 0.8 0.9 30 [] 0.1
              100000 None] eq_refl).
Defined.

(** ** Execution of a trade *)

(** X5.  In mock mode [execute_trade] reports success for every non-zero
    position unless the opportunity is priced at exactly 0, where the share
    count [position_size / current_price] raises [ZeroDivisionError]; the
    loop of [evaluate_and_execute] has no handler, so an accepted
    opportunity priced at 0 makes it raise. *)
Theorem mock_execution_fails_at_price_zero float_of_str config today self
    (opportunity : Base.MarketOpportunity) (rest : list Base.MarketOpportunity)
    (position_size : Z) :
  MOCK_TRADING config = true ->
  (~ Base.current_price opportunity == 0 -> position_size <> 0%Z ->
     Main.execute_trade config opportunity position_size = Py.Ok true) /\
  (Base.current_price opportunity == 0 ->
     Main.execute_trade config opportunity position_size
       = Py.Raise Py.ZeroDivisionError /\
     forall ev self',
       Risk.evaluate_opportunity float_of_str config today self
         (Base.to_dict opportunity) = Py.Ok (ev, self') ->
       Risk.should_trade ev = true ->
       Main.evaluate_and_execute float_of_str config today self
         (opportunity :: rest) = Py.Raise Py.ZeroDivisionError).
Proof.
  intro Hmock. split.
  - intros Hprice Hsize. unfold Main.execute_trade. rewrite Hmock.
    rewrite (div_ok _ _ Hprice). cbn [Py.bind].
    rewrite div_ok; [reflexivity |].
    intro E. apply Hsize.
    unfold Qeq in E. simpl in E. lia.
  - intro Hzero.
    assert (Hexec : forall size,
              Main.execute_trade config opportunity size
              = Py.Raise Py.ZeroDivisionError).
    { intro size. unfold Main.execute_trade, Py.div. rewrite Hmock.
      apply eqb_eq in Hzero. rewrite Hzero. reflexivity. }
    split; [apply Hexec |].
    intros ev self' E Htrade. unfold Main.evaluate_and_execute.
    change (firstn 10 (opportunity :: rest))
      with (opportunity :: firstn 9 rest).
    simpl. rewrite E. cbn [Py.bind]. rewrite Htrade, Hexec. reflexivity.
Qed.

Lemma mock_execution_fails_at_price_zero_witness :
  let opp := Base.MarketOpportunity_init "m" "q" "YES" 0 0.8 0.9 30 [] 0.1
               100000 None in
  Main.execute_trade default_config opp 20
    = Py.Raise Py.ZeroDivisionError /\
  Main.evaluate_and_execute (fun _ => None) default_config 100%Z
    (Risk.RiskManager_init 100%Z) [opp] = Py.Raise Py.ZeroDivisionError /\
  Main.execute_trade default_config
    (Base.MarketOpportunity_init "m" "q" "YES" 0.5 0.8 0.9 30 [] 0.1 100000 None)
    15 = Py.Ok true.
Proof.
  intro opp.
  destruct (mock_execution_fails_at_price_zero (fun _ => None) default_config
              100%Z (Risk.RiskManager_init 100%Z) opp [] 20 eq_refl)
    as [_ Hzero].
  destruct (Hzero ltac:(reflexivity)) as [Hexec Hloop].
  split; [exact Hexec |]. split.
  - eapply Hloop; [vm_compute; reflexivity | reflexivity].
  - apply (mock_execution_fails_at_price_zero (fun _ => None) default_config
             100%Z (Risk.RiskManager_init 100%Z) _ [] 15 eq_refl).
    + vm_compute. discriminate.
    + discriminate.
Defined.

(** ** What the rationale of a rejection names *)

Section RationaleFacts.

Import Base Risk.

Variable float_of_str : string -> option Q.
Variable config : Config.
Variable today : date.

Lemma mentions_join (sep part x : string) (parts : list string) :
  In (part ++ x)%string parts ->
  Props.mentions (Py.join sep parts) part.
Proof.
  induction parts as [| p rest IH]; intro Hin; [contradiction |].
  destruct Hin as [-> | Hin].
  - destruct (join_head sep (part ++ x)%string rest) as [tail ->].
    exists ""%string, (x ++ tail)%string. simpl.
    apply append_assoc_str.
  - destruct rest as [| r rest']; [contradiction |].
    destruct (IH Hin) as [before [after Hj]].
    exists (p ++ sep ++ before)%string, after.
    change (Py.join sep (p :: r :: rest'))
      with (p ++ sep ++ Py.join sep (r :: rest'))%string.
    rewrite Hj, !append_assoc_str. reflexivity.
Qed.

(** The rationale of a rejection is the one [_generate_reasoning] writes
    from the manager the call started with. *)
Lemma rejection_reasoning self opportunity ev self' :
  evaluate_opportunity float_of_str config today self opportunity
    = Py.Ok (ev, self') ->
  should_trade ev = false ->
  reasoning ev
  = fst (_generate_reasoning config today self opportunity false
           (final_confidence ev) (e_risk_score ev)).
Proof.
  intros E Hrej. unfold evaluate_opportunity in E.
  destruct (calculate_position_size _ _ _) as [size | e]; [| discriminate].
  cbn [Py.bind] in E.
  set (rs := Helpers.calculate_risk_score _ _ _ _) in E.
  set (fc := get (d_confidence opportunity) 0 * (1 - rs)) in E.
  assert (Hfalse : forall s,
            (let '(text, s') := _generate_reasoning config today s opportunity
                                  false fc rs in
             Py.Ok ({| should_trade := false; position_size := size;
                       final_confidence := fc; e_risk_score := rs;
                       reasoning := text |}, s')) = Py.Ok (ev, self') ->
            reasoning ev
            = fst (_generate_reasoning config today s opportunity false
                     (final_confidence ev) (e_risk_score ev))).
  { intros s Hs.
    destruct (_generate_reasoning config today s opportunity false fc rs)
      as [text s'] eqn:G.
    injection Hs as <- <-.
    cbn [reasoning final_confidence e_risk_score]. rewrite G. reflexivity. }
  destruct (Py.leb _ fc); [| exact (Hfalse _ E)].
  destruct (size >? 0)%Z; [| exact (Hfalse _ E)].
  destruct (Py.ltb 5 _); [| exact (Hfalse _ E)].
  destruct (Py.ltb rs 0.5); [| exact (Hfalse _ E)].
  rewrite can_trade_pair in E.
  destruct (fst (can_trade config today self)).
  - exfalso.
    destruct (_generate_reasoning _ _ _ _ true _ _) as [text s'].
    injection E as <- <-. discriminate.
  - apply Hfalse in E.
    rewrite generate_reasoning_after_reset in E. exact E.
Qed.

Lemma rejection_reasons self opportunity fc rs :
  exists reasons,
    fst (_generate_reasoning config today self opportunity false fc rs)
    = Py.join ". " reasons /\
    (fc < MIN_CONFIDENCE_THRESHOLD config ->
     exists x, In ("信心度不足" ++ x)%string reasons) /\
    (get (d_expected_value opportunity) 0 <= 5 ->
     exists x, In ("期望值过小" ++ x)%string reasons) /\
    (0.5 < rs -> exists x, In ("风险评分过高" ++ x)%string reasons) /\
    (fst (can_trade config today self) = false ->
     exists x, In ("已达到交易限制" ++ x)%string reasons).
Proof.
  unfold _generate_reasoning. rewrite can_trade_pair.
  eexists. split; [reflexivity |].
  case_ltb fc (MIN_CONFIDENCE_THRESHOLD config);
    case_leb (get (d_expected_value opportunity) 0) 5;
    case_ltb 0.5 rs;
    destruct (fst (can_trade config today self));
    cbn [negb];
    (split; [intro C; try (exfalso; lra); eexists;
             repeat (apply in_or_app; left); left; reflexivity |]);
    (split; [intro C; try (exfalso; lra); eexists;
             repeat first [ left; reflexivity
                          | apply in_or_app; right; left; reflexivity
                          | apply in_or_app; left ] |]);
    (split; [intro C; try (exfalso; lra); eexists;
             repeat first [ left; reflexivity
                          | apply in_or_app; right; left; reflexivity
                          | apply in_or_app; left ] |]);
    (intro C; try discriminate; exists ""%string;
     apply in_or_app; right; left; reflexivity).
Qed.

End RationaleFacts.

(** X6.  When [evaluate_opportunity] rejects, its rationale names each of
    these failures that occurred: a final confidence under the threshold, an
    expected value of 5 or less, a risk score above 0.5, and a daily-trade or
    open-position limit reached. *)
Theorem rejection_rationale_names_failures float_of_str config today self
    (opportunity : Base.OpportunityDict) ev self' :
  Risk.evaluate_opportunity float_of_str config today self opportunity
    = Py.Ok (ev, self') ->
  Risk.should_trade ev = false ->
  (Risk.final_confidence ev < MIN_CONFIDENCE_THRESHOLD config ->
   Props.mentions (Risk.reasoning ev) "信心度不足") /\
  (Base.get (Base.d_expected_value opportunity) 0 <= 5 ->
   Props.mentions (Risk.reasoning ev) "期望值过小") /\
  (0.5 < Risk.e_risk_score ev ->
   Props.mentions (Risk.reasoning ev) "风险评分过高") /\
  ((MAX_DAILY_TRADES config
      <= Risk.daily_trades (Risk.reset_daily_counter today self))%Z \/
   (MAX_OPEN_POSITIONS config
      <= Risk.open_positions (Risk.reset_daily_counter today self))%Z ->
   Props.mentions (Risk.reasoning ev) "已达到交易限制").
Proof.
  intros E Hrej.
  rewrite (rejection_reasoning float_of_str config today self opportunity ev
             self' E Hrej).
  destruct (rejection_reasons config today self opportunity
              (Risk.final_confidence ev) (Risk.e_risk_score ev))
    as [reasons [-> [H1 [H2 [H3 H4]]]]].
  split; [| split; [| split]].
  - intro C. destruct (H1 C) as [x Hin]. exact (mentions_join _ _ _ _ Hin).
  - intro C. destruct (H2 C) as [x Hin]. exact (mentions_join _ _ _ _ Hin).
  - intro C. destruct (H3 C) as [x Hin]. exact (mentions_join _ _ _ _ Hin).
  - intro C.
    assert (Hct : fst (Risk.can_trade config today self) = false).
    { destruct (fst (Risk.can_trade config today self)) eqn:F; [| reflexivity].
      apply can_trade_true in F. lia. }
    destruct (H4 Hct) as [x Hin]. exact (mentions_join _ _ _ _ Hin).
Qed.

(** Ten trades already made today, an opportunity worth 3 with low volume. *)
Lemma rejection_rationale_names_failures_witness :
  exists ev self',
    Risk.evaluate_opportunity (fun _ => None) default_config 100%Z
      {| Risk.daily_trades := 10%Z; Risk.last_reset := 100%Z;
         Risk.open_positions := 0%Z |}
      (Base.to_dict
         (Base.MarketOpportunity_init "m" "q" "YES" 0.5 0.55 0.5 3 [] 0.1
            1000 (Some 3))) = Py.Ok (ev, self') /\
    Props.mentions (Risk.reasoning ev) "信心度不足" /\
    Props.mentions (Risk.reasoning ev) "期望值过小" /\
    Props.mentions (Risk.reasoning ev) "风险评分过高" /\
    Props.mentions (Risk.reasoning ev) "已达到交易限制".
Proof.
  destruct (Risk.evaluate_opportunity (fun _ => None) default_config 100%Z
              {| Risk.daily_trades := 10%Z; Risk.last_reset := 100%Z;
                 Risk.open_positions := 0%Z |}
              (Base.to_dict
                 (Base.MarketOpportunity_init "m" "q" "YES" 0.5 0.55 0.5 3 []
                    0.1 1000 (Some 3)))) as [[ev self'] | e] eqn:E.
  - exists ev, self'. split; [reflexivity |].
    destruct (rejection_rationale_names_failures _ _ _ _ _ _ _ E)
      as [H1 [H2 [H3 H4]]].
    + vm_compute in E. injection E as <- <-. reflexivity.
    + split; [apply H1; vm_compute in E; injection E as <- <-;
              vm_compute; reflexivity |].
      split; [apply H2; vm_compute; discriminate |].
      split; [apply H3; vm_compute in E; injection E as <- <-;
              vm_compute; reflexivity |].
      apply H4. left. vm_compute. discriminate.
  - vm_compute in E. discriminate.
Defined.

(** ** Aggregation, further *)

Section AggregateFacts.

Import Base Main.

(** Proposals for pairwise different markets all go into the dictionary,
    in their order. *)
Lemma fold_dedup_distinct rest : forall d,
  NoDup (map market_id rest) ->
  (forall k, In k (map market_id rest) -> ~ In k (map fst d)) ->
  fold_left dedup_step rest d = d ++ map (fun o => (market_id o, o)) rest.
Proof.
  induction rest as [| opp rest IH]; intros d Hnd Hfresh; simpl.
  - rewrite app_nil_r. reflexivity.
  - inversion Hnd as [| ? ? Hnotin Hnd']; subst.
    assert (Hl : lookup (market_id opp) d = None).
    { destruct (lookup (market_id opp) d) eqn:E; [| reflexivity].
      exfalso. apply (Hfresh (market_id opp)); [left; reflexivity |].
      apply lookup_In_keys. congruence. }
    unfold dedup_step at 2. rewrite Hl, (assign_absent _ _ _ Hl).
    rewrite IH.
    + rewrite <- app_assoc. reflexivity.
    + exact Hnd'.
    + intros k Hk. rewrite map_app, in_app_iff. simpl.
      intros [Hd | [Heq | []]].
      * apply (Hfresh k); [right; exact Hk | exact Hd].
      * subst k. contradiction.
Qed.

Lemma deduplicate_distinct all :
  NoDup (map market_id all) -> values (deduplicate all) = all.
Proof.
  intro Hnd. unfold deduplicate, values.
  rewrite fold_dedup_distinct; [| exact Hnd | intros k _ []].
  simpl. rewrite map_map. simpl. apply map_id.
Qed.

Lemma sort_desc_sorted_id l :
  StronglySorted Spec.ev_ge l -> sort_desc l = l.
Proof.
  induction l as [| x l IH]; intro Hs; [reflexivity |].
  inversion Hs as [| ? ? Hl Hx]; subst. simpl. rewrite (IH Hl).
  destruct l as [| y l']; [reflexivity |]. simpl.
  inversion Hx as [| ? ? Hxy _]; subst. unfold Spec.ev_ge in Hxy.
  apply ltb_ge in Hxy. rewrite Hxy. reflexivity.
Qed.

Lemma aggregate_ids_NoDup all : NoDup (map market_id (aggregate all)).
Proof.
  apply (Permutation_NoDup (l := map market_id (values (deduplicate all)))).
  - apply Permutation_map, Permutation_sym, sort_desc_perm.
  - rewrite kept_ids. apply dedup_keys_NoDup.
Qed.

Lemma aggregate_length all :
  List.length (aggregate all)
  = List.length (first_seen [] (map market_id all)).
Proof.
  unfold aggregate.
  rewrite (Permutation_length (sort_desc_perm _)).
  rewrite <- (length_map market_id), kept_ids.
  destruct (deduplicate_inv all) as [_ [_ ->]]. reflexivity.
Qed.

Lemma first_seen_length ids : forall seen,
  (List.length (first_seen seen ids) <= List.length ids)%nat.
Proof.
  induction ids as [| k ids IH]; intro seen; simpl; [lia |].
  destruct (existsb (String.eqb k) seen); simpl.
  - specialize (IH seen). lia.
  - specialize (IH (k :: seen)). lia.
Qed.

End AggregateFacts.

(** X7.  Aggregating twice changes nothing: the aggregation of an
    aggregated list is that list. *)
Theorem aggregate_idempotent (all : list Base.MarketOpportunity) :
  Main.aggregate (Main.aggregate all) = Main.aggregate all.
Proof.
  unfold Main.aggregate at 1.
  rewrite (deduplicate_distinct _ (aggregate_ids_NoDup all)).
  apply sort_desc_sorted_id. apply sort_desc_sorted.
Qed.

(** X8.  When no two proposals share a market id the aggregation drops
    nothing: its result is a rearrangement of the proposals, sorted by
    expected value. *)
Theorem aggregate_keeps_distinct_markets (all : list Base.MarketOpportunity) :
  NoDup (map Base.market_id all) ->
  Main.aggregate all = Main.sort_desc all /\
  Permutation (Main.aggregate all) all.
Proof.
  intro Hnd. unfold Main.aggregate.
  rewrite (deduplicate_distinct all Hnd).
  split; [reflexivity | apply sort_desc_perm].
Qed.

Lemma aggregate_keeps_distinct_markets_witness :
  let mk id ev :=
    Base.MarketOpportunity_init id "q" "YES" 0.5 0.8 0.9 ev [] 0.1 100000 None in
  Main.aggregate [mk "a" 5; mk "b" 25; mk "c" 10]%string
  = Main.sort_desc [mk "a" 5; mk "b" 25; mk "c" 10]%string /\
  Permutation (Main.aggregate [mk "a" 5; mk "b" 25; mk "c" 10]%string)
    [mk "a" 5; mk "b" 25; mk "c" 10]%string.
Proof.
  intro mk.
  apply (aggregate_keeps_distinct_markets
           [mk "a" 5; mk "b" 25; mk "c" 10]%string).
  simpl. repeat constructor; simpl; intuition discriminate.
Defined.

(** X9.  The first opportunity the aggregation returns has the greatest
    expected value of all proposals; the result has one entry per distinct
    market id, so it is no longer than the input and empty only for an empty
    input. *)
Theorem aggregate_head_is_best (all : list Base.MarketOpportunity) :
  (forall best rest,
     Main.aggregate all = best :: rest ->
     forall o, In o all -> Base.expected_value o <= Base.expected_value best) /\
  List.length (Main.aggregate all)
    = List.length (Main.first_seen [] (map Base.market_id all)) /\
  (List.length (Main.aggregate all) <= List.length all)%nat /\
  (Main.aggregate all = [] <-> all = []).
Proof.
  split; [| split; [| split]].
  - intros best rest Hagg o Ho.
    destruct (every_market_kept all o Ho) as [kept [Hkept Hid]].
    destruct (kept_is_best all kept Hkept) as [_ Hmax].
    apply (Qle_trans _ (Base.expected_value kept)).
    + apply Hmax; [exact Ho | congruence].
    + apply aggregate_In in Hkept. rewrite Hagg in Hkept.
      pose proof (sort_desc_sorted (Main.values (Main.deduplicate all))) as Hs.
      fold (Main.aggregate all) in Hs. rewrite Hagg in Hs.
      destruct Hkept as [<- | Hin]; [apply Qle_refl |].
      inversion Hs as [| ? ? _ Hall]; subst.
      rewrite Forall_forall in Hall. exact (Hall kept Hin).
  - apply aggregate_length.
  - rewrite aggregate_length.
    rewrite <- (length_map Base.market_id all). apply first_seen_length.
  - split.
    + intro Hnil. destruct all as [| o all']; [reflexivity |].
      destruct (every_market_kept (o :: all') o (or_introl eq_refl))
        as [kept [Hkept _]].
      apply aggregate_In in Hkept. rewrite Hnil in Hkept. contradiction.
    + intros ->. reflexivity.
Qed.

Lemma aggregate_head_is_best_witness :
  let mk id ev :=
    Base.MarketOpportunity_init id "q" "YES" 0.5 0.8 0.9 ev [] 0.1 100000 None in
  let all := [mk "a" 5; mk "b" 25; mk "a" 10]%string in
  Main.aggregate all = [mk "b" 25; mk "a" 10]%string /\
  forall o, In o all -> Base.expected_value o <= 25.
Proof.
  intros mk all.
  assert (E : Main.aggregate all = [mk "b" 25; mk "a" 10]%string)
    by (vm_compute; reflexivity).
  split; [exact E |].
  exact (proj1 (aggregate_head_is_best all) _ _ E).
Defined.

(** ** Kelly sizing and the risk score, further *)

Lemma kelly_raw_monotone (e1 e2 current_price cf max_position : Q) :
  current_price < 1 -> 0 <= cf -> 0 <= max_position -> e1 <= e2 ->
  e1 / (1 - current_price) * cf * max_position
  <= e2 / (1 - current_price) * cf * max_position.
Proof.
  intros Hp Hcf Hmp He.
  assert (Hinv : 0 < / (1 - current_price)).
  { apply Qinv_lt_0_compat. lra. }
  unfold Qdiv. set (i := / (1 - current_price)) in *.
  assert (H1 : e1 * i <= e2 * i).
  { apply Qmult_le_compat_r; [exact He | apply Qlt_le_weak; exact Hinv]. }
  assert (H2 : e1 * i * cf <= e2 * i * cf).
  { apply Qmult_le_compat_r; assumption. }
  apply Qmult_le_compat_r; assumption.
Qed.

Lemma py_min_monotone (a b limit : Q) :
  a <= b -> Py.min a limit <= Py.min b limit.
Proof.
  intro H. unfold Py.min.
  case_ltb limit a; case_ltb limit b; lra.
Qed.

Lemma max0_int_monotone (a b : Q) :
  a <= b -> (Z.max 0 (Py.int a) <= Z.max 0 (Py.int b))%Z.
Proof.
  intro H. rewrite !max0_int_floor.
  pose proof (Qfloor_resp_le a b H). lia.
Qed.

(** X10.  Below a price of 1, with a non-negative factor and maximum
    position, the Kelly size never shrinks when the edge grows, and it is 0
    for an edge of 0 or less. *)
Theorem kelly_size_grows_with_edge
    (e1 e2 current_price max_position risk_limit conservative_factor : Q) :
  current_price < 1 -> 0 <= conservative_factor -> 0 <= max_position ->
  (e1 <= e2 ->
   exists s1 s2,
     Helpers.calculate_kelly_size e1 current_price max_position risk_limit
       conservative_factor = Py.Ok s1 /\
     Helpers.calculate_kelly_size e2 current_price max_position risk_limit
       conservative_factor = Py.Ok s2 /\
     (s1 <= s2)%Z) /\
  (e1 <= 0 ->
   Helpers.calculate_kelly_size e1 current_price max_position risk_limit
     conservative_factor = Py.Ok 0%Z).
Proof.
  intros Hp Hcf Hmp. split.
  - intro He. rewrite !(kelly_below_one _ _ _ _ _ Hp).
    eexists _, _. split; [reflexivity |]. split; [reflexivity |].
    apply max0_int_monotone, py_min_monotone, kelly_raw_monotone; assumption.
  - intro He. rewrite (kelly_below_one _ _ _ _ _ Hp). f_equal.
    rewrite max0_int_floor.
    assert (Hraw : e1 / (1 - current_price) * conservative_factor * max_position
                   <= 0).
    { eapply Qle_trans;
        [apply (kelly_raw_monotone e1 0 current_price); assumption |].
      unfold Qdiv. rewrite !Qmult_0_l. apply Qle_refl. }
    assert (Hmin : Py.min (e1 / (1 - current_price) * conservative_factor
                           * max_position) risk_limit <= 0).
    { unfold Py.min. match goal with |- context [Py.ltb ?a ?b] => case_ltb a b end;
        lra. }
    pose proof (Qfloor_resp_le _ _ Hmin) as Hf.
    change (Qfloor 0) with 0%Z in Hf. lia.
Qed.

Lemma kelly_size_grows_with_edge_witness :
  (exists s1 s2,
     Helpers.calculate_kelly_size 0.1 0.5 100 50 0.25 = Py.Ok s1 /\
     Helpers.calculate_kelly_size 0.3 0.5 100 50 0.25 = Py.Ok s2 /\
     (s1 <= s2)%Z) /\
  Helpers.calculate_kelly_size (-0.1) 0.5 100 50 0.25 = Py.Ok 0%Z.
Proof.
  split.
  - apply (proj1 (kelly_size_grows_with_edge 0.1 0.3 0.5 100 50 0.25
                    ltac:(reflexivity) ltac:(discriminate) ltac:(discriminate))).
    discriminate.
  - apply (proj2 (kelly_size_grows_with_edge (-0.1) 0.3 0.5 100 50 0.25
                    ltac:(reflexivity) ltac:(discriminate) ltac:(discriminate))).
    discriminate.
Defined.

(** X11.  [safe_float] makes [calculate_risk_score] total on bad input, and
    bad input is scored as zero: a missing or unparsable volume gets the
    low-volume penalty, a missing or unparsable edge the thin-edge penalty,
    and an unparsable time to expiry, like a missing one, no time penalty. *)
Theorem risk_score_of_bad_input float_of_str
    (volume hours_to_expiry edge : option Helpers.arg) (text : string) :
  float_of_str text = None ->
  Helpers.calculate_risk_score float_of_str (Some (Helpers.AStr text))
    hours_to_expiry edge
  = Helpers.calculate_risk_score float_of_str (Some (Helpers.ANum 0))
      hours_to_expiry edge /\
  Helpers.calculate_risk_score float_of_str None hours_to_expiry edge
  = Helpers.calculate_risk_score float_of_str (Some (Helpers.ANum 0))
      hours_to_expiry edge /\
  Helpers.calculate_risk_score float_of_str volume hours_to_expiry
    (Some (Helpers.AStr text))
  = Helpers.calculate_risk_score float_of_str volume hours_to_expiry
      (Some (Helpers.ANum 0)) /\
  Helpers.calculate_risk_score float_of_str volume (Some (Helpers.AStr text))
    edge
  = Helpers.calculate_risk_score float_of_str volume None edge /\
  0.3 <= Helpers.calculate_risk_score float_of_str (Some (Helpers.AStr text))
           hours_to_expiry edge /\
  0.4 <= Helpers.calculate_risk_score float_of_str volume hours_to_expiry
           (Some (Helpers.AStr text)).
Proof.
  intro Hbad.
  assert (Hv : Helpers.calculate_risk_score float_of_str
                 (Some (Helpers.AStr text)) hours_to_expiry edge
               = Helpers.calculate_risk_score float_of_str
                   (Some (Helpers.ANum 0)) hours_to_expiry edge).
  { unfold Helpers.calculate_risk_score, Helpers.safe_float. rewrite Hbad.
    reflexivity. }
  assert (He : Helpers.calculate_risk_score float_of_str volume hours_to_expiry
                 (Some (Helpers.AStr text))
               = Helpers.calculate_risk_score float_of_str volume
                   hours_to_expiry (Some (Helpers.ANum 0))).
  { unfold Helpers.calculate_risk_score, Helpers.safe_float. rewrite Hbad.
    reflexivity. }
  split; [exact Hv |]. split; [reflexivity |]. split; [exact He |].
  split.
  { unfold Helpers.calculate_risk_score, Helpers.safe_float. rewrite Hbad.
    reflexivity. }
  split.
  - rewrite Hv. unfold Helpers.calculate_risk_score.
    set (e := match Helpers.safe_float float_of_str edge (Some 0) with
              | Some e => e | None => 0 end).
    set (h := match hours_to_expiry with
              | Some h => Helpers.safe_float float_of_str (Some h) None
              | None => None end).
    cbn [Helpers.safe_float].
    replace (Py.ltb 0 50000) with true by reflexivity.
    destruct (Py.ltb e 0.1); destruct h as [h |];
      try destruct (Py.truthy h && Py.ltb h 24)%bool; lra.
  - rewrite He. unfold Helpers.calculate_risk_score.
    set (v := match Helpers.safe_float float_of_str volume (Some 0) with
              | Some v => v | None => 0 end).
    set (h := match hours_to_expiry with
              | Some h => Helpers.safe_float float_of_str (Some h) None
              | None => None end).
    cbn [Helpers.safe_float].
    replace (Py.ltb 0 0.1) with true by reflexivity.
    destruct (Py.ltb v 50000); destruct h as [h |];
      try destruct (Py.truthy h && Py.ltb h 24)%bool; lra.
Qed.

Lemma risk_score_of_bad_input_witness :
  Helpers.calculate_risk_score (fun _ => None) (Some (Helpers.AStr "n/a"))
    (Some (Helpers.ANum 100)) (Some (Helpers.ANum 0.2))
  = Helpers.calculate_risk_score (fun _ => None) (Some (Helpers.ANum 0))
      (Some (Helpers.ANum 100)) (Some (Helpers.ANum 0.2)) /\
  0.3 <= Helpers.calculate_risk_score (fun _ => None)
           (Some (Helpers.AStr "n/a")) (Some (Helpers.ANum 100))
           (Some (Helpers.ANum 0.2)).
Proof.
  destruct (risk_score_of_bad_input (fun _ => None) None
              (Some (Helpers.ANum 100)) (Some (Helpers.ANum 0.2)) "n/a"
              eq_refl) as [H1 [_ [_ [_ [H5 _]]]]].
  split; [exact H1 | exact H5].
Defined.

(** X12.  The strategies' own risk score ([BaseStrategy.calculate_risk_score])
    and the risk manager's ([calculate_risk_score] of the helpers) give the
    same score for the same volume, edge and time to expiry, except when the
    time to expiry is exactly zero; a market without a usable end date is
    scored like a missing time to expiry. *)
Theorem strategy_and_manager_scores_agree strptime now float_of_str
    (market : LLMExpiring.Market) (edge : option Helpers.arg) :
  (forall end_date_str end_date,
     LLMExpiring.m_endDate market = Some end_date_str ->
     Helpers.parse_market_end_date strptime end_date_str = Some end_date ->
     ~ Helpers.hours_until_expiry now end_date == 0 ->
     LLMExpiring.calculate_risk_score strptime now float_of_str market edge
     = Helpers.calculate_risk_score float_of_str
         (Some (Helpers.ANum (Base.get (LLMExpiring.m_volume market) 0)))
         (Some (Helpers.ANum (Helpers.hours_until_expiry now end_date)))
         edge) /\
  ((LLMExpiring.m_endDate market = None \/
    exists end_date_str,
      LLMExpiring.m_endDate market = Some end_date_str /\
      Helpers.parse_market_end_date strptime end_date_str = None) ->
   LLMExpiring.calculate_risk_score strptime now float_of_str market edge
   = Helpers.calculate_risk_score float_of_str
       (Some (Helpers.ANum (Base.get (LLMExpiring.m_volume market) 0)))
       None edge).
Proof.
  split.
  - intros end_date_str end_date Hend Hparse Hnz.
    unfold LLMExpiring.calculate_risk_score, Helpers.calculate_risk_score.
    rewrite Hend, Hparse. cbn [Helpers.safe_float].
    assert (T : Py.truthy (Helpers.hours_until_expiry now end_date) = true).
    { unfold Py.truthy. apply eqb_neq in Hnz. rewrite Hnz. reflexivity. }
    rewrite T. reflexivity.
  - intros [Hnone | [end_date_str [Hend Hparse]]];
      unfold LLMExpiring.calculate_risk_score, Helpers.calculate_risk_score.
    + rewrite Hnone. reflexivity.
    + rewrite Hend, Hparse. reflexivity.
Qed.

Lemma strategy_and_manager_scores_agree_witness :
  let market := {|
    LLMExpiring.m_conditionId := Some "c1"%string;
    LLMExpiring.m_question := Some "q"%string;
    LLMExpiring.m_description := None;
    LLMExpiring.m_endDate := Some "2026-01-01"%string;
    LLMExpiring.m_volume := Some 20000;
    LLMExpiring.m_outcomePrices := Some [0.97; 0.03];
    LLMExpiring.m_marketMakerData := None;
    LLMExpiring.m_bestBid := None;
    LLMExpiring.m_bestAsk := None;
    LLMExpiring.m_outcomes := None |} in
  LLMExpiring.calculate_risk_score (fun _ _ => Some 360000) 324000
    (fun _ => None) market (Some (Helpers.ANum 0.2))
  = Helpers.calculate_risk_score (fun _ => None) (Some (Helpers.ANum 20000))
      (Some (Helpers.ANum (Helpers.hours_until_expiry 324000 360000)))
      (Some (Helpers.ANum 0.2)).
Proof.
  intro market.
  apply (proj1 (strategy_and_manager_scores_agree (fun _ _ => Some 360000)
                  324000 (fun _ => None) market (Some (Helpers.ANum 0.2)))
           "2026-01-01"%string 360000).
  - reflexivity.
  - reflexivity.
  - vm_compute. discriminate.
Defined.

(** ** The model endpoint and the model-assisted strategy, further *)





(** X14.  [analyze_market] of the model-assisted expiring strategy returns
    the empty list, without raising, for a market that has no end date,
    whose end date does not parse, whose time to expiry is outside the
    window, or whose volume is under the floor; neither the model nor the
    rules are consulted. *)
Theorem ineligible_market_yields_nothing
    strptime _parse_llm_response py_str llm_call now
    (self : LLMExpiring.Strategy) (market : LLMExpiring.Market) :
  (LLMExpiring.m_endDate market = None ->
   LLMExpiring.analyze_market strptime _parse_llm_response py_str llm_call now
     self market = Py.Ok []) /\
  (forall end_date_str,
     LLMExpiring.m_endDate market = Some end_date_str ->
     Helpers.parse_market_end_date strptime end_date_str = None ->
     LLMExpiring.analyze_market strptime _parse_llm_response py_str llm_call
       now self market = Py.Ok []) /\
  (forall end_date_str end_date,
     LLMExpiring.m_endDate market = Some end_date_str ->
     Helpers.parse_market_end_date strptime end_date_str = Some end_date ->
     LLMExpiring.max_hours_to_expiry self
       < Helpers.hours_until_expiry now end_date \/
     Helpers.hours_until_expiry now end_date
       < LLMExpiring.min_hours_to_expiry self \/
     Base.get (LLMExpiring.m_volume market) 0 < LLMExpiring.min_volume self ->
     LLMExpiring.analyze_market strptime _parse_llm_response py_str llm_call
       now self market = Py.Ok []).
Proof.
  split; [| split].
  - intro H. unfold LLMExpiring.analyze_market. rewrite H. reflexivity.
  - intros s Hs Hp. unfold LLMExpiring.analyze_market. rewrite Hs, Hp.
    reflexivity.
  - intros s d Hs Hp Hout. unfold LLMExpiring.analyze_market.
    rewrite Hs, Hp.
    destruct (Py.ltb (LLMExpiring.max_hours_to_expiry self) _) eqn:E1;
      [reflexivity |].
    destruct (Py.ltb _ (LLMExpiring.min_hours_to_expiry self)) eqn:E2;
      [reflexivity |].
    cbn [orb].
    destruct (Py.ltb _ (LLMExpiring.min_volume self)) eqn:E3; [reflexivity |].
    apply ltb_ge in E1, E2, E3. exfalso.
    destruct Hout as [H | [H | H]]; lra.
Qed.

(** A market of volume 5000 under the floor of 10000, ten hours from
    expiry and priced at 0.97. *)
Lemma ineligible_market_yields_nothing_witness :
  let market := {|
    LLMExpiring.m_conditionId := Some "c1"%string;
    LLMExpiring.m_question := Some "q"%string;
    LLMExpiring.m_description := None;
    LLMExpiring.m_endDate := Some "2026-01-01"%string;
    LLMExpiring.m_volume := Some 5000;
    LLMExpiring.m_outcomePrices := Some [0.97; 0.03];
    LLMExpiring.m_marketMakerData := None;
    LLMExpiring.m_bestBid := None;
    LLMExpiring.m_bestAsk := None;
    LLMExpiring.m_outcomes := None |} in
  LLMExpiring.analyze_market (fun _ _ => Some 360000) (fun _ => None)
    (fun _ => ""%string) (fun _ _ => None) 324000
    (LLMExpiring.Strategy_init default_config true) market = Py.Ok [].
Proof.
  intro market.
  apply (proj2 (proj2 (ineligible_market_yields_nothing
                         (fun _ _ => Some 360000) (fun _ => None)
                         (fun _ => ""%string) (fun _ _ => None) 324000
                         (LLMExpiring.Strategy_init default_config true)
                         market)) "2026-01-01"%string 360000).
  - reflexivity.
  - reflexivity.
  - right. right. reflexivity.
Defined.

(** X15.  [extract_prices] never returns an empty list: it returns the
    decoded [outcomePrices] when there are any, and falls back in turn to the
    market-maker prices, the bid/ask midpoint and the default [[0.5]]. *)
Theorem extract_prices_never_empty (market : LLMExpiring.Market) :
  LLMExpiring.extract_prices market <> [] /\
  (forall p ps,
     LLMExpiring.m_outcomePrices market = Some (p :: ps) ->
     LLMExpiring.extract_prices market = p :: ps) /\
  ((LLMExpiring.m_outcomePrices market = None \/
    LLMExpiring.m_outcomePrices market = Some []) ->
   (forall p ps,
      LLMExpiring.m_marketMakerData market = Some (p :: ps) ->
      LLMExpiring.extract_prices market = p :: ps) /\
   ((LLMExpiring.m_marketMakerData market = None \/
     LLMExpiring.m_marketMakerData market = Some []) ->
    (forall bid ask,
       LLMExpiring.m_bestBid market = Some bid ->
       LLMExpiring.m_bestAsk market = Some ask ->
       LLMExpiring.extract_prices market = [(bid + ask) / 2]) /\
    ((LLMExpiring.m_bestBid market = None \/
      LLMExpiring.m_bestAsk market = None) ->
     LLMExpiring.extract_prices market = [0.5]))).
Proof.
  unfold LLMExpiring.extract_prices, Base.get.
  split; [| split].
  - destruct (LLMExpiring.m_outcomePrices market) as [[| p ps] |];
      destruct (LLMExpiring.m_marketMakerData market) as [[| q qs] |];
      destruct (LLMExpiring.m_bestBid market);
      destruct (LLMExpiring.m_bestAsk market); discriminate.
  - intros p ps ->. reflexivity.
  - intros Hop. split.
    + intros p ps ->. destruct Hop as [-> | ->]; reflexivity.
    + intros Hmm. split.
      * intros bid ask -> ->.
        destruct Hop as [-> | ->]; destruct Hmm as [-> | ->]; reflexivity.
      * intros Hba.
        destruct Hop as [-> | ->]; destruct Hmm as [-> | ->];
          destruct Hba as [-> | ->];
          try reflexivity;
          destruct (LLMExpiring.m_bestBid market); reflexivity.
Qed.

Lemma extract_prices_never_empty_witness :
  let market := {|
    LLMExpiring.m_conditionId := Some "c1"%string;
    LLMExpiring.m_question := Some "q"%string;
    LLMExpiring.m_description := None;
    LLMExpiring.m_endDate := None;
    LLMExpiring.m_volume := Some 5000;
    LLMExpiring.m_outcomePrices := Some [];
    LLMExpiring.m_marketMakerData := None;
    LLMExpiring.m_bestBid := Some 0.4;
    LLMExpiring.m_bestAsk := Some 0.5;
    LLMExpiring.m_outcomes := None |} in
  LLMExpiring.extract_prices market = [(0.4 + 0.5) / 2].
Proof.
  intro market.
  destruct (extract_prices_never_empty market) as [_ [_ H]].
  destruct (H (or_intror eq_refl)) as [_ Hmm].
  destruct (Hmm (or_introl eq_refl)) as [Hmid _].
  apply Hmid; reflexivity.
Defined.



Lemma min_le_l (a b : Q) : Py.min a b <= a.
Proof.
  unfold Py.min. case_ltb b a; lra.
Qed.

Section AcceptanceFacts.

Import Base LLMExpiring.

Variable _parse_llm_response : string -> option (list (string * json)).
Variable py_str : json -> string.
Variable llm_call : Prompt -> nat -> option string.
Variable self : Strategy.




End AcceptanceFacts.





(* ===================================================================== *)
(** ** The rule-based news signal *)
(* ===================================================================== *)

Section NewsFacts.

Lemma count_sentiment_bounds label articles :
  (0 <= News.count_sentiment label articles
     <= Z.of_nat (List.length articles))%Z.
Proof.
  unfold News.count_sentiment. split; [lia |].
  apply inj_le.
  induction articles as [| a l IH]; simpl; [lia |].
  destruct (String.eqb (News.sentiment a) label); simpl; lia.
Qed.

Lemma inject_Z_pos (t : Z) : (0 < t)%Z -> 0 < inject_Z t.
Proof. intro H. unfold Qlt. simpl. lia. Qed.

Lemma inject_Z_nonneg (t : Z) : (0 <= t)%Z -> 0 <= inject_Z t.
Proof. intro H. unfold Qle. simpl. lia. Qed.

Lemma ratio_bounds (c t : Z) :
  (0 <= c <= t)%Z ->
  0 <= (if (t >? 0)%Z then inject_Z c / inject_Z t else 0) <= 1.
Proof.
  intros [Hc Hct].
  destruct (t >? 0)%Z eqn:Et; [| lra].
  apply Z.gtb_lt in Et.
  assert (Ht : 0 < inject_Z t) by (apply inject_Z_pos; exact Et).
  assert (Hc' : 0 <= inject_Z c) by (apply inject_Z_nonneg; exact Hc).
  assert (Hct' : inject_Z c <= inject_Z t) by (rewrite <- Zle_Qle; exact Hct).
  split.
  - apply Qle_shift_div_l; [exact Ht | lra].
  - apply Qle_shift_div_r; [exact Ht | lra].
Qed.

(** The ratio exceeds 0.6 exactly when the count exceeds six tenths of the
    total. *)
Lemma ratio_above (c t : Z) :
  0.6 < (if (t >? 0)%Z then inject_Z c / inject_Z t else 0) ->
  (6 * t < 10 * c)%Z.
Proof.
  destruct (t >? 0)%Z eqn:Et; [| lra].
  apply Z.gtb_lt in Et. intro H.
  assert (Ht : 0 < inject_Z t) by (apply inject_Z_pos; exact Et).
  assert (H' : 0.6 * inject_Z t < inject_Z c).
  { apply (Qmult_lt_r _ _ (inject_Z t) Ht) in H.
    setoid_replace (inject_Z c / inject_Z t * inject_Z t) with (inject_Z c)
      in H by (field; lra).
    exact H. }
  assert (H'' : inject_Z (6 * t) < inject_Z (10 * c)).
  { rewrite !inject_Z_mult. 
    change (inject_Z 6) with 6. change (inject_Z 10) with 10. lra. }
  rewrite <- Zlt_Qlt in H''. exact H''.
Qed.

End NewsFacts.

(** X18.  The rule-based news signal has a confidence between 0.5 and
    0.95, keeps the first five articles at most, and is one of bullish,
    bearish and neutral: bullish only when more than 60% of the articles are
    positive, bearish only when more than 60% are negative and the positive
    ones are no such majority.  Without articles it is neutral at 0.5. *)
Theorem rule_based_signal_is_bounded (title : string)
    (articles : list News.NewsArticle) :
  let s := News._analyze_rule_based title articles in
  let total := Z.of_nat (List.length articles) in
  0.5 <= News.confidence s <= 0.95 /\
  News.articles s = firstn 5 articles /\
  (List.length (News.articles s) <= 5)%nat /\
  News.market s = title /\
  (News.signal s = "bullish"%string \/ News.signal s = "bearish"%string \/
   News.signal s = "neutral"%string) /\
  (News.signal s = "bullish"%string ->
   (6 * total < 10 * News.count_sentiment "positive" articles)%Z) /\
  (News.signal s = "bearish"%string ->
   (6 * total < 10 * News.count_sentiment "negative" articles)%Z /\
   (10 * News.count_sentiment "positive" articles <= 6 * total)%Z) /\
  (articles = [] ->
   News.signal s = "neutral"%string /\ News.confidence s == 0.5).
Proof.
  intros s total. subst s. unfold News._analyze_rule_based.
  fold total.
  pose proof (count_sentiment_bounds "positive" articles) as Hp.
  pose proof (count_sentiment_bounds "negative" articles) as Hn.
  fold total in Hp, Hn.
  pose proof (ratio_bounds _ _ Hp) as Rp.
  pose proof (ratio_bounds _ _ Hn) as Rn.
  pose proof (ratio_above (News.count_sentiment "positive" articles) total)
    as Ap.
  pose proof (ratio_above (News.count_sentiment "negative" articles) total)
    as An.
  assert (Hnot : ~ 0.6 < (if (total >? 0)%Z
                          then inject_Z (News.count_sentiment "positive" articles)
                               / inject_Z total else 0) ->
                 (10 * News.count_sentiment "positive" articles <= 6 * total)%Z).
  { intro H. destruct (total >? 0)%Z eqn:Et.
    - apply Z.gtb_lt in Et.
      apply Z.le_ngt. intro Hlt. apply H.
      assert (Ht : 0 < inject_Z total) by (apply inject_Z_pos; exact Et).
      apply Qlt_shift_div_l; [exact Ht |].
      rewrite Zlt_Qlt in Hlt. rewrite !inject_Z_mult in Hlt.
      change (inject_Z 6) with 6 in Hlt. change (inject_Z 10) with 10 in Hlt.
      lra.
    - destruct Hp as [Hp0 Hpt].
      rewrite Z.gtb_ltb in Et. apply Z.ltb_ge in Et. lia. }
  set (rp := if (total >? 0)%Z
             then inject_Z (News.count_sentiment "positive" articles)
                  / inject_Z total else 0) in *.
  set (rn := if (total >? 0)%Z
             then inject_Z (News.count_sentiment "negative" articles)
                  / inject_Z total else 0) in *.
  set (bonus := Py.min 0.2 (inject_Z total * 0.02)).
  assert (Hb : 0 <= bonus <= 0.2).
  { subst bonus. split; [| apply min_le_l].
    unfold Py.min. case_ltb (inject_Z total * 0.02) 0.2; [| lra].
    assert (0 <= inject_Z total)
      by (apply inject_Z_nonneg; subst total; lia).
    nra. }
  assert (Hlen : (List.length (firstn 5 articles) <= 5)%nat)
    by (rewrite length_firstn; lia).
  assert (Hempty : articles = [] -> rp == 0 /\ rn == 0 /\ bonus == 0).
  { intro He. unfold rp, rn, bonus, total. rewrite He.
    vm_compute. repeat split; reflexivity. }
  case_ltb 0.6 rp; [| case_ltb 0.6 rn]; cbn [News.confidence News.articles
    News.market News.signal].
  - split; [split; [| apply min_le_l] |].
    { unfold Py.min. case_ltb (rp + bonus) 0.95; lra. }
    repeat split; auto; try discriminate;
      exfalso; destruct (Hempty H) as [H0 _]; lra.
  - split; [split; [| apply min_le_l] |].
    { unfold Py.min. case_ltb (rn + bonus) 0.95; lra. }
    repeat split; auto; try discriminate;
      try (apply Hnot; lra);
      exfalso; destruct (Hempty H) as [_ [H0 _]]; lra.
  - split; [split; [| apply min_le_l] |].
    { unfold Py.min. case_ltb (0.5 + bonus) 0.95; lra. }
    repeat split; auto; try discriminate.
    destruct (Hempty H) as [_ [_ H0]].
    unfold Py.min. case_ltb (0.5 + bonus) 0.95; lra.
Qed.

(* ===================================================================== *)
(** ** The signals of the interactive strategy *)
(* ===================================================================== *)

(** X19.  The price signal does not depend on the outcome name, lies
    between 0.2 and 0.8 and never rises with the price. *)
Theorem price_signal_falls_with_price (p q : Q) (o1 o2 : string) :
  p <= q ->
  Interactive._calculate_price_signal p o1
  = Interactive._calculate_price_signal p o2 /\
  0.2 <= Interactive._calculate_price_signal p o1 <= 0.8 /\
  Interactive._calculate_price_signal q o2
  <= Interactive._calculate_price_signal p o1.
Proof.
  intro H. unfold Interactive._calculate_price_signal.
  destruct (String.eqb o1 "YES"), (String.eqb o2 "YES");
    case_ltb p 0.2; case_ltb p 0.35; case_ltb 0.8 p; case_ltb 0.65 p;
    case_ltb q 0.2; case_ltb q 0.35; case_ltb 0.8 q; case_ltb 0.65 q;
    try lra; (split; [reflexivity | split; lra]).
Qed.

Lemma price_signal_falls_with_price_witness :
  Interactive._calculate_price_signal 0.1 "YES"
  = Interactive._calculate_price_signal 0.1 "NO" /\
  0.2 <= Interactive._calculate_price_signal 0.1 "YES" <= 0.8 /\
  Interactive._calculate_price_signal 0.9 "NO"
  <= Interactive._calculate_price_signal 0.1 "YES".
Proof.
  apply (price_signal_falls_with_price 0.1 0.9 "YES" "NO"). lra.
Defined.

(** X20.  The volume signal lies between 0.3 and 0.9, never falls when the
    volume grows, and is the weakest one, 0.3, up to a volume of 50000. *)
Theorem volume_signal_grows_with_volume (v w : Q) :
  v <= w ->
  Interactive._calculate_volume_signal v
  <= Interactive._calculate_volume_signal w /\
  0.3 <= Interactive._calculate_volume_signal v <= 0.9 /\
  (v <= 50000 -> Interactive._calculate_volume_signal v == 0.3).
Proof.
  intro H. unfold Interactive._calculate_volume_signal.
  case_ltb 1000000 v; case_ltb 500000 v; case_ltb 100000 v;
    case_ltb 50000 v;
    case_ltb 1000000 w; case_ltb 500000 w; case_ltb 100000 w;
    case_ltb 50000 w;
    try lra; (split; [lra | split; [lra | intro; lra]]).
Qed.

Lemma volume_signal_grows_with_volume_witness :
  Interactive._calculate_volume_signal 50000
  <= Interactive._calculate_volume_signal 600000 /\
  0.3 <= Interactive._calculate_volume_signal 50000 <= 0.9 /\
  (50000 <= 50000 -> Interactive._calculate_volume_signal 50000 == 0.3).
Proof.
  apply (volume_signal_grows_with_volume 50000 600000). lra.
Defined.

(** X21.  The confidence of the interactive strategy is capped at 0.95,
    is at least [0.5 + 0.3 * edge] below the cap, and does not fall when the
    edge grows. *)
Theorem interactive_confidence_is_capped (edge edge' : Q)
    (news_signal : option News.NewsSignal) (volume price_signal : Q) :
  edge <= edge' ->
  Interactive._calculate_confidence edge news_signal volume price_signal
  <= 0.95 /\
  Py.min (0.5 + edge * 0.3) 0.95
  <= Interactive._calculate_confidence edge news_signal volume price_signal /\
  Interactive._calculate_confidence edge news_signal volume price_signal
  <= Interactive._calculate_confidence edge' news_signal volume price_signal.
Proof.
  intro H. unfold Interactive._calculate_confidence.
  set (vol := fun c : Q =>
         if Py.ltb 500000 volume then c + 0.2
         else if Py.ltb 100000 volume then c + 0.1 else c).
  set (nb := Py.min (inject_Z (Interactive.article_count news_signal) * 0.05)
               0.2).
  assert (Hnb : 0 <= nb).
  { subst nb. unfold Py.min.
    case_ltb 0.2 (inject_Z (Interactive.article_count news_signal) * 0.05);
      [lra |].
    assert (0 <= inject_Z (Interactive.article_count news_signal)).
    { apply inject_Z_nonneg. unfold Interactive.article_count.
      destruct news_signal; lia. }
    nra. }
  split; [apply min_le_r |].
  split.
  - apply Qle_trans with
      (Py.min ((if (Py.ltb 0.7 price_signal || Py.ltb price_signal 0.3)%bool
                then fun c => c + 0.1 else fun c => c)
                 ((if Interactive.has_articles news_signal
                   then fun c => c + nb else fun c => c)
                    (vol (0.5 + edge * 0.3)))) 0.95).
    + apply py_min_monotone. subst vol. cbv beta.
      destruct (Py.ltb 0.7 price_signal || Py.ltb price_signal 0.3)%bool,
        (Interactive.has_articles news_signal),
        (Py.ltb 500000 volume), (Py.ltb 100000 volume); lra.
    + destruct (Py.ltb 0.7 price_signal || Py.ltb price_signal 0.3)%bool,
        (Interactive.has_articles news_signal); subst vol; cbv beta;
        destruct (Py.ltb 500000 volume), (Py.ltb 100000 volume);
        apply Qle_refl.
  - subst vol. cbv beta.
    destruct (Py.ltb 0.7 price_signal || Py.ltb price_signal 0.3)%bool,
      (Interactive.has_articles news_signal),
      (Py.ltb 500000 volume), (Py.ltb 100000 volume);
      apply py_min_monotone; lra.
Qed.

Lemma interactive_confidence_is_capped_witness :
  Interactive._calculate_confidence 0.1 None 600000 0.8 <= 0.95 /\
  Py.min (0.5 + 0.1 * 0.3) 0.95
  <= Interactive._calculate_confidence 0.1 None 600000 0.8 /\
  Interactive._calculate_confidence 0.1 None 600000 0.8
  <= Interactive._calculate_confidence 0.3 None 600000 0.8.
Proof.
  apply (interactive_confidence_is_capped 0.1 0.3 None 600000 0.8). lra.
Defined.

Section NewsSignalFacts.

Import Interactive.

(** An outcome is read only through its being ["YES"]. *)
Lemma news_step_other_outcome (o o' : string) acc article :
  o <> "YES"%string -> o' <> "YES"%string ->
  news_step o acc article = news_step o' acc article.
Proof.
  intros Ho Ho'. apply String.eqb_neq in Ho, Ho'.
  unfold news_step. rewrite Ho, Ho'. reflexivity.
Qed.

Lemma news_fold_other_outcome (o o' : string) articles :
  o <> "YES"%string -> o' <> "YES"%string ->
  forall acc,
    fold_left (news_step o) articles acc
    = fold_left (news_step o') articles acc.
Proof.
  intros Ho Ho'. induction articles as [| a l IH]; intro acc;
    cbn [fold_left]; [reflexivity |].
  rewrite (news_step_other_outcome o o' acc a Ho Ho'). apply IH.
Qed.

(** An article without a sentiment leaves the running sum and count as
    they are. *)
Lemma news_fold_labelled (o : string) articles : forall acc,
  fold_left (news_step o) articles acc
  = fold_left (news_step o)
      (filter (fun a => negb (String.eqb (News.sentiment a) "")) articles)
      acc.
Proof.
  induction articles as [| a l IH]; intro acc; cbn [fold_left filter];
    [reflexivity |].
  destruct (negb (String.eqb (News.sentiment a) "")) eqn:Es.
  - cbn [fold_left]. apply IH.
  - replace (news_step o acc a) with acc; [apply IH |].
    unfold news_step. destruct acc as [t c]. rewrite Es. reflexivity.
Qed.

Lemma news_fold_count (o : string) articles : forall t c,
  snd (fold_left (news_step o) articles (t, c))
  = (c + Z.of_nat
           (List.length
              (filter (fun a => negb (String.eqb (News.sentiment a) ""))
                 articles)))%Z.
Proof.
  induction articles as [| a l IH]; intros t c; cbn [fold_left filter].
  - simpl. lia.
  - destruct (negb (String.eqb (News.sentiment a) "")) eqn:Es.
    + replace (news_step o (t, c) a)
        with (t + (if String.eqb o "YES"
                   then (if String.eqb (News.sentiment a) "positive" then 0.7
                         else if String.eqb (News.sentiment a) "negative"
                              then 0.3 else 0.5)
                   else 1 - (if String.eqb (News.sentiment a) "positive"
                             then 0.7
                             else if String.eqb (News.sentiment a) "negative"
                                  then 0.3 else 0.5)), (c + 1)%Z)
        by (unfold news_step; rewrite Es; reflexivity).
      rewrite IH. cbn [List.length]. lia.
    + replace (news_step o (t, c) a) with (t, c)
        by (unfold news_step; rewrite Es; reflexivity).
      apply IH.
Qed.

End NewsSignalFacts.

(** X22.  The news score reads the outcome only through its being
    ["YES"]: every other outcome name gets the same score.  Articles
    without a sentiment are skipped: the score is the one of the signal
    with those articles taken out.  And the score is the neutral 0.5 when
    there is no signal, no article, or no article with a sentiment.  Each
    statement equates two runs of the same operations, so none depends on
    how the sum and the quotient are rounded. *)
Theorem news_score_skips_unlabelled_articles
    (news_signal : News.NewsSignal) (outcome outcome' : string) :
  outcome <> "YES"%string -> outcome' <> "YES"%string ->
  let labelled :=
    filter (fun a => negb (String.eqb (News.sentiment a) ""))
      (News.articles news_signal) in
  let trimmed := {|
    News.market := News.market news_signal;
    News.signal := News.signal news_signal;
    News.confidence := News.confidence news_signal;
    News.articles := labelled |} in
  Interactive._calculate_news_signal (Some news_signal) outcome
  = Interactive._calculate_news_signal (Some news_signal) outcome' /\
  (forall side,
     Interactive._calculate_news_signal (Some news_signal) side
     = Interactive._calculate_news_signal (Some trimmed) side) /\
  (forall side,
     labelled = [] ->
     Interactive._calculate_news_signal (Some news_signal) side = 0.5) /\
  (forall side, Interactive._calculate_news_signal None side = 0.5).
Proof.
  intros Ho Ho' labelled trimmed.
  assert (Hempty : forall side,
            labelled = [] ->
            Interactive._calculate_news_signal (Some news_signal) side = 0.5).
  { intros side Hl.
    pose proof (news_fold_count side (News.articles news_signal) 0 0%Z) as Hc.
    unfold labelled in Hl. rewrite Hl in Hc.
    unfold Interactive._calculate_news_signal.
    destruct (News.articles news_signal) as [| a l]; [reflexivity |].
    destruct (fold_left (Interactive.news_step side) (a :: l) (0, 0%Z))
      as [t c].
    cbn [snd] in Hc. simpl in Hc. subst c. reflexivity. }
  split; [| split; [| split]].
  - unfold Interactive._calculate_news_signal.
    destruct (News.articles news_signal) as [| a l]; [reflexivity |].
    rewrite (news_fold_other_outcome outcome outcome' (a :: l) Ho Ho').
    reflexivity.
  - intro side.
    destruct labelled as [| b rest] eqn:El.
    + rewrite (Hempty side eq_refl). reflexivity.
    + unfold Interactive._calculate_news_signal at 2.
      cbn [News.articles trimmed].
      unfold Interactive._calculate_news_signal.
      destruct (News.articles news_signal) as [| a l] eqn:Ea;
        [discriminate |].
      rewrite (news_fold_labelled side (a :: l)).
      unfold labelled in El. rewrite El. reflexivity.
  - exact Hempty.
  - intro side. reflexivity.
Qed.

Lemma news_score_skips_unlabelled_articles_witness :
  let article := fun s => {|
    News.title := "t"; News.description := ""; News.url := "";
    News.source := ""; News.published_at := ""; News.sentiment := s;
    News.relevance_score := 0.5 |} in
  let ns := {|
    News.market := "q"; News.signal := "bullish"; News.confidence := 0.7;
    News.articles := [article "positive"; article ""; article "neutral";
                      article "positive"]%string |} in
  let trimmed := {|
    News.market := "q"; News.signal := "bullish"; News.confidence := 0.7;
    News.articles := [article "positive"; article "neutral";
                      article "positive"]%string |} in
  Interactive._calculate_news_signal (Some ns) "NO"
  = Interactive._calculate_news_signal (Some ns) "MAYBE" /\
  Interactive._calculate_news_signal (Some ns) "YES"
  = Interactive._calculate_news_signal (Some trimmed) "YES".
Proof.
  intros article ns trimmed.
  destruct (news_score_skips_unlabelled_articles ns "NO" "MAYBE")
    as [Hsame [Htrim _]]; [discriminate | discriminate |].
  split; [exact Hsame | exact (Htrim "YES"%string)].
Defined.

(* ===================================================================== *)
(** ** The markets the interactive strategy analyses *)
(* ===================================================================== *)

Section SortByFacts.

Import Interactive InteractiveProps.

Context {A : Type} (key : A -> Q).

Lemma insert_desc_by_perm x l :
  Permutation (insert_desc_by key x l) (x :: l).
Proof.
  induction l as [| y l IH]; simpl.
  - apply Permutation_refl.
  - destruct (Py.ltb (key x) (key y)).
    + eapply perm_trans; [apply perm_skip; exact IH | apply perm_swap].
    + apply Permutation_refl.
Qed.

Lemma sort_desc_by_perm l : Permutation (sort_desc_by key l) l.
Proof.
  induction l as [| x l IH]; simpl.
  - apply perm_nil.
  - eapply perm_trans; [apply insert_desc_by_perm | apply perm_skip; exact IH].
Qed.

Lemma insert_desc_by_sorted x l :
  StronglySorted (key_ge key) l ->
  StronglySorted (key_ge key) (insert_desc_by key x l).
Proof.
  induction l as [| y l IH]; simpl; intro Hs.
  - constructor; constructor.
  - inversion Hs as [| ? ? Hl Hy]; subst.
    case_ltb (key x) (key y).
    + constructor; [apply IH; exact Hl |].
      apply Forall_forall. intros z Hz.
      apply (Permutation_in _ (insert_desc_by_perm x l)) in Hz.
      destruct Hz as [<- | Hz].
      * unfold key_ge. apply Qlt_le_weak. exact E.
      * rewrite Forall_forall in Hy. apply Hy. exact Hz.
    + constructor; [exact Hs |].
      constructor; [exact E |].
      apply Forall_forall. intros z Hz.
      rewrite Forall_forall in Hy. specialize (Hy z Hz).
      unfold key_ge in *. eapply Qle_trans; [exact Hy | exact E].
Qed.

Lemma sort_desc_by_sorted l : StronglySorted (key_ge key) (sort_desc_by key l).
Proof.
  induction l as [| x l IH]; simpl.
  - constructor.
  - apply insert_desc_by_sorted. exact IH.
Qed.

Lemma sorted_firstn (R : A -> A -> Prop) n : forall l,
  StronglySorted R l -> StronglySorted R (firstn n l).
Proof.
  induction n as [| n IH]; intros l Hs; simpl; [constructor |].
  destruct l as [| x l]; [constructor |].
  inversion Hs as [| ? ? Hl Hx]; subst.
  constructor; [apply IH; exact Hl |].
  apply Forall_forall. intros y Hy.
  rewrite Forall_forall in Hx. apply Hx.
  rewrite <- (firstn_skipn n l). apply in_or_app. left. exact Hy.
Qed.

(** In a sorted list everything kept by [firstn] is related to everything
    dropped. *)
Lemma sorted_firstn_skipn (R : A -> A -> Prop) n : forall l x y,
  StronglySorted R l -> In x (firstn n l) -> In y (skipn n l) -> R x y.
Proof.
  induction n as [| n IH]; intros l x y Hs Hx Hy; simpl in *; [contradiction |].
  destruct l as [| z l]; [contradiction |].
  inversion Hs as [| ? ? Hl Hz]; subst.
  destruct Hx as [<- | Hx].
  - rewrite Forall_forall in Hz. apply Hz.
    rewrite <- (firstn_skipn n l). apply in_or_app. right. exact Hy.
  - exact (IH l x y Hl Hx Hy).
Qed.

End SortByFacts.

(** X23.  The markets chosen for analysis all come from the input and
    reach the volume threshold.  With trending-topic checking they are at
    most fifty, in descending order of volume, and no market left out
    has more volume than a chosen one; without it every market reaching the
    threshold is chosen. *)
Theorem analysed_markets_are_the_largest (self : Interactive.Strategy)
    (all_markets : list LLMExpiring.Market) :
  let vol := fun m => Base.get (LLMExpiring.m_volume m) 0 in
  let chosen := Interactive._get_markets_to_analyze self all_markets in
  Forall (fun m => In m all_markets /\
                   Interactive.volume_threshold self <= vol m) chosen /\
  (Interactive.check_trending_topics self = false ->
   forall m, In m all_markets ->
             Interactive.volume_threshold self <= vol m -> In m chosen) /\
  (Interactive.check_trending_topics self = true ->
   (List.length chosen <= 50)%nat /\
   StronglySorted (InteractiveProps.key_ge vol) chosen /\
   forall m m',
     In m all_markets -> Interactive.volume_threshold self <= vol m ->
     ~ In m chosen -> In m' chosen -> vol m <= vol m').
Proof.
  intros vol chosen. subst chosen. unfold Interactive._get_markets_to_analyze.
  fold vol.
  set (big := filter (fun m => Py.leb (Interactive.volume_threshold self)
                                 (vol m)) all_markets).
  assert (Hbig : forall m, In m big <->
            In m all_markets /\ Interactive.volume_threshold self <= vol m).
  { intro m. subst big. rewrite filter_In. rewrite leb_le. tauto. }
  destruct (Interactive.check_trending_topics self).
  - split; [| split; [discriminate |]].
    + apply Forall_forall. intros m Hm. apply Hbig.
      apply (Permutation_in _ (sort_desc_by_perm vol big)).
      rewrite <- (firstn_skipn 50 (Interactive.sort_desc_by vol big)).
      apply in_or_app. left. exact Hm.
    + intros _. split; [rewrite length_firstn; lia |].
      split; [apply sorted_firstn, sort_desc_by_sorted |].
      intros m m' Hin Hvol Hout Hin'.
      assert (Hs : In m (Interactive.sort_desc_by vol big)).
      { apply (Permutation_in _ (Permutation_sym (sort_desc_by_perm vol big))).
        apply Hbig. split; assumption. }
      rewrite <- (firstn_skipn 50 (Interactive.sort_desc_by vol big)) in Hs.
      apply in_app_or in Hs. destruct Hs as [Hs | Hs]; [contradiction |].
      exact (sorted_firstn_skipn (InteractiveProps.key_ge vol) 50 _ m' m
               (sort_desc_by_sorted vol big) Hin' Hs).
  - split; [| split; [| discriminate]].
    + apply Forall_forall. intros m Hm. apply Hbig. exact Hm.
    + intros _ m Hin Hvol. apply Hbig. split; assumption.
Qed.

(* ===================================================================== *)
(** ** The opportunities of the interactive strategy *)
(* ===================================================================== *)

Section InteractiveFacts.

Import Base Interactive InteractiveProps.

Variable strptime : string -> string -> option Helpers.datetime.
Variable float_of_str : string -> option Q.
Variable get_market_signals : string -> option News.NewsSignal.
Variable now : Helpers.datetime.
Variable self : Strategy.

Lemma analyze_outcome_vetted market ns vol outcome price opps r :
  vol = get (LLMExpiring.m_volume market) 0 ->
  volume_threshold self <= vol ->
  Forall (vetted self market) opps ->
  analyze_outcome strptime float_of_str now self market ns vol outcome price
    opps = Py.Ok r ->
  Forall (vetted self market) r /\
  (List.length r <= S (List.length opps))%nat.
Proof.
  intros Hvol Hthr Hacc. unfold analyze_outcome.
  destruct (Py.div _ _) as [score | e]; cbn [Py.bind]; [| discriminate].
  case_leb (price_edge_threshold self) (Py.abs (score - 0.5));
    [| intro H; injection H as <-; split; [exact Hacc | lia]].
  match goal with
  | |- context [Py.leb (min_confidence_threshold self) ?c] =>
      set (conf := c);
      assert (Hcap : conf <= 0.95) by (apply min_le_r);
      case_leb (min_confidence_threshold self) conf
  end; [| intro H; injection H as <-; split; [exact Hacc | lia]].
  intro H. injection H as <-. split.
  - apply Forall_app. split; [exact Hacc |].
    constructor; [| constructor].
    unfold vetted, MarketOpportunity_init. cbn.
    repeat split; try assumption; reflexivity.
  - rewrite length_app. simpl. lia.
Qed.

Lemma analyze_loop_vetted market ns vol prices : forall outcomes i opps r,
  vol = get (LLMExpiring.m_volume market) 0 ->
  volume_threshold self <= vol ->
  Forall (vetted self market) opps ->
  analyze_loop strptime float_of_str now self market ns vol prices i outcomes
    opps = Py.Ok r ->
  Forall (vetted self market) r /\
  (List.length r <= List.length outcomes + List.length opps)%nat.
Proof.
  induction outcomes as [| outcome rest IH]; intros i opps r Hvol Hthr Hacc;
    cbn [analyze_loop].
  - intro H. injection H as <-. split; [exact Hacc | simpl; lia].
  - destruct (nth_error prices i) as [price |].
    + destruct (analyze_outcome strptime float_of_str now self market ns vol
                  outcome price opps) as [opps' | e] eqn:E;
        cbn [Py.bind]; [| discriminate].
      destruct (analyze_outcome_vetted _ _ _ _ _ _ _ Hvol Hthr Hacc E)
        as [Hacc' Hlen].
      intro H. destruct (IH _ _ _ Hvol Hthr Hacc' H) as [Hr Hl].
      split; [exact Hr | simpl; lia].
    + intro H. destruct (IH _ _ _ Hvol Hthr Hacc H) as [Hr Hl].
      split; [exact Hr | simpl; lia].
Qed.

Lemma analyze_market_vetted market opps :
  analyze_market strptime float_of_str get_market_signals now self market
  = Py.Ok opps ->
  Forall (vetted self market) opps /\
  (List.length opps
   <= List.length (get (LLMExpiring.m_outcomes market) ["Yes"; "No"]%string))%nat /\
  (get (LLMExpiring.m_volume market) 0 < volume_threshold self -> opps = []).
Proof.
  unfold analyze_market.
  case_ltb (get (LLMExpiring.m_volume market) 0) (volume_threshold self).
  - intro H. injection H as <-.
    split; [constructor | split; [simpl; lia | reflexivity]].
  - intro H.
    destruct (analyze_loop_vetted _ _ _ _ _ _ _ _ eq_refl E (Forall_nil _) H)
      as [Hr Hl].
    split; [exact Hr | split; [simpl in Hl; lia |]].
    intro Hlt. exfalso. lra.
Qed.

(** With weights that add up to zero the normalisation divides by zero. *)
Lemma analyze_outcome_zero_weights market ns vol outcome price opps :
  price_weight self + volume_weight self + sentiment_weight self == 0 ->
  analyze_outcome strptime float_of_str now self market ns vol outcome price
    opps = Py.Raise Py.ZeroDivisionError.
Proof.
  intro H. unfold analyze_outcome, Py.div.
  apply eqb_eq in H. rewrite H. reflexivity.
Qed.

Lemma analyze_loop_zero_weights market ns vol prices :
  price_weight self + volume_weight self + sentiment_weight self == 0 ->
  forall outcomes i opps,
    (analyze_loop strptime float_of_str now self market ns vol prices i
       outcomes opps = Py.Ok opps /\
     (outcomes = [] \/ nth_error prices i = None)) \/
    analyze_loop strptime float_of_str now self market ns vol prices i
      outcomes opps = Py.Raise Py.ZeroDivisionError.
Proof.
  intro H. induction outcomes as [| outcome rest IH]; intros i opps;
    cbn [analyze_loop].
  - left. split; [reflexivity | left; reflexivity].
  - destruct (nth_error prices i) as [price |] eqn:En.
    + right. rewrite (analyze_outcome_zero_weights _ _ _ _ _ _ H).
      reflexivity.
    + destruct (IH (S i) opps) as [[Hok _] | Hraise].
      * left. split; [exact Hok | right; reflexivity].
      * right. exact Hraise.
Qed.

Lemma scan_zero_weights open_positions :
  price_weight self + volume_weight self + sentiment_weight self == 0 ->
  forall markets opps,
    scan strptime float_of_str get_market_signals now self open_positions
      markets opps = Py.Ok opps \/
    exists e,
      scan strptime float_of_str get_market_signals now self open_positions
        markets opps = Py.Raise e.
Proof.
  intro H. induction markets as [| market rest IH]; intro opps;
    cbn [scan].
  - left. reflexivity.
  - destruct (held open_positions market); [apply IH |].
    unfold analyze_market.
    destruct (Py.ltb _ _).
    + cbn [Py.bind]. rewrite app_nil_r. apply IH.
    + match goal with
      | |- context [analyze_loop _ _ _ _ ?m ?ns ?v ?ps ?i ?os ?acc] =>
          destruct (analyze_loop_zero_weights m ns v ps H os i acc)
            as [[Hok _] | Hraise]
      end.
      * rewrite Hok. cbn [Py.bind]. rewrite app_nil_r. apply IH.
      * rewrite Hraise. right. eexists. reflexivity.
Qed.

Lemma chosen_subset all_markets m :
  In m (_get_markets_to_analyze self all_markets) -> In m all_markets.
Proof.
  unfold _get_markets_to_analyze.
  destruct (check_trending_topics self); intro H.
  - assert (H' : In m (sort_desc_by
                         (fun m => get (LLMExpiring.m_volume m) 0)
                         (filter (fun m => Py.leb (volume_threshold self)
                                    (get (LLMExpiring.m_volume m) 0))
                            all_markets))).
    { rewrite <- (firstn_skipn 50 _). apply in_or_app. left. exact H. }
    apply (Permutation_in _ (sort_desc_by_perm _ _)) in H'.
    apply filter_In in H'. apply H'.
  - apply filter_In in H. apply H.
Qed.

Lemma scan_vetted open_positions (pool : list LLMExpiring.Market) :
  forall markets opps r,
    (forall m, In m markets -> In m pool) ->
    Forall (fun o => exists m, In m pool /\ held open_positions m = false /\
                               vetted self m o) opps ->
    scan strptime float_of_str get_market_signals now self open_positions
      markets opps = Py.Ok r ->
    Forall (fun o => exists m, In m pool /\ held open_positions m = false /\
                               vetted self m o) r.
Proof.
  induction markets as [| market rest IH]; intros opps r Hsub Hacc;
    cbn [scan].
  - intro H. injection H as <-. exact Hacc.
  - destruct (held open_positions market) eqn:Eh.
    + apply IH; [| exact Hacc]. intros m Hm. apply Hsub. right. exact Hm.
    + destruct (analyze_market strptime float_of_str get_market_signals now
                  self market) as [found | e] eqn:E;
        cbn [Py.bind]; [| discriminate].
      apply IH; [intros m Hm; apply Hsub; right; exact Hm |].
      apply Forall_app. split; [exact Hacc |].
      destruct (analyze_market_vetted _ _ E) as [Hv _].
      apply Forall_forall. intros o Ho. exists market.
      split; [apply Hsub; left; reflexivity |].
      split; [exact Eh |].
      rewrite Forall_forall in Hv. apply Hv. exact Ho.
Qed.

End InteractiveFacts.

(** X24.  Every opportunity of the interactive analysis of a market has
    been vetted: it carries the market's id, question and volume, the
    volume reaches the threshold, the confidence lies between the
    strategy's minimum and 0.95, the score is at least the edge threshold
    away from 0.5 and the expected value is that distance times 100 times the
    confidence.  There is at most one opportunity per outcome, and none for
    a market below the volume threshold. *)
Theorem interactive_opportunities_are_vetted
    (strptime : string -> string -> option Helpers.datetime)
    (float_of_str : string -> option Q)
    (get_market_signals : string -> option News.NewsSignal)
    (now : Helpers.datetime) (self : Interactive.Strategy)
    (market : LLMExpiring.Market) (opps : list Base.MarketOpportunity) :
  Interactive.analyze_market strptime float_of_str get_market_signals now
    self market = Py.Ok opps ->
  Forall (InteractiveProps.vetted self market) opps /\
  (List.length opps
   <= List.length (Base.get (LLMExpiring.m_outcomes market)
                     ["Yes"; "No"]%string))%nat /\
  (Base.get (LLMExpiring.m_volume market) 0
   < Interactive.volume_threshold self -> opps = []).
Proof.
  apply analyze_market_vetted.
Qed.

Lemma interactive_opportunities_are_vetted_witness :
  let self := {|
    Interactive.enabled := true;
    Interactive.use_news_signals := false;
    Interactive.min_confidence_threshold := 0.7;
    Interactive.price_edge_threshold := 0.05;
    Interactive.volume_threshold := 50000;
    Interactive.max_position_size := 100;
    Interactive.sentiment_weight := 0.3;
    Interactive.price_weight := 0.4;
    Interactive.volume_weight := 0.3;
    Interactive.check_trending_topics := true |} in
  let market := {|
    LLMExpiring.m_conditionId := Some "c1"%string;
    LLMExpiring.m_question := Some "q"%string;
    LLMExpiring.m_description := None;
    LLMExpiring.m_endDate := None;
    LLMExpiring.m_volume := Some 600000;
    LLMExpiring.m_outcomePrices := Some [0.1; 0.9];
    LLMExpiring.m_marketMakerData := None;
    LLMExpiring.m_bestBid := None;
    LLMExpiring.m_bestAsk := None;
    LLMExpiring.m_outcomes := None |} in
  exists opps,
    Interactive.analyze_market (fun _ _ => None) (fun _ => None)
      (fun _ => None) 0 self market = Py.Ok opps /\
    opps <> [] /\
    Forall (InteractiveProps.vetted self market) opps.
Proof.
  intros self market.
  destruct (Interactive.analyze_market (fun _ _ => None) (fun _ => None)
              (fun _ => None) 0 self market) as [opps | e] eqn:E;
    [| vm_compute in E; discriminate].
  exists opps. split; [reflexivity |].
  split.
  - intros ->. vm_compute in E. discriminate.
  - exact (proj1 (interactive_opportunities_are_vetted _ _ _ _ _ _ _ E)).
Defined.

(** X25.  When the three signal weights add up to zero, analysing a
    market that reaches the volume threshold and has an outcome raises
    [ZeroDivisionError], and [find_opportunities], which catches it,
    returns no opportunity whatever the markets are. *)
Theorem zero_weights_find_nothing
    (strptime : string -> string -> option Helpers.datetime)
    (float_of_str : string -> option Q)
    (get_market_signals : string -> option News.NewsSignal)
    (now : Helpers.datetime) (self : Interactive.Strategy)
    (markets : list LLMExpiring.Market) (open_positions : list string) :
  Interactive.price_weight self + Interactive.volume_weight self
  + Interactive.sentiment_weight self == 0 ->
  Interactive.find_opportunities strptime float_of_str get_market_signals now
    self markets open_positions = [] /\
  forall market,
    Interactive.volume_threshold self
    <= Base.get (LLMExpiring.m_volume market) 0 ->
    Base.get (LLMExpiring.m_outcomes market) ["Yes"; "No"]%string <> [] ->
    Interactive.analyze_market strptime float_of_str get_market_signals now
      self market = Py.Raise Py.ZeroDivisionError.
Proof.
  intro H. split.
  - unfold Interactive.find_opportunities.
    destruct (negb (Interactive.enabled self)); [reflexivity |].
    destruct (scan_zero_weights strptime float_of_str get_market_signals now
                self open_positions H
                (Interactive._get_markets_to_analyze self markets) [])
      as [-> | [e ->]]; reflexivity.
  - intros market Hvol Hout. unfold Interactive.analyze_market.
    apply ltb_ge in Hvol. rewrite Hvol.
    match goal with
    | |- Interactive.analyze_loop _ _ _ _ ?m ?ns ?v ?ps ?i ?os ?acc = _ =>
        destruct (analyze_loop_zero_weights strptime float_of_str now self
                    m ns v ps H os i acc) as [[_ [Hnil | Hnone]] | Hraise]
    end.
    + contradiction.
    + exfalso.
      destruct (LLMExpiring.extract_prices market) as [| p ps] eqn:Ep;
        [| discriminate].
      revert Ep. unfold LLMExpiring.extract_prices, Base.get.
      destruct (LLMExpiring.m_outcomePrices market) as [[| ? ?] |];
        destruct (LLMExpiring.m_marketMakerData market) as [[| ? ?] |];
        destruct (LLMExpiring.m_bestBid market);
        destruct (LLMExpiring.m_bestAsk market); discriminate.
    + exact Hraise.
Qed.

Lemma zero_weights_find_nothing_witness :
  let self := {|
    Interactive.enabled := true;
    Interactive.use_news_signals := false;
    Interactive.min_confidence_threshold := 0.7;
    Interactive.price_edge_threshold := 0.05;
    Interactive.volume_threshold := 50000;
    Interactive.max_position_size := 100;
    Interactive.sentiment_weight := 0;
    Interactive.price_weight := 0;
    Interactive.volume_weight := 0;
    Interactive.check_trending_topics := true |} in
  let market := {|
    LLMExpiring.m_conditionId := Some "c1"%string;
    LLMExpiring.m_question := Some "q"%string;
    LLMExpiring.m_description := None;
    LLMExpiring.m_endDate := None;
    LLMExpiring.m_volume := Some 600000;
    LLMExpiring.m_outcomePrices := Some [0.1; 0.9];
    LLMExpiring.m_marketMakerData := None;
    LLMExpiring.m_bestBid := None;
    LLMExpiring.m_bestAsk := None;
    LLMExpiring.m_outcomes := None |} in
  Interactive.find_opportunities (fun _ _ => None) (fun _ => None)
    (fun _ => None) 0 self [market] [] = [] /\
  Interactive.analyze_market (fun _ _ => None) (fun _ => None)
    (fun _ => None) 0 self market = Py.Raise Py.ZeroDivisionError.
Proof.
  intros self market.
  assert (H : Interactive.price_weight self + Interactive.volume_weight self
              + Interactive.sentiment_weight self == 0) by reflexivity.
  destruct (zero_weights_find_nothing (fun _ _ => None) (fun _ => None)
              (fun _ => None) 0 self [market] [] H) as [Hfind Hraise].
  split; [exact Hfind |].
  apply Hraise; [vm_compute; discriminate | discriminate].
Defined.

(** X26.  [find_opportunities] of the interactive strategy returns at most
    ten opportunities, in descending order of expected value times
    confidence, each vetted for a market of the input that is not among the
    open positions; a disabled strategy returns none. *)
Theorem interactive_find_is_bounded
    (strptime : string -> string -> option Helpers.datetime)
    (float_of_str : string -> option Q)
    (get_market_signals : string -> option News.NewsSignal)
    (now : Helpers.datetime) (self : Interactive.Strategy)
    (markets : list LLMExpiring.Market) (open_positions : list string) :
  let found :=
    Interactive.find_opportunities strptime float_of_str get_market_signals
      now self markets open_positions in
  (List.length found <= 10)%nat /\
  StronglySorted
    (InteractiveProps.key_ge
       (fun x => Base.expected_value x * Base.confidence x)) found /\
  Forall (fun o => exists m,
            In m markets /\ Interactive.held open_positions m = false /\
            InteractiveProps.vetted self m o) found /\
  (Interactive.enabled self = false -> found = []).
Proof.
  intro found. subst found. unfold Interactive.find_opportunities.
  destruct (Interactive.enabled self); cbn [negb];
    [| repeat split; try constructor; simpl; lia].
  destruct (Interactive.scan strptime float_of_str get_market_signals now
              self open_positions
              (Interactive._get_markets_to_analyze self markets) [])
    as [opps | e] eqn:E;
    [| repeat split; try constructor; try discriminate; simpl; lia].
  split; [rewrite length_firstn; lia |].
  split; [apply sorted_firstn, sort_desc_by_sorted |].
  split; [| discriminate].
  pose proof (scan_vetted strptime float_of_str get_market_signals now self
                open_positions markets _ [] opps
                (fun m => chosen_subset self markets m)
                (Forall_nil _) E) as Hv.
  apply Forall_forall. intros o Ho.
  rewrite Forall_forall in Hv. apply Hv.
  apply (Permutation_in _
           (sort_desc_by_perm
              (fun x => Base.expected_value x * Base.confidence x) opps)).
  rewrite <- (firstn_skipn 10 _). apply in_or_app. left. exact Ho.
Qed.
